(** * The modal editing engine of prompt-line (class [VimModeManager])

    A shallow embedding of [VimModeManager] from the renderer sources:
    the engine's private fields, the part of the host page it talks to
    (the textarea, the timer table, the callbacks handed to the
    constructor) and every method, written as functions that pass the
    whole state along.

    Conventions.
    - A JavaScript string is the list of its code units; a position is a
      natural number.  Every subtraction of the source is either guarded
      by a test that makes it non-negative or sits under [Math.max(0, _)],
      so truncated subtraction on [nat] computes the same number.
    - [setSelectionRange] stores its arguments as they are passed and
      leaves a record of the call (arguments and buffer length at the
      time), so that statements about "every call" can be made.  A
      textarea moves arguments beyond its text back to the end of the
      text; that is left out, and the statements prove or assume the
      arguments inside the text, or speak of the recorded call.
    - The three paste commands are [async]: the handler only schedules
      them, and the body runs once the clipboard read has settled.  The
      handler therefore queues a job, and [resolvePaste] runs a queued job
      with the outcome of the read.  In a run ([press], [trace]) the job
      settles before the next key is pressed.
    - A run is made of key presses and timer expiries; the engine is the
      only writer of the textarea in it.  What the page may do to the
      textarea on its own is a separate step ([PageSetsTextarea], and
      [reached_page] in the runs of [reached]); a paste that settles
      after further keys is the step [PasteSettles]. *)

From Stdlib Require Import Ascii String List Arith Lia Bool.
Import ListNotations.

Set Implicit Arguments.

(** ** Strings of the program *)

Definition Buffer := list ascii.

Definition newline : ascii := "010"%char.

(** [text[i] !== '\n'] : an index outside the string yields [undefined],
    which differs from the newline. *)
Definition notNewlineAt (t : Buffer) (i : nat) : bool :=
  match nth_error t i with
  | Some c => negb (Ascii.eqb c newline)
  | None => true
  end.

(** [t.slice(a, b)] and [t.slice(a)] for non-negative arguments. *)
Definition slice (a b : nat) (t : Buffer) : Buffer := firstn (b - a) (skipn a t).
Definition sliceFrom (a : nat) (t : Buffer) : Buffer := skipn a t.

(** ** Types of [types/index.ts] *)

Inductive VimMode : Type := normal | insert | visual | visual_line.

Record VimState : Type := mkVimState {
  mode : VimMode;
  yankBuffer : Buffer;
  visualStart : option nat
}.

(** ** The host page *)

Inductive SelectionDirection : Type := forward | backward | nodirection.

Record HTMLTextAreaElement : Type := mkTextarea {
  value : Buffer;
  selectionStart : nat;
  selectionEnd : nat;
  selectionDirection : SelectionDirection;
  dataVimMode : option VimMode
}.

Record KeyboardEvent : Type := mkKey {
  key : string;
  ctrlKey : bool;
  shiftKey : bool
}.

(** What the engine asks of its host, in the order it asks. *)
Inductive HostEffect : Type :=
| SetSelectionRange (start finish : nat) (dir : SelectionDirection) (len : nat)
| UpdateCharCount
| OnModeChange (m : VimMode)
| OnYank (t : Buffer)
| OnWindowClose.

(** The bodies that wait for the clipboard. *)
Inductive PasteJob : Type := PasteAfter | PasteBefore | ReplaceSelection.

(** ** The engine *)

Record Snapshot : Type := mkSnapshot { text : Buffer; cursor : nat }.

Record VimModeManager : Type := mkVim {
  enabled : bool;
  state : VimState;
  undoStack : list Snapshot;
  redoStack : list Snapshot;
  pendingKey : option string;
  pendingKeyTimeout : option nat;
  (* the host, as reached through [domManager], [setTimeout] and the callbacks *)
  textarea : option HTMLTextAreaElement;
  timers : list nat;
  nextTimer : nat;
  effects : list HostEffect;
  pendingPaste : list PasteJob
}.

Definition maxUndoStack : nat := 100.
Definition PENDING_KEY_TIMEOUT : nat := 1000.

(** Field updates. *)
Definition set_mode (x : VimMode) (s : VimState) : VimState :=
  mkVimState x (yankBuffer s) (visualStart s).
Definition set_yankBuffer (x : Buffer) (s : VimState) : VimState :=
  mkVimState (mode s) x (visualStart s).
Definition set_visualStart (x : option nat) (s : VimState) : VimState :=
  mkVimState (mode s) (yankBuffer s) x.

Definition set_enabled (x : bool) (m : VimModeManager) : VimModeManager :=
  mkVim x (state m) (undoStack m) (redoStack m) (pendingKey m) (pendingKeyTimeout m)
        (textarea m) (timers m) (nextTimer m) (effects m) (pendingPaste m).
Definition set_state (x : VimState) (m : VimModeManager) : VimModeManager :=
  mkVim (enabled m) x (undoStack m) (redoStack m) (pendingKey m) (pendingKeyTimeout m)
        (textarea m) (timers m) (nextTimer m) (effects m) (pendingPaste m).
Definition set_undoStack (x : list Snapshot) (m : VimModeManager) : VimModeManager :=
  mkVim (enabled m) (state m) x (redoStack m) (pendingKey m) (pendingKeyTimeout m)
        (textarea m) (timers m) (nextTimer m) (effects m) (pendingPaste m).
Definition set_redoStack (x : list Snapshot) (m : VimModeManager) : VimModeManager :=
  mkVim (enabled m) (state m) (undoStack m) x (pendingKey m) (pendingKeyTimeout m)
        (textarea m) (timers m) (nextTimer m) (effects m) (pendingPaste m).
Definition set_pendingKey (x : option string) (m : VimModeManager) : VimModeManager :=
  mkVim (enabled m) (state m) (undoStack m) (redoStack m) x (pendingKeyTimeout m)
        (textarea m) (timers m) (nextTimer m) (effects m) (pendingPaste m).
Definition set_pendingKeyTimeout (x : option nat) (m : VimModeManager) : VimModeManager :=
  mkVim (enabled m) (state m) (undoStack m) (redoStack m) (pendingKey m) x
        (textarea m) (timers m) (nextTimer m) (effects m) (pendingPaste m).
Definition set_textarea (x : option HTMLTextAreaElement) (m : VimModeManager) : VimModeManager :=
  mkVim (enabled m) (state m) (undoStack m) (redoStack m) (pendingKey m) (pendingKeyTimeout m)
        x (timers m) (nextTimer m) (effects m) (pendingPaste m).
Definition set_timers (x : list nat) (m : VimModeManager) : VimModeManager :=
  mkVim (enabled m) (state m) (undoStack m) (redoStack m) (pendingKey m) (pendingKeyTimeout m)
        (textarea m) x (nextTimer m) (effects m) (pendingPaste m).
Definition set_nextTimer (x : nat) (m : VimModeManager) : VimModeManager :=
  mkVim (enabled m) (state m) (undoStack m) (redoStack m) (pendingKey m) (pendingKeyTimeout m)
        (textarea m) (timers m) x (effects m) (pendingPaste m).
Definition set_effects (x : list HostEffect) (m : VimModeManager) : VimModeManager :=
  mkVim (enabled m) (state m) (undoStack m) (redoStack m) (pendingKey m) (pendingKeyTimeout m)
        (textarea m) (timers m) (nextTimer m) x (pendingPaste m).
Definition set_pendingPaste (x : list PasteJob) (m : VimModeManager) : VimModeManager :=
  mkVim (enabled m) (state m) (undoStack m) (redoStack m) (pendingKey m) (pendingKeyTimeout m)
        (textarea m) (timers m) (nextTimer m) (effects m) x.

(** The engine as its constructor leaves it, attached to a host whose
    textarea is [ta] (or missing). *)
Definition newVimModeManager (ta : option HTMLTextAreaElement) : VimModeManager :=
  mkVim false (mkVimState normal [] None) [] [] None None ta [] 1 [] [].

(** ** Host primitives *)

Definition emit (e : HostEffect) (m : VimModeManager) : VimModeManager :=
  set_effects (effects m ++ [e]) m.

(** [textarea.setSelectionRange(s, e, dir)].  The arguments are kept and
    logged as the engine passes them; a textarea moves arguments beyond
    the length of its text back to that length, which the model leaves
    out.  The statements below prove or assume that the arguments lie
    inside the text, where the two agree; where the engine passes an
    argument beyond the text, the statement is about the logged call. *)
Definition setSelectionRange (s e : nat) (dir : SelectionDirection)
    (m : VimModeManager) : VimModeManager :=
  match textarea m with
  | None => m
  | Some ta =>
      emit (SetSelectionRange s e dir (length (value ta)))
           (set_textarea
              (Some (mkTextarea (value ta) s e dir (dataVimMode ta))) m)
  end.

(** [textarea.value = v].  Each assignment of the source is followed by a
    [setSelectionRange] before the selection is read again. *)
Definition setValue (v : Buffer) (m : VimModeManager) : VimModeManager :=
  match textarea m with
  | None => m
  | Some ta =>
      set_textarea
        (Some (mkTextarea v (selectionStart ta) (selectionEnd ta)
                 (selectionDirection ta) (dataVimMode ta))) m
  end.

(** [textarea.setAttribute('data-vim-mode', md)] *)
Definition setAttribute (md : VimMode) (m : VimModeManager) : VimModeManager :=
  match textarea m with
  | None => m
  | Some ta =>
      set_textarea
        (Some (mkTextarea (value ta) (selectionStart ta) (selectionEnd ta)
                 (selectionDirection ta) (Some md))) m
  end.

Definition updateCharCount (m : VimModeManager) : VimModeManager :=
  emit UpdateCharCount m.

(** [setTimeout] hands out a fresh non-zero handle and arms it;
    [clearTimeout] disarms a handle. *)
Definition setTimeout (m : VimModeManager) : nat * VimModeManager :=
  (nextTimer m, set_nextTimer (S (nextTimer m)) (set_timers (nextTimer m :: timers m) m)).

Definition clearTimeout (id : nat) (m : VimModeManager) : VimModeManager :=
  set_timers (remove Nat.eq_dec id (timers m)) m.

(** Truthiness of [string | null]. *)
Definition truthy (s : option string) : bool :=
  match s with
  | Some k => negb (String.eqb k EmptyString)
  | None => false
  end.

(** ** Line boundaries *)

Fixpoint getLineStart_loop (t : Buffer) (start : nat) : nat :=
  match start with
  | 0 => 0
  | S p => if notNewlineAt t p then getLineStart_loop t p else start
  end.

(** The loop of [getLineEnd] moves [end] up to the length of the text at
    most; [fuel] bounds the number of turns. *)
Fixpoint getLineEnd_loop (t : Buffer) (fuel finish : nat) : nat :=
  match fuel with
  | 0 => finish
  | S f =>
      if (finish <? length t) && notNewlineAt t finish
      then getLineEnd_loop t f (S finish)
      else finish
  end.

Definition lineStartOf (t : Buffer) (pos : nat) : nat := getLineStart_loop t pos.
Definition lineEndOf (t : Buffer) (pos : nat) : nat :=
  getLineEnd_loop t (length t - pos) pos.

Definition getLineStart (pos : nat) (m : VimModeManager) : nat :=
  match textarea m with
  | None => 0
  | Some ta => lineStartOf (value ta) pos
  end.

Definition getLineEnd (pos : nat) (m : VimModeManager) : nat :=
  match textarea m with
  | None => 0
  | Some ta => lineEndOf (value ta) pos
  end.

(** ** Mode and cursor appearance *)

Definition updateCursorAppearance (md : VimMode) (m : VimModeManager) : VimModeManager :=
  match textarea m with
  | None => m
  | Some ta =>
      match md with
      | normal =>
          let pos := selectionStart ta in
          if pos <? length (value ta) then setSelectionRange pos (pos + 1) nodirection m
          else if 0 <? length (value ta) then setSelectionRange (pos - 1) pos nodirection m
          else m
      | insert =>
          let pos := selectionStart ta in
          setSelectionRange pos pos nodirection m
      | visual | visual_line => m
      end
  end.

Definition setMode (md : VimMode) (m : VimModeManager) : VimModeManager :=
  let m := set_state (set_mode md (state m)) m in
  let m := setAttribute md m in
  let m := updateCursorAppearance md m in
  emit (OnModeChange md) m.

(** ** Pending key *)

Definition setPendingKey (k : string) (m : VimModeManager) : VimModeManager :=
  let m := set_pendingKey (Some k) m in
  let m := match pendingKeyTimeout m with
           | Some id => clearTimeout id m
           | None => m
           end in
  let (id, m) := setTimeout m in
  set_pendingKeyTimeout (Some id) m.

Definition clearPendingKey (m : VimModeManager) : VimModeManager :=
  let m := match pendingKeyTimeout m with
           | Some id => set_pendingKeyTimeout None (clearTimeout id m)
           | None => m
           end in
  set_pendingKey None m.

(** The callback given to [setTimeout]; it runs when the armed handle
    [id] expires, and a disarmed handle never runs. *)
Definition timerFires (id : nat) (m : VimModeManager) : VimModeManager :=
  if in_dec Nat.eq_dec id (timers m)
  then set_pendingKeyTimeout None (set_pendingKey None (clearTimeout id m))
  else m.

(** ** Undo and redo *)

Definition snapshotOf (ta : HTMLTextAreaElement) : Snapshot :=
  mkSnapshot (value ta) (selectionStart ta).

(** [Array.prototype.pop]: the last element and the rest. *)
Definition pop (A : Type) (l : list A) : option (A * list A) :=
  match rev l with
  | [] => None
  | x :: r => Some (x, rev r)
  end.

Definition saveState (m : VimModeManager) : VimModeManager :=
  match textarea m with
  | None => m
  | Some ta =>
      let m := set_undoStack (undoStack m ++ [snapshotOf ta]) m in
      let m := if maxUndoStack <? length (undoStack m)
               then set_undoStack (tl (undoStack m)) m
               else m in
      set_redoStack [] m
  end.

Definition undo (m : VimModeManager) : VimModeManager :=
  if length (undoStack m) =? 0 then m else
  match textarea m with
  | None => m
  | Some ta =>
      let m := set_redoStack (redoStack m ++ [snapshotOf ta]) m in
      match pop (undoStack m) with
      | None => m
      | Some (st, rest) =>
          let m := set_undoStack rest m in
          let m := setValue (text st) m in
          let m := setSelectionRange (cursor st) (cursor st) nodirection m in
          updateCharCount m
      end
  end.

Definition redo (m : VimModeManager) : VimModeManager :=
  if length (redoStack m) =? 0 then m else
  match textarea m with
  | None => m
  | Some ta =>
      let m := set_undoStack (undoStack m ++ [snapshotOf ta]) m in
      match pop (redoStack m) with
      | None => m
      | Some (st, rest) =>
          let m := set_redoStack rest m in
          let m := setValue (text st) m in
          let m := setSelectionRange (cursor st) (cursor st) nodirection m in
          updateCharCount m
      end
  end.

(** ** Cursor movement *)

Definition moveCursorLeft (m : VimModeManager) : VimModeManager :=
  match textarea m with
  | None => m
  | Some ta =>
      let newPos := Nat.max 0 (selectionStart ta - 1) in
      let m := setSelectionRange newPos newPos nodirection m in
      updateCursorAppearance (mode (state m)) m
  end.

Definition moveCursorRight (m : VimModeManager) : VimModeManager :=
  match textarea m with
  | None => m
  | Some ta =>
      let newPos := Nat.min (length (value ta)) (selectionStart ta + 1) in
      let m := setSelectionRange newPos newPos nodirection m in
      updateCursorAppearance (mode (state m)) m
  end.

Definition moveCursorUp (m : VimModeManager) : VimModeManager :=
  match textarea m with
  | None => m
  | Some ta =>
      let pos := selectionStart ta in
      let lineStart := getLineStart pos m in
      if lineStart =? 0 then m else
      let prevLineEnd := lineStart - 1 in
      let prevLineStart := getLineStart prevLineEnd m in
      let prevLineLen := prevLineEnd - prevLineStart in
      let col := pos - lineStart in
      let targetCol := Nat.max 0 (Nat.min col (Nat.max 0 (prevLineLen - 1))) in
      let newPos := prevLineStart + targetCol in
      let m := setSelectionRange newPos newPos nodirection m in
      updateCursorAppearance (mode (state m)) m
  end.

Definition moveCursorDown (m : VimModeManager) : VimModeManager :=
  match textarea m with
  | None => m
  | Some ta =>
      let text := value ta in
      let pos := selectionStart ta in
      let lineStart := getLineStart pos m in
      let lineEnd := getLineEnd pos m in
      if length text <=? lineEnd then m else
      let nextLineStart := lineEnd + 1 in
      let nextLineEnd := getLineEnd nextLineStart m in
      let nextLen := nextLineEnd - nextLineStart in
      let col := pos - lineStart in
      let targetCol := Nat.max 0 (Nat.min col (Nat.max 0 (nextLen - 1))) in
      let newPos := nextLineStart + targetCol in
      let m := setSelectionRange newPos newPos nodirection m in
      updateCursorAppearance (mode (state m)) m
  end.

Definition moveCursorToStart (m : VimModeManager) : VimModeManager :=
  match textarea m with
  | None => m
  | Some ta =>
      let m := setSelectionRange 0 0 nodirection m in
      updateCursorAppearance (mode (state m)) m
  end.

Definition moveCursorToEnd (m : VimModeManager) : VimModeManager :=
  match textarea m with
  | None => m
  | Some ta =>
      let len := length (value ta) in
      let m := setSelectionRange len len nodirection m in
      updateCursorAppearance (mode (state m)) m
  end.

Definition moveCursorToLineStart (m : VimModeManager) : VimModeManager :=
  match textarea m with
  | None => m
  | Some ta =>
      let lineStart := getLineStart (selectionStart ta) m in
      let m := setSelectionRange lineStart lineStart nodirection m in
      updateCursorAppearance (mode (state m)) m
  end.

Definition moveCursorToLineEnd (m : VimModeManager) : VimModeManager :=
  match textarea m with
  | None => m
  | Some ta =>
      let lineEnd := getLineEnd (selectionStart ta) m in
      let m := setSelectionRange lineEnd lineEnd nodirection m in
      updateCursorAppearance (mode (state m)) m
  end.

(** ** Text manipulation *)

Definition yank (t : Buffer) (m : VimModeManager) : VimModeManager :=
  let m := set_state (set_yankBuffer t (state m)) m in
  emit (OnYank (yankBuffer (state m))) m.

Definition deleteCharAtCursor (m : VimModeManager) : VimModeManager :=
  let m := saveState m in
  match textarea m with
  | None => m
  | Some ta =>
      let pos := selectionStart ta in
      if pos <? length (value ta) then
        let newText := slice 0 pos (value ta) ++ sliceFrom (pos + 1) (value ta) in
        let m := setValue newText m in
        let m := setSelectionRange pos pos nodirection m in
        updateCharCount m
      else m
  end.

Definition deleteCurrentLine (m : VimModeManager) : VimModeManager :=
  let m := saveState m in
  match textarea m with
  | None => m
  | Some ta =>
      let lineStart := getLineStart (selectionStart ta) m in
      let lineEnd := getLineEnd (selectionStart ta) m in
      let nextLineEnd := if lineEnd <? length (value ta) then lineEnd + 1 else lineEnd in
      let m := yank (slice lineStart nextLineEnd (value ta)) m in
      let newText := slice 0 lineStart (value ta) ++ sliceFrom nextLineEnd (value ta) in
      let m := setValue newText m in
      let m := setSelectionRange lineStart lineStart nodirection m in
      updateCharCount m
  end.

Definition yankCurrentLine (m : VimModeManager) : VimModeManager :=
  match textarea m with
  | None => m
  | Some ta =>
      let lineStart := getLineStart (selectionStart ta) m in
      let lineEnd := getLineEnd (selectionStart ta) m in
      let nextLineEnd := if lineEnd <? length (value ta) then lineEnd + 1 else lineEnd in
      yank (slice lineStart nextLineEnd (value ta)) m
  end.

Definition yankSelection (m : VimModeManager) : VimModeManager :=
  match textarea m with
  | None => m
  | Some ta =>
      yank (slice (Nat.min (selectionStart ta) (selectionEnd ta))
                  (Nat.max (selectionStart ta) (selectionEnd ta)) (value ta)) m
  end.

Definition deleteSelection (m : VimModeManager) : VimModeManager :=
  let m := saveState m in
  match textarea m with
  | None => m
  | Some ta =>
      let start := Nat.min (selectionStart ta) (selectionEnd ta) in
      let finish := Nat.max (selectionStart ta) (selectionEnd ta) in
      let m := yank (slice start finish (value ta)) m in
      let m := setValue (slice 0 start (value ta) ++ sliceFrom finish (value ta)) m in
      let m := setSelectionRange start start nodirection m in
      updateCharCount m
  end.

(** *** Paste

    [readClipboardText] resolves to the clipboard text, or to [null] when
    the read is unavailable or rejected; [clip] is that outcome.  The
    handlers only queue the job. *)

Definition pasteAfterCursor (m : VimModeManager) : VimModeManager :=
  set_pendingPaste (pendingPaste m ++ [PasteAfter]) m.
Definition pasteBeforeCursor (m : VimModeManager) : VimModeManager :=
  set_pendingPaste (pendingPaste m ++ [PasteBefore]) m.
Definition replaceSelectionWithYank (m : VimModeManager) : VimModeManager :=
  set_pendingPaste (pendingPaste m ++ [ReplaceSelection]) m.

(** [(clip && clip.length > 0) ? clip : this.state.yankBuffer] *)
Definition pasteSource (clip : option Buffer) (m : VimModeManager) : Buffer :=
  match clip with
  | Some c => if 0 <? length c then c else yankBuffer (state m)
  | None => yankBuffer (state m)
  end.

Definition pasteAfterCursor_body (clip : option Buffer) (m : VimModeManager) : VimModeManager :=
  let text := pasteSource clip m in
  if length text =? 0 then m else
  let m := saveState m in
  match textarea m with
  | None => m
  | Some ta =>
      let pos := Nat.min (length (value ta)) (selectionStart ta + 1) in
      let m := setValue (slice 0 pos (value ta) ++ text ++ sliceFrom pos (value ta)) m in
      let m := setSelectionRange pos pos nodirection m in
      updateCharCount m
  end.

Definition pasteBeforeCursor_body (clip : option Buffer) (m : VimModeManager) : VimModeManager :=
  let text := pasteSource clip m in
  if length text =? 0 then m else
  let m := saveState m in
  match textarea m with
  | None => m
  | Some ta =>
      let pos := selectionStart ta in
      let m := setValue (slice 0 pos (value ta) ++ text ++ sliceFrom pos (value ta)) m in
      let m := setSelectionRange pos pos nodirection m in
      updateCharCount m
  end.

Definition replaceSelectionWithYank_body (clip : option Buffer) (m : VimModeManager) : VimModeManager :=
  let text := pasteSource clip m in
  if length text =? 0 then m else
  let m := saveState m in
  match textarea m with
  | None => m
  | Some ta =>
      let start := Nat.min (selectionStart ta) (selectionEnd ta) in
      let finish := Nat.max (selectionStart ta) (selectionEnd ta) in
      let m := setValue (slice 0 start (value ta) ++ text ++ sliceFrom finish (value ta)) m in
      let m := setSelectionRange start start nodirection m in
      updateCharCount m
  end.

Definition runPasteJob (clip : option Buffer) (j : PasteJob) (m : VimModeManager) : VimModeManager :=
  match j with
  | PasteAfter => pasteAfterCursor_body clip m
  | PasteBefore => pasteBeforeCursor_body clip m
  | ReplaceSelection => replaceSelectionWithYank_body clip m
  end.

(** The oldest waiting paste settles with clipboard outcome [clip]. *)
Definition resolvePaste (clip : option Buffer) (m : VimModeManager) : VimModeManager :=
  match pendingPaste m with
  | [] => m
  | j :: rest => runPasteJob clip j (set_pendingPaste rest m)
  end.

(** ** Opening a line *)

Definition insertLineBelow (m : VimModeManager) : VimModeManager :=
  let m := saveState m in
  match textarea m with
  | None => m
  | Some ta =>
      let lineEnd := getLineEnd (selectionStart ta) m in
      let newPos := lineEnd + 1 in
      let m := setValue (slice 0 lineEnd (value ta) ++ [newline] ++ sliceFrom lineEnd (value ta)) m in
      let m := setSelectionRange newPos newPos nodirection m in
      let m := updateCharCount m in
      setMode insert m
  end.

Definition insertLineAbove (m : VimModeManager) : VimModeManager :=
  let m := saveState m in
  match textarea m with
  | None => m
  | Some ta =>
      let lineStart := getLineStart (selectionStart ta) m in
      let m := setValue (slice 0 lineStart (value ta) ++ [newline] ++ sliceFrom lineStart (value ta)) m in
      let m := setSelectionRange lineStart lineStart nodirection m in
      let m := updateCharCount m in
      setMode insert m
  end.

(** ** Visual selection *)

Definition setSelectionWithDirection (anchor active : nat) (m : VimModeManager) : VimModeManager :=
  match textarea m with
  | None => m
  | Some _ =>
      if active <? anchor then setSelectionRange active anchor backward m
      else setSelectionRange anchor active forward m
  end.

(** [this.state.visualStart ?? textarea.selectionStart] *)
Definition anchorOr (ta : HTMLTextAreaElement) (m : VimModeManager) : nat :=
  match visualStart (state m) with
  | Some a => a
  | None => selectionStart ta
  end.

Definition getVisualAnchorAndActive (m : VimModeManager) : nat * nat :=
  match textarea m with
  | None => (0, 0)
  | Some ta =>
      let anchor := anchorOr ta m in
      let start := Nat.min (selectionStart ta) (selectionEnd ta) in
      let finish := Nat.max (selectionStart ta) (selectionEnd ta) in
      let active := finish in
      let active := if anchor =? finish then start else active in
      let active := if negb (anchor =? start) && negb (anchor =? finish) then finish else active in
      (anchor, active)
  end.

(** The guard [!textarea || this.state.visualStart === null] that opens
    every extension helper. *)
Definition extensionGuard (m : VimModeManager) : option HTMLTextAreaElement :=
  match textarea m, visualStart (state m) with
  | Some ta, Some _ => Some ta
  | _, _ => None
  end.

Definition extendSelectionLeft (m : VimModeManager) : VimModeManager :=
  match extensionGuard m with
  | None => m
  | Some ta =>
      let (anchor, active) := getVisualAnchorAndActive m in
      let newActive := Nat.max 0 (active - 1) in
      setSelectionWithDirection anchor newActive m
  end.

Definition extendSelectionRight (m : VimModeManager) : VimModeManager :=
  match extensionGuard m with
  | None => m
  | Some ta =>
      let (anchor, active) := getVisualAnchorAndActive m in
      let newActive := Nat.min (length (value ta)) (active + 1) in
      setSelectionWithDirection anchor newActive m
  end.

Definition extendSelectionUp (m : VimModeManager) : VimModeManager :=
  match extensionGuard m with
  | None => m
  | Some ta =>
      let (anchor, active) := getVisualAnchorAndActive m in
      let currentPos := active in
      let currentLineStart := getLineStart currentPos m in
      if currentLineStart =? 0 then m else
      let prevLineEnd := currentLineStart - 1 in
      let prevLineStart := getLineStart prevLineEnd m in
      let prevLen := prevLineEnd - prevLineStart in
      let col := currentPos - currentLineStart in
      let targetCol := Nat.max 0 (Nat.min col prevLen) in
      let newActive := prevLineStart + targetCol in
      setSelectionWithDirection anchor newActive m
  end.

Definition extendSelectionDown (m : VimModeManager) : VimModeManager :=
  match extensionGuard m with
  | None => m
  | Some ta =>
      let (anchor, active) := getVisualAnchorAndActive m in
      let currentPos := active in
      let currentLineStart := getLineStart currentPos m in
      let currentLineEnd := getLineEnd currentPos m in
      if length (value ta) <=? currentLineEnd then m else
      let nextLineStart := currentLineEnd + 1 in
      let nextLineEnd := getLineEnd nextLineStart m in
      let nextLen := nextLineEnd - nextLineStart in
      let col := currentPos - currentLineStart in
      let targetCol := Nat.max 0 (Nat.min col nextLen) in
      let newActive := nextLineStart + targetCol in
      setSelectionWithDirection anchor newActive m
  end.

Definition extendSelectionUpLine (m : VimModeManager) : VimModeManager :=
  match extensionGuard m with
  | None => m
  | Some ta =>
      let (anchor, active) := getVisualAnchorAndActive m in
      let currentLineStart := getLineStart active m in
      if 0 <? currentLineStart then
        let prevLineEnd := currentLineStart - 1 in
        setSelectionWithDirection anchor prevLineEnd m
      else m
  end.

Definition extendSelectionDownLine (m : VimModeManager) : VimModeManager :=
  match extensionGuard m with
  | None => m
  | Some ta =>
      let (anchor, active) := getVisualAnchorAndActive m in
      let currentLineEnd := getLineEnd active m in
      if currentLineEnd <? length (value ta) then
        let nextLineEnd := getLineEnd (currentLineEnd + 1) m in
        setSelectionWithDirection anchor nextLineEnd m
      else m
  end.

(** ** Key handlers *)

Definition keyIs (k lit : string) : bool := String.eqb k lit.
Arguments keyIs k%_string lit%_string.

Definition handleNormalMode (key : string) (ctrl shift : bool)
    (m : VimModeManager) : bool * VimModeManager :=
  match textarea m with
  | None => (false, m)
  | Some ta =>
      if truthy (pendingKey m) then
        let compound := match pendingKey m with
                        | Some p => String.append p key
                        | None => key
                        end in
        let m := clearPendingKey m in
        if keyIs compound "gg" then (true, moveCursorToStart m)
        else if keyIs compound "dd" then (true, deleteCurrentLine m)
        else if keyIs compound "yy" then (true, yankCurrentLine m)
        else (false, m)
      else
        (* what follows the [switch] when a case ends in [break] or none applies *)
        let afterSwitch := ((String.length key =? 1) && negb ctrl, m) in
        if keyIs key "i" then (true, setMode insert m)
        else if keyIs key "I" then (true, setMode insert (moveCursorToLineStart m))
        else if keyIs key "a" then (true, setMode insert (moveCursorRight m))
        else if keyIs key "A" then (true, setMode insert (moveCursorToLineEnd m))
        else if keyIs key "o" then (true, insertLineBelow m)
        else if keyIs key "O" then
          if shift then (true, insertLineAbove m) else afterSwitch
        else if keyIs key "v" then
          let m := set_state (set_visualStart (Some (selectionStart ta)) (state m)) m in
          let pos := selectionStart ta in
          let m := if pos <? length (value ta) then setSelectionRange pos (pos + 1) forward m
                   else if 0 <? pos then setSelectionRange (pos - 1) pos backward m
                   else setSelectionRange pos pos nodirection m in
          (true, setMode visual m)
        else if keyIs key "V" then
          let m := set_state (set_visualStart (Some (getLineStart (selectionStart ta) m)) (state m)) m in
          let m := setSelectionRange (getLineStart (selectionStart ta) m)
                                     (getLineEnd (selectionStart ta) m) nodirection m in
          (true, setMode visual_line m)
        else if keyIs key "h" then (true, moveCursorLeft m)
        else if keyIs key "j" then (true, moveCursorDown m)
        else if keyIs key "k" then (true, moveCursorUp m)
        else if keyIs key "l" then (true, moveCursorRight m)
        else if keyIs key "Backspace" then (true, moveCursorLeft m)
        else if keyIs key "G" then
          if shift then (true, moveCursorToEnd m) else afterSwitch
        else if keyIs key "x" then (true, deleteCharAtCursor m)
        else if keyIs key "u" then (true, undo m)
        else if keyIs key "U" then
          if shift then (true, redo m) else afterSwitch
        else if keyIs key "p" then (true, pasteAfterCursor m)
        else if keyIs key "P" then
          if shift then (true, pasteBeforeCursor m) else afterSwitch
        else if keyIs key "q" then (true, emit OnWindowClose m)
        else if keyIs key "g" || keyIs key "d" || keyIs key "y" then (true, setPendingKey key m)
        else afterSwitch
  end.

Definition handleInsertMode (key : string) (ctrl shift : bool)
    (m : VimModeManager) : bool * VimModeManager :=
  if keyIs key "Escape" || (ctrl && keyIs key "[") then
    let m := saveState m in
    let m := setMode normal m in
    (true, moveCursorLeft m)
  else (false, m).

Definition isVisualLine (m : VimModeManager) : bool :=
  match mode (state m) with
  | visual_line => true
  | _ => false
  end.

(** The part of [handleVisualMode] after the compound-key block. *)
Definition handleVisualKey (key : string) (ta : HTMLTextAreaElement)
    (m : VimModeManager) : bool * VimModeManager :=
  if keyIs key "g" then (true, setPendingKey "g"%string m)
  else if keyIs key "G" then
    let anchor := anchorOr ta m in
    let endPos := length (value ta) in
    if isVisualLine m
    then (true, setSelectionWithDirection anchor (getLineEnd endPos m) m)
    else (true, setSelectionWithDirection anchor endPos m)
  else if keyIs key "y" then
    let m := yankSelection m in
    let m := setSelectionRange (selectionStart ta) (selectionStart ta) nodirection m in
    let m := set_state (set_visualStart None (state m)) m in
    (true, setMode normal m)
  else if keyIs key "d" then
    let m := deleteSelection m in
    let m := set_state (set_visualStart None (state m)) m in
    (true, setMode normal m)
  else if keyIs key "p" then
    let m := replaceSelectionWithYank m in
    let m := set_state (set_visualStart None (state m)) m in
    (true, setMode normal m)
  else if keyIs key "h" then (true, extendSelectionLeft m)
  else if keyIs key "l" then (true, extendSelectionRight m)
  else if keyIs key "j" then
    if isVisualLine m then (true, extendSelectionDownLine m)
    else (true, extendSelectionDown m)
  else if keyIs key "k" then
    if isVisualLine m then (true, extendSelectionUpLine m)
    else (true, extendSelectionUp m)
  else (false, m).

Definition handleVisualMode (key : string) (ctrl shift : bool)
    (m : VimModeManager) : bool * VimModeManager :=
  match textarea m with
  | None => (false, m)
  | Some ta =>
      if keyIs key "Escape" || (ctrl && keyIs key "[") then
        let m := setSelectionRange (selectionStart ta) (selectionStart ta) nodirection m in
        let m := set_state (set_visualStart None (state m)) m in
        (true, setMode normal m)
      else if truthy (pendingKey m) then
        let compound := match pendingKey m with
                        | Some p => String.append p key
                        | None => key
                        end in
        let m := clearPendingKey m in
        if keyIs compound "gg" then
          let anchor := anchorOr ta m in
          (true, setSelectionWithDirection anchor 0 m)
        else handleVisualKey key ta m
      else handleVisualKey key ta m
  end.

Definition handleKeyDown (event : KeyboardEvent) (m : VimModeManager) : bool * VimModeManager :=
  if negb (enabled m) then (false, m) else
  match mode (state m) with
  | normal => handleNormalMode (key event) (ctrlKey event) (shiftKey event) m
  | insert => handleInsertMode (key event) (ctrlKey event) (shiftKey event) m
  | visual | visual_line => handleVisualMode (key event) (ctrlKey event) (shiftKey event) m
  end.

Definition setEnabled (b : bool) (m : VimModeManager) : VimModeManager :=
  let m := set_enabled b m in
  if b then saveState (setMode normal m)
  else setMode insert m.

Definition isEnabled (m : VimModeManager) : bool := enabled m.
Definition getCurrentMode (m : VimModeManager) : VimMode := mode (state m).

Definition cleanup (m : VimModeManager) : VimModeManager :=
  match pendingKeyTimeout m with
  | Some id => set_pendingKeyTimeout None (clearTimeout id m)
  | None => m
  end.

(** ** Driving the engine

    One key press as the page sees it: the handler runs to its end, then
    the paste it may have queued settles with clipboard outcome [clip]
    before the next key arrives. *)
Definition keyPress (clip : option Buffer) (event : KeyboardEvent)
    (m : VimModeManager) : bool * VimModeManager :=
  let (handled, m) := handleKeyDown event m in
  (handled, resolvePaste clip m).

Definition press (clip : option Buffer) (event : KeyboardEvent)
    (m : VimModeManager) : VimModeManager :=
  snd (keyPress clip event m).

Fixpoint pressAll (evs : list (option Buffer * KeyboardEvent))
    (m : VimModeManager) : VimModeManager :=
  match evs with
  | [] => m
  | (clip, ev) :: rest => pressAll rest (press clip ev m)
  end.

(** A key without modifiers, and with Shift held. *)
Definition plain (k : string) : KeyboardEvent := mkKey k false false.
Definition shifted (k : string) : KeyboardEvent := mkKey k false true.

(** Text literals for examples. *)
Definition buf (s : string) : Buffer := list_ascii_of_string s.

(** ** Predicates used in the statements *)

(** The selection lies inside the buffer, lower bound first. *)
Definition selectionInBounds (ta : HTMLTextAreaElement) : Prop :=
  selectionStart ta <= selectionEnd ta /\ selectionEnd ta <= length (value ta).

(** A recorded [setSelectionRange] call passed arguments inside the
    buffer it was applied to, lower bound first. *)
Definition callInBounds (e : HostEffect) : Prop :=
  match e with
  | SetSelectionRange s f _ len => s <= f /\ f <= len
  | _ => True
  end.

Definition snapshotInBounds (s : Snapshot) : Prop := cursor s <= length (text s).

(** What holds of the logs and stacks whatever the textarea looks like. *)
Definition recordsOk (m : VimModeManager) : Prop :=
  Forall callInBounds (effects m) /\
  Forall snapshotInBounds (undoStack m) /\
  Forall snapshotInBounds (redoStack m).

Definition textareaOk (m : VimModeManager) : Prop :=
  forall ta, textarea m = Some ta -> selectionInBounds ta.

(** While a Visual mode is active the anchor lies inside the buffer. *)
Definition anchorOk (m : VimModeManager) : Prop :=
  match mode (state m) with
  | visual | visual_line =>
      forall a ta, visualStart (state m) = Some a -> textarea m = Some ta ->
                   a <= length (value ta)
  | normal | insert => True
  end.

(** The invariant of the engine between two key presses. *)
Definition engineOk (m : VimModeManager) : Prop :=
  recordsOk m /\ textareaOk m /\ anchorOk m /\ pendingPaste m = [].

(** The block caret of Normal mode: one character selected, the last one
    when the caret sits at the end, nothing on an empty buffer. *)
Definition blockCursorAt (pos : nat) (ta : HTMLTextAreaElement) : Prop :=
  (pos < length (value ta) ->
     selectionStart ta = pos /\ selectionEnd ta = pos + 1) /\
  (pos = length (value ta) -> 0 < length (value ta) ->
     selectionStart ta = pos - 1 /\ selectionEnd ta = pos) /\
  (length (value ta) = 0 ->
     selectionStart ta = 0 /\ selectionEnd ta = 0).

(** The same, without naming the position. *)
Definition isBlockCursor (ta : HTMLTextAreaElement) : Prop :=
  (selectionStart ta < length (value ta) /\ selectionEnd ta = selectionStart ta + 1) \/
  (length (value ta) = 0 /\ selectionStart ta = 0 /\ selectionEnd ta = 0).

(** The logs, the stacks and the selection are all in order. *)
Definition sound (m : VimModeManager) : Prop := recordsOk m /\ textareaOk m.

(** The two stacks together never hold more than the capacity. *)
Definition stackBound (m : VimModeManager) : Prop :=
  length (undoStack m) + length (redoStack m) <= maxUndoStack.

(** The anchor lies inside the buffer, whatever the mode. *)
Definition anchorBound (m : VimModeManager) : Prop :=
  forall a ta, visualStart (state m) = Some a -> textarea m = Some ta ->
               a <= length (value ta).

Definition bufferOf (m : VimModeManager) : option Buffer :=
  option_map value (textarea m).

(** [step m m']: going from [m] to [m'] keeps the records in order, keeps
    the stacks within the capacity, and changes neither the mode nor the
    queue of waiting pastes. *)
Definition step (m m' : VimModeManager) : Prop :=
  (sound m -> sound m') /\
  (stackBound m -> stackBound m') /\
  mode (state m') = mode (state m) /\
  pendingPaste m' = pendingPaste m.

(** [arrive md m m']: like [step], but [m'] is in mode [md]. *)
Definition arrive (md : VimMode) (m m' : VimModeManager) : Prop :=
  (sound m -> sound m') /\
  (stackBound m -> stackBound m') /\
  mode (state m') = md /\
  pendingPaste m' = pendingPaste m.

Definition plainMode (md : VimMode) : Prop := md = normal \/ md = insert.

(** [vstep m m']: a move of the selection in a Visual mode; the anchor,
    the text, the stacks and the queue stay as they are, and the records
    stay in order provided the anchor is inside the buffer. *)
Definition vstep (m m' : VimModeManager) : Prop :=
  (sound m -> anchorBound m -> sound m') /\
  undoStack m' = undoStack m /\
  redoStack m' = redoStack m /\
  state m' = state m /\
  pendingPaste m' = pendingPaste m /\
  bufferOf m' = bufferOf m.

(** What a handler leaves behind for [resolvePaste]: nothing, or one job
    queued in Normal mode. *)
Definition pasteQueueOk (m : VimModeManager) : Prop :=
  pendingPaste m = [] \/
  (exists j, pendingPaste m = [j] /\ mode (state m) = normal).

(** [handlerOk m m']: what one run of a key handler guarantees. *)
Definition handlerOk (m m' : VimModeManager) : Prop :=
  (stackBound m -> stackBound m') /\
  (engineOk m -> sound m' /\ anchorOk m' /\ pasteQueueOk m').

(** ** Runs of the engine *)

(** The engine attached to textarea [ta] and switched on. *)
Definition started (ta : HTMLTextAreaElement) : VimModeManager :=
  setEnabled true (newVimModeManager (Some ta)).

(** What happens to a running engine as time passes: a key is pressed
    (and the clipboard answers [clip] should the key paste), or the timer
    with handle [id] runs out. *)
Inductive Occurrence : Type :=
| KeyDown (clip : option Buffer) (ev : KeyboardEvent)
| TimerExpiry (id : nat).

Definition occur (o : Occurrence) (m : VimModeManager) : VimModeManager :=
  match o with
  | KeyDown clip ev => press clip ev m
  | TimerExpiry id => timerFires id m
  end.

(** The states after each occurrence of a sequence. *)
Fixpoint trace (os : list Occurrence) (m : VimModeManager) : list VimModeManager :=
  match os with
  | [] => []
  | o :: rest => occur o m :: trace rest (occur o m)
  end.

(** The states a started engine goes through when every paste has settled
    before the next event, and the page changes the textarea (typing in
    Insert mode, the keys Normal mode leaves to it) only while the engine
    is in Normal or Insert mode.  [typed] is the textarea as the page
    leaves it; a textarea keeps its own selection inside its text. *)
Inductive reached (ta0 : HTMLTextAreaElement) : VimModeManager -> Prop :=
| reached_start : reached ta0 (started ta0)
| reached_key (m : VimModeManager) (clip : option Buffer) (ev : KeyboardEvent) :
    reached ta0 m -> reached ta0 (press clip ev m)
| reached_timer (m : VimModeManager) (id : nat) :
    reached ta0 m -> reached ta0 (timerFires id m)
| reached_page (m : VimModeManager) (typed : HTMLTextAreaElement) :
    reached ta0 m -> plainMode (mode (state m)) -> selectionInBounds typed ->
    reached ta0 (set_textarea (Some typed) m).

(** Everything that can happen to an engine: its public methods, an armed
    timer expiring, a waiting paste settling, the three stack methods
    called on their own, and the page changing the textarea under it. *)
Inductive EngineCall : Type :=
| CallHandleKeyDown (ev : KeyboardEvent)
| CallSetEnabled (b : bool)
| CallCleanup
| TimerExpires (id : nat)
| PasteSettles (clip : option Buffer)
| CallSaveState
| CallUndo
| CallRedo
| PageSetsTextarea (ta : option HTMLTextAreaElement).

Definition perform (c : EngineCall) (m : VimModeManager) : VimModeManager :=
  match c with
  | CallHandleKeyDown ev => snd (handleKeyDown ev m)
  | CallSetEnabled b => setEnabled b m
  | CallCleanup => cleanup m
  | TimerExpires id => timerFires id m
  | PasteSettles clip => resolvePaste clip m
  | CallSaveState => saveState m
  | CallUndo => undo m
  | CallRedo => redo m
  | PageSetsTextarea ta => set_textarea ta m
  end.

Fixpoint performAll (cs : list EngineCall) (m : VimModeManager) : VimModeManager :=
  match cs with
  | [] => m
  | c :: rest => performAll rest (perform c m)
  end.

(** The line break, for text literals. *)
Definition NL : string := String newline EmptyString.

(** A textarea holding [s] with a caret at [pos]. *)
Definition textareaWith (s : string) (pos : nat) : HTMLTextAreaElement :=
  mkTextarea (buf s) pos pos nodirection None.

(** The keys [d], [d], [p]; the read of the clipboard made by [p] gives [clip]. *)
Definition dd_then_p (clip : option Buffer) (m : VimModeManager) : VimModeManager :=
  pressAll [(None, plain "d"); (None, plain "d"); (clip, plain "p")] m.

(** What [saveState] leaves on the undo stack: the snapshot on top, the
    oldest entry gone when the stack was full. *)
Definition pushBounded (s : Snapshot) (stack : list Snapshot) : list Snapshot :=
  (if length stack <? maxUndoStack then stack else tl stack) ++ [s].

(** ** Relations and predicates of the further properties *)

(** The keys of Normal mode that only move the cursor. *)
Definition isMotionKey (ev : KeyboardEvent) : bool :=
  keyIs (key ev) "h" || keyIs (key ev) "j" || keyIs (key ev) "k" ||
  keyIs (key ev) "l" || keyIs (key ev) "Backspace" ||
  (keyIs (key ev) "G" && shiftKey ev).

(** [quiet m m']: nothing but the selection differs between [m] and [m'],
    and a selection that changed is a block cursor. *)
Definition quiet (m m' : VimModeManager) : Prop :=
  bufferOf m' = bufferOf m /\
  undoStack m' = undoStack m /\ redoStack m' = redoStack m /\
  state m' = state m /\ enabled m' = enabled m /\
  pendingPaste m' = pendingPaste m /\
  forall ta, textarea m = Some ta -> selectionInBounds ta ->
             mode (state m) = normal ->
             exists ta', textarea m' = Some ta' /\ (ta' = ta \/ isBlockCursor ta').

(** The [case] labels of the [switch] in [handleNormalMode]. *)
Definition normalCommandKeys : list string :=
  ["i"; "I"; "a"; "A"; "o"; "O"; "v"; "V"; "h"; "j"; "k"; "l"; "Backspace"; "G";
   "x"; "u"; "U"; "p"; "P"; "q"; "g"; "d"; "y"]%string.

(** The labels whose case only acts when Shift is held. *)
Definition shiftOnlyKeys : list string := ["O"; "G"; "U"; "P"]%string.

(** [sameTimer m m']: the pending key, the handle the engine remembers and
    the armed handles are the same in [m] and [m']. *)
Definition sameTimer (m m' : VimModeManager) : Prop :=
  pendingKey m' = pendingKey m /\
  pendingKeyTimeout m' = pendingKeyTimeout m /\
  timers m' = timers m.

(** The discipline of the pending-key timer: the armed handles are the one
    the engine remembers and no other, a remembered handle goes with a
    pending key, and a pending key is one that begins a compound. *)
Definition timerOk (m : VimModeManager) : Prop :=
  timers m = match pendingKeyTimeout m with Some id => [id] | None => [] end /\
  (pendingKeyTimeout m <> None -> pendingKey m <> None) /\
  In (pendingKey m) [None; Some "g"; Some "d"; Some "y"]%string.

(** The mode last passed to [onModeChange], if it was ever called. *)
Definition lastModeChange (log : list HostEffect) : option VimMode :=
  fold_left (fun acc e => match e with OnModeChange md => Some md | _ => acc end)
            log None.

(** The mode the engine is in is the one it last announced; before the
    first announcement it is the initial Normal mode. *)
Definition announced (m : VimModeManager) : Prop :=
  lastModeChange (effects m) = Some (mode (state m)) \/
  (lastModeChange (effects m) = None /\ mode (state m) = normal).

(** ** Line boundaries: what the two scans return *)

Lemma getLineStart_loop_le (t : Buffer) (p : nat) : getLineStart_loop t p <= p.
Proof.
  induction p as [|p IH]; simpl; [lia|].
  destruct (notNewlineAt t p); lia.
Qed.

Lemma getLineStart_loop_between (t : Buffer) (p i : nat) :
  getLineStart_loop t p <= i -> i < p -> notNewlineAt t i = true.
Proof.
  induction p as [|p IH]; simpl; [lia|].
  destruct (notNewlineAt t p) eqn:E; intros L U; [|lia].
  destruct (Nat.eq_dec i p) as [->|N]; [exact E|apply IH; lia].
Qed.

Lemma getLineStart_loop_boundary (t : Buffer) (p : nat) :
  getLineStart_loop t p = 0 \/
  notNewlineAt t (getLineStart_loop t p - 1) = false.
Proof.
  induction p as [|p IH]; simpl; [now left|].
  destruct (notNewlineAt t p) eqn:E; [exact IH|].
  right. simpl. now rewrite Nat.sub_0_r.
Qed.

Lemma getLineStart_loop_same_line (t : Buffer) (p x : nat) :
  getLineStart_loop t p <= x -> x <= p ->
  getLineStart_loop t x = getLineStart_loop t p.
Proof.
  induction p as [|p IH]; simpl; intros L U.
  - assert (x = 0) by lia. now subst.
  - destruct (Nat.eq_dec x (S p)) as [->|N]; [reflexivity|].
    destruct (notNewlineAt t p) eqn:E; [apply IH; lia|lia].
Qed.

Lemma getLineStart_loop_idem (t : Buffer) (p : nat) :
  getLineStart_loop t (getLineStart_loop t p) = getLineStart_loop t p.
Proof.
  apply getLineStart_loop_same_line; [lia|apply getLineStart_loop_le].
Qed.

Lemma getLineEnd_loop_ge (t : Buffer) (fuel finish : nat) :
  finish <= getLineEnd_loop t fuel finish.
Proof.
  revert finish; induction fuel as [|f IH]; simpl; intros finish; [lia|].
  destruct ((finish <? length t) && notNewlineAt t finish); [|lia].
  specialize (IH (S finish)); lia.
Qed.

Lemma getLineEnd_loop_le (t : Buffer) (fuel finish : nat) :
  finish <= length t -> getLineEnd_loop t fuel finish <= length t.
Proof.
  revert finish; induction fuel as [|f IH]; simpl; intros finish H; [lia|].
  destruct (finish <? length t) eqn:L; simpl; [|lia].
  apply Nat.ltb_lt in L.
  destruct (notNewlineAt t finish); [apply IH; lia|lia].
Qed.

Lemma getLineEnd_loop_beyond (t : Buffer) (fuel finish : nat) :
  length t <= finish -> getLineEnd_loop t fuel finish = finish.
Proof.
  destruct fuel as [|f]; simpl; intros H; [reflexivity|].
  destruct (finish <? length t) eqn:L; [apply Nat.ltb_lt in L; lia|reflexivity].
Qed.

(** The fuel handed to the scan is enough: where it stops, the loop
    condition of the source is false. *)
Lemma getLineEnd_loop_stops (t : Buffer) (fuel finish : nat) :
  length t <= fuel + finish ->
  getLineEnd_loop t fuel finish < length t ->
  notNewlineAt t (getLineEnd_loop t fuel finish) = false.
Proof.
  revert finish; induction fuel as [|f IH]; simpl; intros finish H; [lia|].
  destruct (finish <? length t) eqn:L; simpl.
  - destruct (notNewlineAt t finish) eqn:E.
    + apply IH; lia.
    + intros _. exact E.
  - apply Nat.ltb_ge in L. lia.
Qed.

Lemma getLineEnd_loop_between (t : Buffer) (fuel finish i : nat) :
  finish <= i -> i < getLineEnd_loop t fuel finish -> notNewlineAt t i = true.
Proof.
  revert finish; induction fuel as [|f IH]; simpl; intros finish L U; [lia|].
  destruct ((finish <? length t) && notNewlineAt t finish) eqn:E; [|lia].
  apply andb_true_iff in E as [_ E].
  destruct (Nat.eq_dec i finish) as [->|N]; [exact E|].
  apply (IH (S finish)); [lia|exact U].
Qed.

Lemma lineStartOf_le (t : Buffer) (p : nat) : lineStartOf t p <= p.
Proof. apply getLineStart_loop_le. Qed.

Lemma lineEndOf_ge (t : Buffer) (p : nat) : p <= lineEndOf t p.
Proof. apply getLineEnd_loop_ge. Qed.

Lemma lineEndOf_le (t : Buffer) (p : nat) :
  p <= length t -> lineEndOf t p <= length t.
Proof. apply getLineEnd_loop_le. Qed.

Lemma lineEndOf_stops (t : Buffer) (p : nat) :
  lineEndOf t p < length t -> notNewlineAt t (lineEndOf t p) = false.
Proof. apply getLineEnd_loop_stops. lia. Qed.

(** ** The engine at work on small inputs *)

(** Switching on selects the character under the caret and takes a first
    snapshot. *)
Example started_on_abc :
  let m := started (textareaWith "abc" 0) in
  textarea m = Some (mkTextarea (buf "abc") 0 1 nodirection (Some normal)) /\
  undoStack m = [mkSnapshot (buf "abc") 0] /\
  effects m = [SetSelectionRange 0 1 nodirection 3; OnModeChange normal].
Proof. vm_compute. repeat split. Qed.

(** [j] and [k] on a single line change nothing; [dd] on the only line
    leaves an empty buffer with the caret at 0. *)
Example single_line_motions :
  let m := started (textareaWith "abc" 1) in
  press None (plain "j") m = m /\
  press None (plain "k") m = m /\
  bufferOf (pressAll [(None, plain "d"); (None, plain "d")] m) = Some [] /\
  yankBuffer (state (pressAll [(None, plain "d"); (None, plain "d")] m)) = buf "abc".
Proof. vm_compute. repeat split. Qed.

(** [gg] goes to the start, Shift+[G] to the end (where the block sits on
    the last character), and [G] without Shift is only swallowed. *)
Example gg_and_G :
  let m := started (textareaWith ("ab" ++ NL ++ "cd") 1) in
  let caret m := option_map (fun ta => (selectionStart ta, selectionEnd ta)) (textarea m) in
  caret (press None (shifted "G") m) = Some (4, 5) /\
  caret (pressAll [(None, shifted "G"); (None, plain "g"); (None, plain "g")] m)
    = Some (0, 1) /\
  keyPress None (plain "G") m = (true, m).
Proof. vm_compute. repeat split. Qed.

(** When the timer runs out between two [g], the second [g] starts a new
    wait instead of moving the caret. *)
Example g_timeout_g :
  let m := started (textareaWith "abc" 2) in
  let m1 := press None (plain "g") m in
  pendingKey m1 = Some "g"%string /\
  pendingKey (timerFires 1 m1) = None /\
  textarea (press None (plain "g") (timerFires 1 m1)) = textarea m /\
  pendingKey (press None (plain "g") (timerFires 1 m1)) = Some "g"%string.
Proof. vm_compute. repeat split. Qed.

(** [x], [u] and Shift+[U] on [ab]. *)
Example x_u_U :
  let m := started (textareaWith "ab" 0) in
  bufferOf (press None (plain "x") m) = Some (buf "b") /\
  bufferOf (pressAll [(None, plain "x"); (None, plain "u")] m) = Some (buf "ab") /\
  bufferOf (pressAll [(None, plain "x"); (None, plain "u"); (None, shifted "U")] m)
    = Some (buf "b").
Proof. vm_compute. repeat split. Qed.

(** ** Proof automation *)

Ltac vim_unfold :=
  cbv [setMode updateCursorAppearance setPendingKey clearPendingKey timerFires cleanup
       saveState snapshotOf
       moveCursorLeft moveCursorRight moveCursorUp moveCursorDown moveCursorToStart
       moveCursorToEnd moveCursorToLineStart moveCursorToLineEnd
       yank deleteCharAtCursor deleteCurrentLine yankCurrentLine yankSelection deleteSelection
       pasteAfterCursor pasteBeforeCursor replaceSelectionWithYank pasteSource
       pasteAfterCursor_body pasteBeforeCursor_body replaceSelectionWithYank_body
       runPasteJob insertLineBelow insertLineAbove
       setSelectionWithDirection anchorOr getVisualAnchorAndActive extensionGuard
       extendSelectionLeft extendSelectionRight extendSelectionUp extendSelectionDown
       extendSelectionUpLine extendSelectionDownLine isVisualLine
       getLineStart getLineEnd
       setSelectionRange setValue setAttribute updateCharCount emit setTimeout clearTimeout
       set_mode set_yankBuffer set_visualStart
       set_enabled set_state set_undoStack set_redoStack set_pendingKey set_pendingKeyTimeout
       set_textarea set_timers set_nextTimer set_effects set_pendingPaste
       enabled state undoStack redoStack pendingKey pendingKeyTimeout textarea timers nextTimer
       effects pendingPaste mode yankBuffer visualStart
       value selectionStart selectionEnd selectionDirection dataVimMode
       text cursor fst snd negb option_map
       step arrive vstep sound recordsOk textareaOk stackBound anchorBound bufferOf
       selectionInBounds snapshotInBounds callInBounds maxUndoStack slice sliceFrom].

Ltac break_state m :=
  destruct m as [?en [?md ?yb ?vs] ?us ?rs ?pk ?pt [[?v ?ss ?se ?sd ?dm]|] ?tm ?nt ?ef ?pp].

Ltac split_ifs :=
  repeat match goal with
  | |- context [if ?b then _ else _] => destruct b eqn:?
  | |- context [match ?x with normal => _ | _ => _ end] => destruct x eqn:?
  | |- context [match ?x with Some _ => _ | None => _ end] => destruct x eqn:?
  | |- context [match ?x with PasteAfter => _ | _ => _ end] => destruct x eqn:?
  end.

Ltac to_prop :=
  repeat match goal with
  | H : (_ <? _) = true |- _ => apply Nat.ltb_lt in H
  | H : (_ <? _) = false |- _ => apply Nat.ltb_ge in H
  | H : (_ <=? _) = true |- _ => apply Nat.leb_le in H
  | H : (_ <=? _) = false |- _ => apply Nat.leb_gt in H
  | H : (_ =? _) = true |- _ => apply Nat.eqb_eq in H
  | H : (_ =? _) = false |- _ => apply Nat.eqb_neq in H
  | H : (_ && _) = true |- _ => apply andb_true_iff in H; destruct H
  end.

Ltac line_facts :=
  repeat match goal with
  | |- context [lineStartOf ?t ?p] =>
      lazymatch goal with
      | _ : lineStartOf t p <= p |- _ => fail
      | _ => pose proof (lineStartOf_le t p)
      end
  | |- context [lineEndOf ?t ?p] =>
      lazymatch goal with
      | _ : p <= lineEndOf t p |- _ => fail
      | _ => pose proof (lineEndOf_ge t p); pose proof (@lineEndOf_le t p)
      end
  end.

Lemma length_tl_pred (A : Type) (l : list A) : length (tl l) = length l - 1.
Proof. destruct l; simpl; lia. Qed.

Lemma Forall_tl (A : Type) (P : A -> Prop) (l : list A) : Forall P l -> Forall P (tl l).
Proof. destruct 1; simpl; auto. Qed.

Ltac arith :=
  repeat rewrite ?length_app, ?length_firstn, ?length_skipn, ?length_tl_pred in *;
  simpl length in *; line_facts; lia.

Ltac finish :=
  repeat match goal with
  | |- _ /\ _ => split
  | |- Forall _ (_ ++ _) => apply Forall_app; split
  | |- Forall _ [_] => constructor; [|constructor]
  | |- Forall _ [] => constructor
  | |- Forall _ (tl _) => apply Forall_tl
  | |- forall _, _ => intro
  | H : Some _ = Some _ |- _ => injection H as <-
  | H : _ /\ _ |- _ => destruct H
  | |- Forall _ ?l => assumption
  | |- _ = _ => reflexivity
  | |- Forall _ (_ :: _) => constructor
  | |- True => exact I
  end.

Ltac use_bounds :=
  repeat match goal with
  | H : forall ta, Some _ = Some ta -> _ |- _ => specialize (H _ eq_refl); simpl in H
  | H : forall a ta, Some _ = Some a -> Some _ = Some ta -> _ |- _ =>
      specialize (H _ _ eq_refl eq_refl); simpl in H
  end.

Ltac crush :=
  vim_unfold; split_ifs; to_prop;
  repeat split; intros; simpl in *; finish; simpl in *; use_bounds;
  try discriminate; try assumption; try arith.

(** Opens a goal [step m (f m)] or [vstep m (f m)] on every shape of [m]. *)
Ltac by_cases m := break_state m; crush.

(** For a method that starts with [saveState]: the rest is examined on an
    arbitrary state. *)
Ltac after lem m :=
  cbv zeta; eapply lem; generalize (saveState m); clear m; intros m; by_cases m.

(** ** The relations compose *)

Lemma step_refl (m : VimModeManager) : step m m.
Proof. unfold step; tauto. Qed.

Lemma step_trans (m1 m2 m3 : VimModeManager) : step m1 m2 -> step m2 m3 -> step m1 m3.
Proof.
  unfold step; intros (A1 & B1 & C1 & D1) (A2 & B2 & C2 & D2).
  split; [tauto|]. split; [tauto|]. split; congruence.
Qed.

Lemma vstep_trans (m1 m2 m3 : VimModeManager) : vstep m1 m2 -> vstep m2 m3 -> vstep m1 m3.
Proof.
  unfold vstep, anchorBound, bufferOf.
  intros (A1 & B1 & C1 & D1 & E1 & F1) (A2 & B2 & C2 & D2 & E2 & F2).
  split; [|repeat (split; [congruence|]); congruence].
  intros S AB. apply A2; [tauto|].
  intros a ta Ha Hta. rewrite D1 in Ha. rewrite Hta in F1. simpl in F1.
  destruct (textarea m1) as [ta1|] eqn:T1; simpl in F1; [|discriminate].
  injection F1 as ->. eapply AB; eauto.
Qed.

Lemma vstep_anchorBound (m m' : VimModeManager) :
  vstep m m' -> anchorBound m -> anchorBound m'.
Proof.
  unfold vstep, anchorBound, bufferOf. intros (_ & _ & _ & D & _ & F) AB a ta Ha Hta.
  rewrite D in Ha. rewrite Hta in F. simpl in F.
  destruct (textarea m) as [ta1|] eqn:T1; simpl in F; [|discriminate].
  injection F as ->. eapply AB; eauto.
Qed.

(** ** Each method, one at a time *)

Lemma saveState_step (m : VimModeManager) : step m (saveState m).
Proof. by_cases m. Qed.

Lemma saveState_then (m m' : VimModeManager) :
  step (saveState m) m' -> step m m'.
Proof. apply step_trans, saveState_step. Qed.

Lemma updateCursorAppearance_step (md : VimMode) (m : VimModeManager) :
  step m (updateCursorAppearance md m).
Proof. by_cases m. Qed.

Lemma setPendingKey_step (k : string) (m : VimModeManager) : step m (setPendingKey k m).
Proof. by_cases m. Qed.

Lemma clearPendingKey_step (m : VimModeManager) : step m (clearPendingKey m).
Proof. by_cases m. Qed.

Lemma setPendingKey_vstep (k : string) (m : VimModeManager) : vstep m (setPendingKey k m).
Proof. by_cases m. Qed.

Lemma clearPendingKey_vstep (m : VimModeManager) : vstep m (clearPendingKey m).
Proof. by_cases m. Qed.

Lemma moveCursorLeft_step (m : VimModeManager) : step m (moveCursorLeft m).
Proof. by_cases m. Qed.

Lemma moveCursorRight_step (m : VimModeManager) : step m (moveCursorRight m).
Proof. by_cases m. Qed.

Lemma moveCursorUp_step (m : VimModeManager) : step m (moveCursorUp m).
Proof. by_cases m. Qed.

Lemma moveCursorDown_step (m : VimModeManager) : step m (moveCursorDown m).
Proof. by_cases m. Qed.

Lemma moveCursorToStart_step (m : VimModeManager) : step m (moveCursorToStart m).
Proof. by_cases m. Qed.

Lemma moveCursorToEnd_step (m : VimModeManager) : step m (moveCursorToEnd m).
Proof. by_cases m. Qed.

Lemma moveCursorToLineStart_step (m : VimModeManager) : step m (moveCursorToLineStart m).
Proof. by_cases m. Qed.

Lemma moveCursorToLineEnd_step (m : VimModeManager) : step m (moveCursorToLineEnd m).
Proof. by_cases m. Qed.

Lemma emit_step (e : HostEffect) (m : VimModeManager) :
  callInBounds e -> step m (emit e m).
Proof. intros He. by_cases m. Qed.

Lemma yankCurrentLine_step (m : VimModeManager) : step m (yankCurrentLine m).
Proof. by_cases m. Qed.

Lemma yankSelection_step (m : VimModeManager) : step m (yankSelection m).
Proof. by_cases m. Qed.

Lemma deleteCharAtCursor_step (m : VimModeManager) : step m (deleteCharAtCursor m).
Proof. unfold deleteCharAtCursor. after saveState_then m. Qed.

Lemma deleteCurrentLine_step (m : VimModeManager) : step m (deleteCurrentLine m).
Proof. unfold deleteCurrentLine. after saveState_then m. Qed.

Lemma deleteSelection_step (m : VimModeManager) : step m (deleteSelection m).
Proof. unfold deleteSelection. after saveState_then m. Qed.

Lemma setMode_arrive (md : VimMode) (m : VimModeManager) : arrive md m (setMode md m).
Proof. by_cases m. Qed.

Lemma arrive_after_step (md : VimMode) (m1 m2 m3 : VimModeManager) :
  step m1 m2 -> arrive md m2 m3 -> arrive md m1 m3.
Proof.
  unfold step, arrive; intros (A1 & B1 & C1 & D1) (A2 & B2 & C2 & D2).
  split; [tauto|]. split; [tauto|]. split; congruence.
Qed.

Lemma arrive_then_step (md : VimMode) (m1 m2 m3 : VimModeManager) :
  arrive md m1 m2 -> step m2 m3 -> arrive md m1 m3.
Proof.
  unfold step, arrive; intros (A1 & B1 & C1 & D1) (A2 & B2 & C2 & D2).
  split; [tauto|]. split; [tauto|]. split; congruence.
Qed.

Lemma textarea_saveState (m : VimModeManager) : textarea (saveState m) = textarea m.
Proof. break_state m; vim_unfold; split_ifs; reflexivity. Qed.

Lemma pasteAfterCursor_body_step (clip : option Buffer) (m : VimModeManager) :
  step m (pasteAfterCursor_body clip m).
Proof.
  unfold pasteAfterCursor_body. cbv zeta.
  destruct (length (pasteSource clip m) =? 0); [apply step_refl|].
  generalize (pasteSource clip m); intros t.
  eapply saveState_then. generalize (saveState m); clear m; intros m. by_cases m.
Qed.

Lemma pasteBeforeCursor_body_step (clip : option Buffer) (m : VimModeManager) :
  step m (pasteBeforeCursor_body clip m).
Proof.
  unfold pasteBeforeCursor_body. cbv zeta.
  destruct (length (pasteSource clip m) =? 0); [apply step_refl|].
  generalize (pasteSource clip m); intros t.
  eapply saveState_then. generalize (saveState m); clear m; intros m. by_cases m.
Qed.

Lemma replaceSelectionWithYank_body_step (clip : option Buffer) (m : VimModeManager) :
  step m (replaceSelectionWithYank_body clip m).
Proof.
  unfold replaceSelectionWithYank_body. cbv zeta.
  destruct (length (pasteSource clip m) =? 0); [apply step_refl|].
  generalize (pasteSource clip m); intros t.
  eapply saveState_then. generalize (saveState m); clear m; intros m. by_cases m.
Qed.

Lemma runPasteJob_step (clip : option Buffer) (j : PasteJob) (m : VimModeManager) :
  step m (runPasteJob clip j m).
Proof.
  destruct j; simpl.
  - apply pasteAfterCursor_body_step.
  - apply pasteBeforeCursor_body_step.
  - apply replaceSelectionWithYank_body_step.
Qed.

Lemma insertLineBelow_arrive (m : VimModeManager) (ta : HTMLTextAreaElement) :
  textarea m = Some ta -> arrive insert m (insertLineBelow m).
Proof.
  intros T. unfold insertLineBelow. cbv zeta.
  eapply arrive_after_step; [apply saveState_step|].
  rewrite <- textarea_saveState in T.
  revert T. generalize (saveState m); clear m; intros m T.
  break_state m; [|discriminate]. clear T. crush.
Qed.

Lemma insertLineAbove_arrive (m : VimModeManager) (ta : HTMLTextAreaElement) :
  textarea m = Some ta -> arrive insert m (insertLineAbove m).
Proof.
  intros T. unfold insertLineAbove. cbv zeta.
  eapply arrive_after_step; [apply saveState_step|].
  rewrite <- textarea_saveState in T.
  revert T. generalize (saveState m); clear m; intros m T.
  break_state m; [|discriminate]. clear T. crush.
Qed.

Ltac take_last :=
  repeat match goal with
  | H : Forall _ (_ ++ _) |- _ => apply Forall_app in H; destruct H
  end;
  repeat match goal with
  | H : Forall _ [_] |- _ => inversion H; subst; clear H
  end;
  simpl in *; try assumption; try lia.

(** [pop] takes the last element off. *)
Lemma pop_spec (A : Type) (l : list A) :
  match pop l with
  | None => l = []
  | Some (x, r) => l = r ++ [x]
  end.
Proof.
  unfold pop. destruct (rev l) as [|x r] eqn:E.
  - apply (f_equal (@rev A)) in E. now rewrite rev_involutive in E.
  - apply (f_equal (@rev A)) in E. rewrite rev_involutive in E. exact E.
Qed.

Lemma pop_app (A : Type) (l : list A) (x : A) : pop (l ++ [x]) = Some (x, l).
Proof. unfold pop. rewrite rev_unit, rev_involutive. reflexivity. Qed.

Lemma undo_step (m : VimModeManager) : step m (undo m).
Proof.
  unfold undo. destruct (length (undoStack m) =? 0) eqn:E; [apply step_refl|].
  destruct (textarea m) as [ta|] eqn:T; [|apply step_refl].
  cbv zeta. change (undoStack (set_redoStack (redoStack m ++ [snapshotOf ta]) m))
    with (undoStack m).
  pose proof (pop_spec (undoStack m)) as P.
  destruct (pop (undoStack m)) as [[st rest]|].
  - break_state m; [|discriminate]. simpl in P. subst us.
    injection T as <-. crush.
    all: take_last.
  - rewrite P in E. discriminate.
Qed.

Lemma redo_step (m : VimModeManager) : step m (redo m).
Proof.
  unfold redo. destruct (length (redoStack m) =? 0) eqn:E; [apply step_refl|].
  destruct (textarea m) as [ta|] eqn:T; [|apply step_refl].
  cbv zeta. change (redoStack (set_undoStack (undoStack m ++ [snapshotOf ta]) m))
    with (redoStack m).
  pose proof (pop_spec (redoStack m)) as P.
  destruct (pop (redoStack m)) as [[st rest]|].
  - break_state m; [|discriminate]. simpl in P. subst rs.
    injection T as <-. crush.
    all: take_last.
  - rewrite P in E. discriminate.
Qed.

Lemma setSelectionWithDirection_vstep (anchor active : nat) (m : VimModeManager) :
  (forall ta, textarea m = Some ta ->
     anchor <= length (value ta) /\ active <= length (value ta)) ->
  vstep m (setSelectionWithDirection anchor active m).
Proof. intros Hb. break_state m; simpl in Hb; crush. Qed.

Lemma extendSelectionLeft_vstep (m : VimModeManager) : vstep m (extendSelectionLeft m).
Proof. by_cases m. Qed.

Lemma extendSelectionRight_vstep (m : VimModeManager) : vstep m (extendSelectionRight m).
Proof. by_cases m. Qed.

Lemma extendSelectionUp_vstep (m : VimModeManager) : vstep m (extendSelectionUp m).
Proof. by_cases m. Qed.

Lemma extendSelectionDown_vstep (m : VimModeManager) : vstep m (extendSelectionDown m).
Proof. by_cases m. Qed.

Lemma extendSelectionUpLine_vstep (m : VimModeManager) : vstep m (extendSelectionUpLine m).
Proof. by_cases m. Qed.

Lemma extendSelectionDownLine_vstep (m : VimModeManager) : vstep m (extendSelectionDownLine m).
Proof. by_cases m. Qed.

(** ** From methods to handlers *)

Lemma anchorBound_anchorOk (m : VimModeManager) : anchorBound m -> anchorOk m.
Proof. unfold anchorBound, anchorOk. destruct (mode (state m)); auto. Qed.

Lemma plainMode_anchorOk (m : VimModeManager) : plainMode (mode (state m)) -> anchorOk m.
Proof. unfold plainMode, anchorOk. intros [-> | ->]; exact I. Qed.

Lemma handlerOk_refl (m : VimModeManager) : handlerOk m m.
Proof.
  unfold handlerOk, engineOk, sound, pasteQueueOk. split; [tauto|].
  intros (R & T & A & P). auto.
Qed.

Lemma arrive_handlerOk (md : VimMode) (m m' : VimModeManager) :
  plainMode md -> arrive md m m' -> handlerOk m m'.
Proof.
  unfold arrive, handlerOk, engineOk, pasteQueueOk. intros Hp (A & B & C & D).
  split; [exact B|]. intros (R & T & _ & P).
  split; [apply A; split; assumption|].
  split; [apply plainMode_anchorOk; rewrite C; exact Hp|].
  left. congruence.
Qed.

Lemma step_handlerOk (m m' : VimModeManager) :
  plainMode (mode (state m)) -> step m m' -> handlerOk m m'.
Proof.
  intros Hp S. apply (arrive_handlerOk Hp).
  unfold step in S. unfold arrive. tauto.
Qed.

Lemma vstep_handlerOk (m m' : VimModeManager) :
  ~ plainMode (mode (state m)) -> vstep m m' -> handlerOk m m'.
Proof.
  intros Hv V. pose proof (vstep_anchorBound V) as AB.
  unfold vstep in V. destruct V as (A & B & C & D & E & F).
  unfold handlerOk, engineOk, pasteQueueOk, stackBound. split; [rewrite B, C; tauto|].
  intros (R & T & An & P).
  assert (anchorBound m) as ABm.
  { unfold anchorOk in An. unfold anchorBound, plainMode in *.
    destruct (mode (state m)); [exfalso; apply Hv; auto..| |]; exact An. }
  split; [apply A; [split; assumption|exact ABm]|].
  split; [apply anchorBound_anchorOk; auto|].
  left. congruence.
Qed.

Lemma enter_handlerOk (m m' : VimModeManager) :
  (sound m -> sound m' /\ anchorBound m') ->
  (stackBound m -> stackBound m') ->
  pendingPaste m' = pendingPaste m ->
  handlerOk m m'.
Proof.
  unfold handlerOk, engineOk, pasteQueueOk. intros A B C. split; [exact B|].
  intros (R & T & _ & P). destruct A as [S AB]; [split; assumption|].
  split; [exact S|]. split; [apply anchorBound_anchorOk; exact AB|].
  left. congruence.
Qed.

Lemma queue_handlerOk (j : PasteJob) (m m' : VimModeManager) :
  arrive normal m m' ->
  handlerOk m (set_pendingPaste (pendingPaste m' ++ [j]) m').
Proof.
  unfold arrive, handlerOk, engineOk, pasteQueueOk. intros (A & B & C & D).
  split; [exact B|]. intros (R & T & _ & P).
  split; [apply A; split; assumption|].
  split; [apply plainMode_anchorOk; simpl; rewrite C; left; reflexivity|].
  right. exists j. simpl. rewrite D, P. auto.
Qed.

Ltac one_step :=
  first
    [ apply step_refl
    | apply clearPendingKey_step | apply setPendingKey_step
    | apply moveCursorLeft_step | apply moveCursorRight_step
    | apply moveCursorUp_step | apply moveCursorDown_step
    | apply moveCursorToStart_step | apply moveCursorToEnd_step
    | apply moveCursorToLineStart_step | apply moveCursorToLineEnd_step
    | apply deleteCharAtCursor_step | apply deleteCurrentLine_step
    | apply yankCurrentLine_step | apply yankSelection_step | apply deleteSelection_step
    | apply undo_step | apply redo_step | apply saveState_step
    | apply emit_step; exact I ].

Ltac chain :=
  lazymatch goal with
  | |- step ?m ?m => apply step_refl
  | |- step ?m (?f (clearPendingKey ?m)) =>
      apply (@step_trans m (clearPendingKey m)); [apply clearPendingKey_step|one_step]
  | |- step _ _ => one_step
  | |- arrive ?md ?m (setMode ?md ?m) => apply setMode_arrive
  | |- arrive ?md ?m (setMode ?md ?x) =>
      apply (@arrive_after_step md m x); [one_step|apply setMode_arrive]
  | |- arrive _ _ (insertLineBelow _) => eapply insertLineBelow_arrive; eassumption
  | |- arrive _ _ (insertLineAbove _) => eapply insertLineAbove_arrive; eassumption
  end.

Lemma handleNormalMode_handlerOk (k : string) (ctrl shift : bool) (m : VimModeManager) :
  mode (state m) = normal ->
  handlerOk m (snd (handleNormalMode k ctrl shift m)).
Proof.
  intros M. assert (plainMode (mode (state m))) as Hp by (left; exact M).
  unfold handleNormalMode.
  destruct (textarea m) as [ta|] eqn:T; [|apply handlerOk_refl].
  destruct (truthy (pendingKey m)).
  - cbv zeta.
    repeat match goal with
    | |- context [if keyIs ?a ?b then _ else _] => destruct (keyIs a b)
    end; simpl snd; apply step_handlerOk; auto; chain.
  - cbv zeta.
    repeat match goal with
    | |- context [if keyIs ?a ?b then _ else _] =>
        destruct (keyIs a b); [simpl snd|]
    | |- context [if shift then _ else _] => destruct shift; simpl snd
    end.
    all: try (apply handlerOk_refl).
    all: try (apply (@arrive_handlerOk insert); [right; reflexivity|]; solve [chain]).
    all: try (apply step_handlerOk; [exact Hp|]; solve [chain]).
    all: try (unfold pasteAfterCursor, pasteBeforeCursor; apply queue_handlerOk;
              unfold arrive; rewrite M; tauto).
    + (* v *)
      apply enter_handlerOk; clear Hp M;
        (break_state m; [|discriminate]); simpl in T; injection T as <-; crush.
    + (* V *)
      apply enter_handlerOk; clear Hp M;
        (break_state m; [|discriminate]); simpl in T; injection T as <-; crush.
    + destruct (keyIs k "g" || keyIs k "d" || keyIs k "y"); simpl snd.
      * apply step_handlerOk; [exact Hp|]; chain.
      * apply handlerOk_refl.
Qed.

Lemma handleInsertMode_handlerOk (k : string) (ctrl shift : bool) (m : VimModeManager) :
  handlerOk m (snd (handleInsertMode k ctrl shift m)).
Proof.
  unfold handleInsertMode.
  destruct (keyIs k "Escape" || ctrl && keyIs k "["); simpl snd; [|apply handlerOk_refl].
  apply (@arrive_handlerOk normal); [left; reflexivity|].
  eapply arrive_then_step.
  - eapply arrive_after_step; [apply saveState_step|apply setMode_arrive].
  - apply moveCursorLeft_step.
Qed.

(** Leaving a Visual mode: the anchor is dropped and Normal mode set. *)
Lemma leaveVisual_arrive (m : VimModeManager) :
  arrive normal m (setMode normal (set_state (set_visualStart None (state m)) m)).
Proof. by_cases m. Qed.

Lemma collapse_step (m : VimModeManager) (ta : HTMLTextAreaElement) :
  textarea m = Some ta ->
  step m (setSelectionRange (selectionStart ta) (selectionStart ta) nodirection m).
Proof. intros T. break_state m; [|discriminate]. simpl in T. injection T as <-. crush. Qed.

Lemma textarea_yankSelection (m : VimModeManager) :
  textarea (yankSelection m) = textarea m.
Proof. break_state m; reflexivity. Qed.

Lemma handleVisualKey_handlerOk (k : string) (m : VimModeManager) (ta : HTMLTextAreaElement) :
  ~ plainMode (mode (state m)) -> textarea m = Some ta ->
  handlerOk m (snd (handleVisualKey k ta m)).
Proof.
  intros Hv T. unfold handleVisualKey. cbv zeta.
  repeat match goal with
  | |- context [if keyIs ?a ?b then _ else _] => destruct (keyIs a b); [simpl snd|]
  end.
  - apply vstep_handlerOk; [exact Hv|apply setPendingKey_vstep].
  - destruct (isVisualLine m); simpl snd; (apply vstep_handlerOk; [exact Hv|]);
      clear Hv; (break_state m; [|discriminate]); simpl in T; injection T as <-; crush.
  - apply (@arrive_handlerOk normal); [left; reflexivity|].
    eapply arrive_after_step; [|apply leaveVisual_arrive].
    eapply step_trans; [apply yankSelection_step|].
    apply collapse_step. rewrite textarea_yankSelection. exact T.
  - apply (@arrive_handlerOk normal); [left; reflexivity|].
    eapply arrive_after_step; [apply deleteSelection_step|apply leaveVisual_arrive].
  - unfold replaceSelectionWithYank.
    clear Hv; (break_state m; [|discriminate]); simpl in T; injection T as <-.
    unfold handlerOk, engineOk, anchorOk, pasteQueueOk.
    crush; subst; simpl; right; eexists; split; reflexivity.
  - apply vstep_handlerOk; [exact Hv|apply extendSelectionLeft_vstep].
  - apply vstep_handlerOk; [exact Hv|apply extendSelectionRight_vstep].
  - destruct (isVisualLine m); simpl snd; (apply vstep_handlerOk; [exact Hv|]).
    + apply extendSelectionDownLine_vstep.
    + apply extendSelectionDown_vstep.
  - destruct (isVisualLine m); simpl snd; (apply vstep_handlerOk; [exact Hv|]).
    + apply extendSelectionUpLine_vstep.
    + apply extendSelectionUp_vstep.
  - apply handlerOk_refl.
Qed.

Lemma vstep_engineOk (m m' : VimModeManager) :
  ~ plainMode (mode (state m)) -> vstep m m' -> engineOk m -> engineOk m'.
Proof.
  intros Hv V E. destruct (vstep_handlerOk Hv V) as [_ H].
  destruct (H E) as ((R & T) & A & P).
  split; [exact R|]. split; [exact T|]. split; [exact A|].
  destruct V as (_ & _ & _ & _ & Q & _). destruct E as (_ & _ & _ & E). congruence.
Qed.

Lemma vstep_then_handlerOk (m m1 m' : VimModeManager) :
  ~ plainMode (mode (state m)) -> vstep m m1 -> handlerOk m1 m' -> handlerOk m m'.
Proof.
  intros Hv V [B H]. split.
  - intros S. apply B. destruct V as (_ & U & R & _). unfold stackBound in *.
    rewrite U, R. exact S.
  - intros E. apply H. exact (vstep_engineOk Hv V E).
Qed.

Lemma handleVisualMode_handlerOk (k : string) (ctrl shift : bool) (m : VimModeManager) :
  ~ plainMode (mode (state m)) ->
  handlerOk m (snd (handleVisualMode k ctrl shift m)).
Proof.
  intros Hv. unfold handleVisualMode.
  destruct (textarea m) as [ta|] eqn:T; [|apply handlerOk_refl].
  destruct (keyIs k "Escape" || ctrl && keyIs k "["); [simpl snd|].
  - apply (@arrive_handlerOk normal); [left; reflexivity|].
    eapply arrive_after_step; [|apply leaveVisual_arrive].
    apply collapse_step. exact T.
  - destruct (truthy (pendingKey m)); [|apply handleVisualKey_handlerOk; assumption].
    cbv zeta.
    destruct (keyIs _ "gg"); [simpl snd|].
    + apply vstep_handlerOk; [exact Hv|].
      clear Hv; (break_state m; [|discriminate]); simpl in T; injection T as <-; crush.
    + apply (@vstep_then_handlerOk m (clearPendingKey m));
        [exact Hv|apply clearPendingKey_vstep|].
      pose proof (clearPendingKey_vstep m) as (_ & _ & _ & St & _ & _).
      apply handleVisualKey_handlerOk.
      * rewrite St. exact Hv.
      * rewrite <- T. clear. break_state m; vim_unfold; split_ifs; reflexivity.
Qed.

Lemma handleKeyDown_handlerOk (ev : KeyboardEvent) (m : VimModeManager) :
  handlerOk m (snd (handleKeyDown ev m)).
Proof.
  unfold handleKeyDown. destruct (enabled m); simpl negb; cbv iota; [|apply handlerOk_refl].
  destruct (mode (state m)) eqn:M.
  - apply handleNormalMode_handlerOk. exact M.
  - apply handleInsertMode_handlerOk.
  - apply handleVisualMode_handlerOk. rewrite M. intros [?|?]; discriminate.
  - apply handleVisualMode_handlerOk. rewrite M. intros [?|?]; discriminate.
Qed.

Lemma resolvePaste_stackBound (clip : option Buffer) (m : VimModeManager) :
  stackBound m -> stackBound (resolvePaste clip m).
Proof.
  intros S. unfold resolvePaste. destruct (pendingPaste m) as [|j rest]; [exact S|].
  apply (runPasteJob_step clip j (set_pendingPaste rest m)). exact S.
Qed.

Lemma press_stackBound (clip : option Buffer) (ev : KeyboardEvent) (m : VimModeManager) :
  stackBound m -> stackBound (press clip ev m).
Proof.
  intros S. unfold press, keyPress.
  pose proof (handleKeyDown_handlerOk ev m) as [B _].
  destruct (handleKeyDown ev m) as [h m']. simpl in *.
  apply resolvePaste_stackBound. auto.
Qed.

Lemma press_engineOk (clip : option Buffer) (ev : KeyboardEvent) (m : VimModeManager) :
  engineOk m -> engineOk (press clip ev m).
Proof.
  intros E. unfold press, keyPress.
  pose proof (handleKeyDown_handlerOk ev m) as [_ H].
  destruct (handleKeyDown ev m) as [h m']. simpl in *.
  destruct (H E) as (S & A & Q). unfold resolvePaste.
  destruct Q as [Q | (j & Q & N)]; rewrite Q.
  - destruct S as [R T]. split; [exact R|]. split; [exact T|]. split; assumption.
  - destruct (runPasteJob_step clip j (set_pendingPaste [] m')) as (S' & _ & Md & Pp).
    destruct S' as [R T]; [exact S|].
    split; [exact R|]. split; [exact T|]. split; [|exact Pp].
    apply plainMode_anchorOk. rewrite Md. left. exact N.
Qed.

Lemma pressAll_engineOk (evs : list (option Buffer * KeyboardEvent)) (m : VimModeManager) :
  engineOk m -> engineOk (pressAll evs m).
Proof.
  revert m; induction evs as [|[clip ev] evs IH]; simpl; intros m E; [exact E|].
  apply IH, press_engineOk, E.
Qed.

Lemma setEnabled_engineOk (ta : HTMLTextAreaElement) :
  selectionInBounds ta ->
  engineOk (setEnabled true (newVimModeManager (Some ta))).
Proof.
  intros B. destruct ta as [v ss se sd dm]. unfold selectionInBounds in B; simpl in B.
  unfold setEnabled, newVimModeManager, engineOk, anchorOk. simpl set_enabled. cbv iota.
  crush.
Qed.

(** ** The selection stays inside the buffer *)

Lemma timerFires_frame (id : nat) (m : VimModeManager) :
  state (timerFires id m) = state m /\
  textarea (timerFires id m) = textarea m /\
  effects (timerFires id m) = effects m /\
  undoStack (timerFires id m) = undoStack m /\
  redoStack (timerFires id m) = redoStack m /\
  pendingPaste (timerFires id m) = pendingPaste m.
Proof.
  unfold timerFires. destruct (in_dec Nat.eq_dec id (timers m)); repeat split.
Qed.

Lemma timerFires_engineOk (id : nat) (m : VimModeManager) :
  engineOk m -> engineOk (timerFires id m).
Proof.
  destruct (timerFires_frame id m) as (S & T & E & U & R & P).
  unfold engineOk, recordsOk, textareaOk, anchorOk.
  rewrite S, T, E, U, R, P. tauto.
Qed.

Lemma occur_engineOk (o : Occurrence) (m : VimModeManager) :
  engineOk m -> engineOk (occur o m).
Proof.
  destruct o; simpl; [apply press_engineOk|apply timerFires_engineOk].
Qed.

Lemma trace_engineOk (os : list Occurrence) (m : VimModeManager) :
  engineOk m -> Forall engineOk (trace os m).
Proof.
  revert m; induction os as [|o os IH]; simpl; intros m E; constructor.
  - apply occur_engineOk, E.
  - apply IH, occur_engineOk, E.
Qed.

(** Typing reaches the buffer behind the engine's back: in Insert mode,
    and for the keys Normal mode leaves to the page.  Outside the Visual
    modes the invariant does not depend on what the page puts in the
    textarea, as long as the selection it reports is inside the text. *)
Lemma page_edit_engineOk (m : VimModeManager) (ta : HTMLTextAreaElement) :
  engineOk m -> plainMode (mode (state m)) -> selectionInBounds ta ->
  engineOk (set_textarea (Some ta) m).
Proof.
  intros (R & _ & _ & P) Hp B. split; [exact R|]. split; [|split; [|exact P]].
  - intros ta' E. simpl in E. injection E as <-. exact B.
  - apply plainMode_anchorOk. exact Hp.
Qed.

Lemma reached_engineOk (ta0 : HTMLTextAreaElement) (m : VimModeManager) :
  selectionInBounds ta0 -> reached ta0 m -> engineOk m.
Proof.
  intros B R. induction R as [|m clip ev R IH|m id R IH|m typed R IH P T].
  - apply setEnabled_engineOk, B.
  - apply press_engineOk, IH.
  - apply timerFires_engineOk, IH.
  - apply page_edit_engineOk; assumption.
Qed.

(** C2, as stated, fails.  On [abcdef] with the cursor on [f]: [v], then
    [p] (which starts a clipboard read and returns to Normal mode), then
    [v], [g], [g] before the read has settled.  The read then settles with
    [x]: the paste replaces the selection it finds, the first five
    characters, and the buffer is [xf], while the engine is still in
    Visual mode with its anchor at 5.  The next [l] calls
    [setSelectionRange(1, 5, 'backward')] on that buffer of two
    characters. *)
Lemma late_paste_breaks_selection_bounds :
  let m := performAll
             [CallHandleKeyDown (plain "v"); CallHandleKeyDown (plain "p");
              CallHandleKeyDown (plain "v"); CallHandleKeyDown (plain "g");
              CallHandleKeyDown (plain "g"); PasteSettles (Some (buf "x"));
              CallHandleKeyDown (plain "l")]
             (started (textareaWith "abcdef" 5)) in
  bufferOf m = Some (buf "xf") /\
  mode (state m) = visual /\ visualStart (state m) = Some 5 /\
  last (effects m) UpdateCharCount = SetSelectionRange 1 5 backward 2 /\
  ~ Forall callInBounds (effects m).
Proof.
  vm_compute. split; [reflexivity|]. split; [reflexivity|]. split; [reflexivity|].
  split; [reflexivity|]. intros F.
  repeat match goal with
  | H : Forall _ (_ :: _) |- _ => inversion H; subst; clear H
  end; simpl in *; lia.
Qed.

(** C2, amended.  Take any run of a started engine in which every paste
    has settled before the next event and the page changes the textarea
    only while the engine is in Normal or Insert mode: keys, whatever the
    clipboard returns, the pending-key timer running out, the page typing.
    After each event the selection of the textarea satisfies
    [0 <= selectionStart <= selectionEnd <= length], and every call of
    [setSelectionRange] made so far passed a lower bound not above the
    upper bound and an upper bound not above the length of the buffer at
    the time of the call. *)
Theorem selection_always_in_bounds
    (ta : HTMLTextAreaElement) (m : VimModeManager) :
  selectionInBounds ta -> reached ta m ->
  (forall ta', textarea m = Some ta' -> selectionInBounds ta') /\
  Forall callInBounds (effects m).
Proof.
  intros B R. destruct (reached_engineOk B R) as ((C & _) & T & _).
  split; [exact T|exact C].
Qed.

Lemma selection_always_in_bounds_witness :
  let ta := textareaWith "ab" 1 in
  let typed := mkTextarea (buf "axb") 2 2 nodirection (Some insert) in
  let m1 := set_textarea (Some typed) (press None (plain "i") (started ta)) in
  let m2 := press None (plain "v") (press None (plain "Escape") m1) in
  let m3 := press (Some (buf "xy")) (plain "p") (press None (plain "d") m2) in
  let m := press None (plain "u") (timerFires 1 (press None (plain "g") m3)) in
  (selectionInBounds ta /\ reached ta m) /\
  (forall ta', textarea m = Some ta' -> selectionInBounds ta') /\
  Forall callInBounds (effects m).
Proof.
  intros ta typed m1 m2 m3 m.
  assert (selectionInBounds ta) as B by (unfold selectionInBounds; simpl; lia).
  assert (plainMode (mode (state (press None (plain "i") (started ta))))) as P
    by (right; vm_compute; reflexivity).
  assert (selectionInBounds typed) as T by (unfold selectionInBounds; simpl; lia).
  assert (reached ta m) as R.
  { exact (reached_key None (plain "u")
             (reached_timer 1
                (reached_key None (plain "g")
                   (reached_key (Some (buf "xy")) (plain "p")
                      (reached_key None (plain "d")
                         (reached_key None (plain "v")
                            (reached_key None (plain "Escape")
                               (reached_page
                                  (reached_key None (plain "i") (reached_start ta))
                                  P T)))))))). }
  split; [split; [exact B|exact R]|].
  exact (selection_always_in_bounds B R).
Defined.

(** ** The undo stack stays within its capacity *)

Lemma cleanup_step (m : VimModeManager) : step m (cleanup m).
Proof. by_cases m. Qed.

Lemma timerFires_step (id : nat) (m : VimModeManager) : step m (timerFires id m).
Proof. by_cases m. Qed.

Lemma setEnabled_stackBound (b : bool) (m : VimModeManager) :
  stackBound m -> stackBound (setEnabled b m).
Proof.
  intros S. unfold setEnabled. cbv zeta.
  assert (stackBound (set_enabled b m)) as S' by exact S.
  destruct b.
  - apply saveState_step. apply (setMode_arrive normal (set_enabled true m)). exact S'.
  - apply (setMode_arrive insert (set_enabled false m)). exact S'.
Qed.

Lemma perform_stackBound (c : EngineCall) (m : VimModeManager) :
  stackBound m -> stackBound (perform c m).
Proof.
  intros S. destruct c; simpl.
  - apply (handleKeyDown_handlerOk ev m). exact S.
  - apply setEnabled_stackBound, S.
  - apply cleanup_step, S.
  - apply timerFires_step, S.
  - apply resolvePaste_stackBound, S.
  - apply saveState_step, S.
  - apply undo_step, S.
  - apply redo_step, S.
  - exact S.
Qed.

Lemma performAll_stackBound (cs : list EngineCall) (m : VimModeManager) :
  stackBound m -> stackBound (performAll cs m).
Proof.
  revert m; induction cs as [|c cs IH]; simpl; intros m S; [exact S|].
  apply IH, perform_stackBound, S.
Qed.

Lemma saveState_pushes (m : VimModeManager) (t : HTMLTextAreaElement) :
  textarea m = Some t ->
  undoStack (saveState m) = pushBounded (snapshotOf t) (undoStack m) /\
  redoStack (saveState m) = [].
Proof.
  intros T. unfold saveState, pushBounded. rewrite T. cbv zeta.
  simpl undoStack at 1.
  rewrite length_app, Nat.add_1_r.
  destruct (length (undoStack m) <? maxUndoStack) eqn:E.
  - apply Nat.ltb_lt in E.
    destruct (maxUndoStack <? S (length (undoStack m))) eqn:F;
      [apply Nat.ltb_lt in F; lia|]. simpl. auto.
  - apply Nat.ltb_ge in E.
    destruct (maxUndoStack <? S (length (undoStack m))) eqn:F;
      [|apply Nat.ltb_ge in F; lia]. simpl.
    destruct (undoStack m) as [|x u]; [unfold maxUndoStack in E; simpl in E; lia|].
    simpl. auto.
Qed.

(** C4.  In every state the engine can reach from its construction, by any
    interleaving of [saveState], [undo], [redo] and everything else that
    can happen to it, the undo stack holds at most [maxUndoStack] = 100
    snapshots.  In such a state [saveState] (given a textarea) puts the
    current snapshot on top, drops the oldest entry exactly when the stack
    was full, and empties the redo stack. *)
Theorem undo_stack_bounded
    (ta : option HTMLTextAreaElement) (cs : list EngineCall) :
  let m := performAll cs (newVimModeManager ta) in
  length (undoStack m) <= maxUndoStack /\
  maxUndoStack = 100 /\
  match textarea m with
  | Some t =>
      undoStack (saveState m) =
        (if length (undoStack m) <? maxUndoStack
         then undoStack m else tl (undoStack m)) ++ [snapshotOf t] /\
      redoStack (saveState m) = []
  | None => saveState m = m
  end.
Proof.
  intros m.
  assert (stackBound m) as S.
  { apply performAll_stackBound. unfold stackBound, maxUndoStack. simpl. lia. }
  assert (length (undoStack m) <= maxUndoStack) as L.
  { unfold stackBound in S. lia. }
  split; [exact L|]. split; [reflexivity|].
  destruct (textarea m) as [t|] eqn:T.
  - exact (saveState_pushes m T).
  - unfold saveState. rewrite T. reflexivity.
Qed.

(** ** [x] at the end of the buffer *)

Lemma saveState_frame (m : VimModeManager) :
  enabled (saveState m) = enabled m /\ state (saveState m) = state m /\
  pendingKey (saveState m) = pendingKey m /\
  pendingKeyTimeout (saveState m) = pendingKeyTimeout m /\
  timers (saveState m) = timers m /\ effects (saveState m) = effects m /\
  pendingPaste (saveState m) = pendingPaste m.
Proof. break_state m; vim_unfold; split_ifs; repeat split. Qed.

Lemma undo_pops (m : VimModeManager) (t : HTMLTextAreaElement)
    (u : list Snapshot) (st : Snapshot) :
  textarea m = Some t -> undoStack m = u ++ [st] ->
  textarea (undo m) =
    Some (mkTextarea (text st) (cursor st) (cursor st) nodirection (dataVimMode t)) /\
  undoStack (undo m) = u /\
  redoStack (undo m) = redoStack m ++ [snapshotOf t].
Proof.
  intros T U. unfold undo. rewrite U, T, length_app, Nat.add_1_r. simpl (S _ =? 0).
  cbv iota zeta. simpl undoStack. rewrite U, pop_app.
  break_state m; [|discriminate]. simpl in T. injection T as <-.
  repeat split.
Qed.

(** C10.  In Normal mode with no pending key, [x] pressed while the cursor
    offset equals the buffer length leaves the textarea as it is, yet
    pushes a snapshot on the undo stack and empties the redo stack; a [u]
    pressed next restores that same text and cursor, takes the snapshot
    off again, and leaves a redo stack holding only the current state. *)
Theorem x_at_end_still_snapshots
    (m : VimModeManager) (ta : HTMLTextAreaElement) (c s c' s' : bool) :
  enabled m = true -> mode (state m) = normal -> truthy (pendingKey m) = false ->
  textarea m = Some ta -> selectionInBounds ta ->
  selectionStart ta = length (value ta) ->
  let m1 := snd (handleKeyDown (mkKey "x" c s) m) in
  let m2 := snd (handleKeyDown (mkKey "u" c' s') m1) in
  fst (handleKeyDown (mkKey "x" c s) m) = true /\
  textarea m1 = Some ta /\
  undoStack m1 = pushBounded (snapshotOf ta) (undoStack m) /\
  redoStack m1 = [] /\
  (exists ta2, textarea m2 = Some ta2 /\
     value ta2 = value ta /\
     selectionStart ta2 = selectionStart ta /\
     selectionEnd ta2 = selectionEnd ta) /\
  undoStack m2 = (if length (undoStack m) <? maxUndoStack
                  then undoStack m else tl (undoStack m)) /\
  redoStack m2 = [snapshotOf ta].
Proof.
  intros En Md Pk T B At m1 m2.
  destruct (saveState_frame m) as (F1 & F2 & F3 & _).
  pose proof (textarea_saveState m) as F4. rewrite T in F4.
  assert (handleKeyDown (mkKey "x" c s) m = (true, saveState m)) as X.
  { unfold handleKeyDown. rewrite En, Md. simpl.
    unfold handleNormalMode. rewrite T, Pk. simpl.
    unfold deleteCharAtCursor. cbv zeta. rewrite F4.
    rewrite At, Nat.ltb_irrefl. reflexivity. }
  destruct (@saveState_pushes m _ T) as [U R].
  assert (handleKeyDown (mkKey "u" c' s') (saveState m) = (true, undo (saveState m))) as Y.
  { unfold handleKeyDown. rewrite F1, F2, En, Md. simpl.
    unfold handleNormalMode. rewrite F4, F3, Pk. reflexivity. }
  subst m1 m2. rewrite X. simpl fst; simpl snd. rewrite Y. simpl snd.
  destruct (@undo_pops (saveState m) _ _ _ F4 U) as (T2 & U2 & R2).
  split; [reflexivity|]. split; [exact F4|].
  split; [exact U|]. split; [exact R|].
  split.
  - eexists. split; [exact T2|]. simpl. destruct B as [B1 B2].
    repeat split. lia.
  - split; [exact U2|]. rewrite R2, R. reflexivity.
Qed.

Lemma x_at_end_still_snapshots_witness :
  let m := started (textareaWith "" 0) in
  let ta := mkTextarea [] 0 0 nodirection (Some normal) in
  let m1 := snd (handleKeyDown (plain "x") m) in
  (enabled m = true /\ mode (state m) = normal /\ truthy (pendingKey m) = false /\
   textarea m = Some ta /\ selectionInBounds ta /\
   selectionStart ta = length (value ta)) /\
  textarea m1 = Some ta /\
  undoStack m1 = pushBounded (snapshotOf ta) (undoStack m) /\
  redoStack m1 = [].
Proof.
  intros m ta m1.
  assert (selectionInBounds ta) as B by (split; apply le_n).
  split; [repeat split; apply le_n|].
  destruct (@x_at_end_still_snapshots m ta false false false false
              eq_refl eq_refl eq_refl eq_refl B eq_refl) as (_ & H1 & H2 & H3 & _).
  exact (conj H1 (conj H2 H3)).
Defined.

(** ** Compound keys that match nothing *)

Lemma unmatched_compound_returns_false
    (m : VimModeManager) (ta : HTMLTextAreaElement) (p : string) (ev : KeyboardEvent) :
  enabled m = true -> mode (state m) = normal -> textarea m = Some ta ->
  pendingKey m = Some p -> p <> EmptyString ->
  keyIs (String.append p (key ev)) "gg" = false ->
  keyIs (String.append p (key ev)) "dd" = false ->
  keyIs (String.append p (key ev)) "yy" = false ->
  handleKeyDown ev m = (false, clearPendingKey m).
Proof.
  intros En Md T Pk Ne G D Y.
  unfold handleKeyDown. rewrite En, Md. simpl.
  unfold handleNormalMode. rewrite T, Pk. simpl.
  destruct (String.eqb p "") eqn:E; [apply String.eqb_eq in E; contradiction|].
  simpl. rewrite G, D, Y. reflexivity.
Qed.

(** C3.  With [d] pending in Normal mode on the text [abc], the key [w]
    forms the compound [dw], which is none of [gg], [dd], [yy].  The
    handler clears the pending key and its timer and changes neither the
    text, the selection nor the mode, but it returns [false]: the key is
    reported as not handled.  Without a pending key the same [w] is
    consumed (the handler returns [true]). *)
Theorem unmatched_compound_not_consumed :
  let m0 := started (textareaWith "abc" 0) in
  let m := press None (plain "d") m0 in
  pendingKey m = Some "d"%string /\ timers m = [1] /\
  handleKeyDown (plain "w") m = (false, clearPendingKey m) /\
  pendingKey (clearPendingKey m) = None /\
  timers (clearPendingKey m) = [] /\
  textarea (clearPendingKey m) = textarea m /\
  state (clearPendingKey m) = state m /\
  fst (handleKeyDown (plain "w") m0) = true.
Proof. vm_compute. repeat split. Qed.

(** ** Switching the engine off *)

Lemma setEnabled_keeps_pending (b : bool) (m : VimModeManager) :
  pendingKey (setEnabled b m) = pendingKey m /\
  pendingKeyTimeout (setEnabled b m) = pendingKeyTimeout m /\
  timers (setEnabled b m) = timers m.
Proof.
  unfold setEnabled. cbv zeta. destruct b; break_state m; vim_unfold; split_ifs;
    repeat split.
Qed.

(** C7.  With [d] pending and its timer armed, [setEnabled(false)] leaves
    the pending key, the stored handle and the armed timer as they are;
    the timer can still expire afterwards and run its callback.  [cleanup]
    and [clearPendingKey] do disarm the timer. *)
Theorem disable_keeps_pending_timer :
  let m := press None (plain "d") (started (textareaWith "abc" 0)) in
  let m' := setEnabled false m in
  (pendingKey m = Some "d"%string /\ pendingKeyTimeout m = Some 1 /\ timers m = [1]) /\
  (enabled m' = false /\
   pendingKey m' = Some "d"%string /\ pendingKeyTimeout m' = Some 1 /\ timers m' = [1]) /\
  (pendingKey (timerFires 1 m') = None /\ timers (timerFires 1 m') = []) /\
  timers (cleanup m) = [] /\
  timers (clearPendingKey m) = [].
Proof. vm_compute. repeat split. Qed.

(** ** Entering Visual mode with [v] *)

(** C9, as stated, fails on the empty buffer: after [v] the selection is
    the zero-width caret at 0. *)
Lemma v_on_empty_buffer_zero_width :
  let m := snd (handleKeyDown (plain "v") (started (textareaWith "" 0))) in
  mode (state m) = visual /\
  exists ta, textarea m = Some ta /\ selectionStart ta = selectionEnd ta.
Proof. vm_compute. split; [reflexivity|]. eexists. split; reflexivity. Qed.

(** C9, amended.  In Normal mode with no pending key, [v] is handled,
    enters Visual mode and sets the anchor to the cursor; the selection
    covers the character under the cursor, or the last character when the
    cursor is at the end of a non-empty buffer, and it is zero-width
    exactly when the buffer is empty. *)
Theorem v_enters_visual
    (m : VimModeManager) (ta : HTMLTextAreaElement) (c s : bool) :
  enabled m = true -> mode (state m) = normal -> truthy (pendingKey m) = false ->
  textarea m = Some ta -> selectionInBounds ta ->
  let r := handleKeyDown (mkKey "v" c s) m in
  fst r = true /\
  mode (state (snd r)) = visual /\
  visualStart (state (snd r)) = Some (selectionStart ta) /\
  exists ta', textarea (snd r) = Some ta' /\
    value ta' = value ta /\
    blockCursorAt (selectionStart ta) ta' /\
    (selectionStart ta' = selectionEnd ta' <-> length (value ta) = 0).
Proof.
  intros En Md Pk T B. unfold handleKeyDown. rewrite En, Md. simpl.
  unfold handleNormalMode. rewrite T, Pk. simpl.
  break_state m; [|discriminate]. simpl in T. injection T as <-.
  unfold selectionInBounds, blockCursorAt in *. simpl in *.
  vim_unfold. split_ifs; to_prop; simpl;
    (split; [reflexivity|split; [reflexivity|split; [reflexivity|]]]);
    eexists; (split; [reflexivity|]); simpl; repeat split; intros; lia.
Qed.

Lemma v_enters_visual_witness :
  let m := started (textareaWith "abc" 1) in
  let ta := mkTextarea (buf "abc") 1 2 nodirection (Some normal) in
  (enabled m = true /\ mode (state m) = normal /\ truthy (pendingKey m) = false /\
   textarea m = Some ta /\ selectionInBounds ta) /\
  fst (handleKeyDown (plain "v") m) = true /\
  mode (state (snd (handleKeyDown (plain "v") m))) = visual.
Proof.
  intros m ta.
  assert (selectionInBounds ta) as B by (unfold selectionInBounds; simpl; lia).
  split; [repeat split; simpl; lia|].
  destruct (@v_enters_visual m ta false false eq_refl eq_refl eq_refl eq_refl B)
    as (H1 & H2 & _).
  exact (conj H1 H2).
Defined.

(** ** Entering Normal mode *)

Lemma setMode_normal_block (m : VimModeManager) (ta : HTMLTextAreaElement) :
  textarea m = Some ta -> selectionInBounds ta ->
  exists ta', textarea (setMode normal m) = Some ta' /\
    mode (state (setMode normal m)) = normal /\
    value ta' = value ta /\
    blockCursorAt (selectionStart ta) ta'.
Proof.
  intros T B. break_state m; [|discriminate]. simpl in T. injection T as <-.
  unfold selectionInBounds, blockCursorAt in *. simpl in *.
  vim_unfold. split_ifs; to_prop; simpl;
    eexists; (split; [reflexivity|]); simpl; repeat split; intros; lia.
Qed.

Lemma blockCursorAt_isBlockCursor (pos : nat) (ta : HTMLTextAreaElement) :
  pos <= length (value ta) -> blockCursorAt pos ta -> isBlockCursor ta.
Proof.
  unfold blockCursorAt, isBlockCursor. intros L (A & B & C).
  destruct (Nat.eq_dec (length (value ta)) 0) as [Z|NZ]; [right; tauto|left].
  destruct (Nat.eq_dec pos (length (value ta))) as [E|NE]; lia.
Qed.

Lemma setMode_normal_isBlock (m : VimModeManager) (ta : HTMLTextAreaElement) :
  textarea m = Some ta -> selectionInBounds ta ->
  exists ta', textarea (setMode normal m) = Some ta' /\ isBlockCursor ta'.
Proof.
  intros T B. unfold selectionInBounds in B. break_state m; [|discriminate]. simpl in T. injection T as <-.
  unfold isBlockCursor in *. simpl in *.
  vim_unfold. split_ifs; to_prop; simpl;
    eexists; (split; [reflexivity|]); simpl; lia.
Qed.

Lemma isBlockCursor_inBounds (ta : HTMLTextAreaElement) :
  isBlockCursor ta -> selectionInBounds ta.
Proof. unfold isBlockCursor, selectionInBounds. lia. Qed.

Lemma moveCursorLeft_normal_isBlock (m : VimModeManager) (ta : HTMLTextAreaElement) :
  textarea m = Some ta -> mode (state m) = normal ->
  selectionStart ta <= length (value ta) ->
  exists ta', textarea (moveCursorLeft m) = Some ta' /\ isBlockCursor ta'.
Proof.
  intros T Md B. break_state m; [|discriminate]. simpl in T, Md. injection T as <-.
  subst. unfold isBlockCursor in *. simpl in *.
  vim_unfold. split_ifs; to_prop; simpl;
    eexists; (split; [reflexivity|]); simpl; lia.
Qed.

Lemma deleteSelection_inBounds (m : VimModeManager) (ta : HTMLTextAreaElement) :
  textarea m = Some ta -> selectionInBounds ta ->
  exists ta', textarea (deleteSelection m) = Some ta' /\ selectionInBounds ta'.
Proof.
  intros T B. unfold deleteSelection. cbv zeta.
  rewrite <- textarea_saveState in T. revert T.
  generalize (saveState m); clear m; intros m T.
  break_state m; [|discriminate]. simpl in T. injection T as <-.
  unfold selectionInBounds in *. simpl in *.
  vim_unfold. eexists. split; [reflexivity|]. simpl. arith.
Qed.

Lemma state_setSelectionWithDirection (a b : nat) (m : VimModeManager) :
  state (setSelectionWithDirection a b m) = state m.
Proof. break_state m; vim_unfold; split_ifs; reflexivity. Qed.

Lemma clearPendingKey_frame (m : VimModeManager) :
  textarea (clearPendingKey m) = textarea m /\ state (clearPendingKey m) = state m.
Proof. break_state m; vim_unfold; split_ifs; split; reflexivity. Qed.

Ltac stays V :=
  let H := fresh in
  let K := fresh in
  intros K; pose proof V as (_ & _ & _ & H & _); rewrite H in K; congruence.

Lemma handleVisualKey_into_normal (m : VimModeManager) (ta : HTMLTextAreaElement)
    (k : string) :
  textarea m = Some ta -> selectionInBounds ta ->
  mode (state m) <> normal ->
  mode (state (snd (handleVisualKey k ta m))) = normal ->
  exists ta', textarea (snd (handleVisualKey k ta m)) = Some ta' /\ isBlockCursor ta'.
Proof.
  intros T B N. unfold handleVisualKey. cbv zeta.
  repeat match goal with
  | |- context [if keyIs ?a ?b then _ else _] => destruct (keyIs a b); [simpl snd|]
  end.
  - stays (setPendingKey_vstep "g" m).
  - destruct (isVisualLine m); simpl snd; rewrite state_setSelectionWithDirection;
      congruence.
  - intros _. apply (@setMode_normal_isBlock _ (mkTextarea (value ta) (selectionStart ta)
        (selectionStart ta) nodirection (dataVimMode ta))).
    + clear - T. break_state m; [|discriminate]. simpl in T. injection T as <-. reflexivity.
    + unfold selectionInBounds in *. simpl. lia.
  - intros _. destruct (deleteSelection_inBounds m T B) as (ta1 & T1 & B1).
    apply (@setMode_normal_isBlock _ ta1); [exact T1|exact B1].
  - intros _. apply (@setMode_normal_isBlock _ ta); [exact T|exact B].
  - stays (extendSelectionLeft_vstep m).
  - stays (extendSelectionRight_vstep m).
  - destruct (isVisualLine m); simpl snd;
      [stays (extendSelectionDownLine_vstep m)|stays (extendSelectionDown_vstep m)].
  - destruct (isVisualLine m); simpl snd;
      [stays (extendSelectionUpLine_vstep m)|stays (extendSelectionUp_vstep m)].
  - simpl. congruence.
Qed.

Lemma handleKeyDown_into_normal (m : VimModeManager) (ta : HTMLTextAreaElement)
    (ev : KeyboardEvent) :
  textarea m = Some ta -> selectionInBounds ta ->
  mode (state m) <> normal ->
  mode (state (snd (handleKeyDown ev m))) = normal ->
  exists ta', textarea (snd (handleKeyDown ev m)) = Some ta' /\ isBlockCursor ta'.
Proof.
  intros T B N. unfold handleKeyDown.
  destruct (enabled m); simpl negb; cbv iota; [|simpl; congruence].
  assert (forall k c s,
    mode (state (snd (handleVisualMode k c s m))) = normal ->
    exists ta', textarea (snd (handleVisualMode k c s m)) = Some ta' /\ isBlockCursor ta')
    as Visual.
  { intros k c s. unfold handleVisualMode. rewrite T.
    destruct (keyIs k "Escape" || c && keyIs k "["); [simpl snd; intros _|].
    - apply (@setMode_normal_isBlock _ (mkTextarea (value ta) (selectionStart ta)
          (selectionStart ta) nodirection (dataVimMode ta))).
      + clear - T. break_state m; [|discriminate]. simpl in T. injection T as <-.
        reflexivity.
      + unfold selectionInBounds in *. simpl. lia.
    - destruct (clearPendingKey_frame m) as [Tc Sc].
      destruct (truthy (pendingKey m)); [|apply handleVisualKey_into_normal; assumption].
      cbv zeta. destruct (keyIs _ "gg"); [simpl snd|].
      + rewrite state_setSelectionWithDirection, Sc. congruence.
      + apply handleVisualKey_into_normal; [congruence|exact B|congruence]. }
  destruct (mode (state m)) eqn:Md; [congruence| |apply Visual|apply Visual].
  clear N. unfold handleInsertMode.
  destruct (keyIs _ "Escape" || _ && keyIs _ "["); simpl snd; [intros _|congruence].
  assert (textarea (saveState m) = Some ta) as T1 by (rewrite textarea_saveState; exact T).
  destruct (setMode_normal_block (saveState m) T1 B) as (ta2 & T2 & M2 & V2 & BC2).
  apply (@moveCursorLeft_normal_isBlock _ ta2); [exact T2|exact M2|].
  assert (selectionInBounds ta2) as B2.
  { apply isBlockCursor_inBounds.
    apply (@blockCursorAt_isBlockCursor (selectionStart ta)); [|exact BC2].
    rewrite V2. unfold selectionInBounds in B. lia. }
  unfold selectionInBounds in B2. lia.
Qed.

(** C8.  Every transition into Normal mode goes through [setMode normal],
    which leaves the block cursor at the position [pos] the selection
    started at: the range [pos, pos+1] when [pos] is before the end, the
    last character [pos-1, pos] at the end of a non-empty buffer, and the
    zero-width caret on an empty buffer.  So do [setEnabled(true)] and
    every key press that takes the engine from another mode to Normal. *)
Theorem entering_normal_applies_block_cursor
    (m : VimModeManager) (ta : HTMLTextAreaElement) :
  textarea m = Some ta -> selectionInBounds ta ->
  (exists ta', textarea (setMode normal m) = Some ta' /\
     mode (state (setMode normal m)) = normal /\
     value ta' = value ta /\
     blockCursorAt (selectionStart ta) ta') /\
  (exists ta', textarea (setEnabled true m) = Some ta' /\
     mode (state (setEnabled true m)) = normal /\
     value ta' = value ta /\
     blockCursorAt (selectionStart ta) ta') /\
  (forall ev, mode (state m) <> normal ->
     mode (state (snd (handleKeyDown ev m))) = normal ->
     exists ta', textarea (snd (handleKeyDown ev m)) = Some ta' /\ isBlockCursor ta').
Proof.
  intros T B. split; [exact (setMode_normal_block m T B)|]. split.
  - unfold setEnabled. cbv zeta.
    destruct (@setMode_normal_block (set_enabled true m) ta T B) as (ta' & T' & M' & R).
    exists ta'. rewrite textarea_saveState.
    destruct (saveState_frame (setMode normal (set_enabled true m))) as (_ & S & _).
    rewrite S. auto.
  - intros ev. apply (@handleKeyDown_into_normal m ta ev T B).
Qed.

Lemma entering_normal_applies_block_cursor_witness :
  let ta := mkTextarea (buf "abc") 1 3 forward (Some visual) in
  let m := mkVim true (mkVimState visual [] (Some 1)) [] [] None None (Some ta) [] 1 [] [] in
  (textarea m = Some ta /\ selectionInBounds ta) /\
  (exists ta', textarea (setMode normal m) = Some ta' /\
     mode (state (setMode normal m)) = normal /\
     value ta' = value ta /\
     blockCursorAt (selectionStart ta) ta') /\
  (mode (state m) <> normal /\
   mode (state (snd (handleKeyDown (plain "Escape") m))) = normal) /\
  (exists ta', textarea (snd (handleKeyDown (plain "Escape") m)) = Some ta' /\
     isBlockCursor ta').
Proof.
  intros ta m.
  assert (selectionInBounds ta) as B by (unfold selectionInBounds; simpl; lia).
  assert (mode (state m) <> normal) as N by discriminate.
  split; [split; [reflexivity|exact B]|].
  destruct (@entering_normal_applies_block_cursor m ta eq_refl B) as (H1 & _ & H3).
  split; [exact H1|]. split; [split; [exact N|reflexivity]|].
  exact (H3 (plain "Escape") N eq_refl).
Defined.

(** ** Leaving a Visual mode with Escape *)

(** C6, as stated, fails: on [abc], [v] then [l] selects [0,2) forward, so
    the active end is 2; Escape leaves the range [0,1), which is neither
    zero-width nor at the active end. *)
Lemma escape_not_caret_at_active_end :
  let m := pressAll [(None, plain "v"); (None, plain "l")]
                    (started (textareaWith "abc" 0)) in
  let m' := snd (handleKeyDown (plain "Escape") m) in
  mode (state m) = visual /\
  getVisualAnchorAndActive m = (0, 2) /\
  mode (state m') = normal /\
  exists ta', textarea m' = Some ta' /\
    (selectionStart ta', selectionEnd ta') = (0, 1) /\
    (selectionStart ta', selectionEnd ta') <> (2, 2).
Proof.
  vm_compute. repeat split. eexists. split; [reflexivity|].
  split; [reflexivity|discriminate].
Qed.

(** C6, amended.  In Visual or Visual-Line mode, Escape (or Ctrl+[) is
    handled, sets Normal mode and clears the anchor; the selection
    collapses to its start [selectionStart], whatever its orientation, and
    the block cursor of Normal mode is applied there, so the result is
    zero-width only on an empty buffer. *)
Theorem escape_leaves_visual
    (m : VimModeManager) (ta : HTMLTextAreaElement) (k : string) (c s : bool) :
  enabled m = true ->
  mode (state m) = visual \/ mode (state m) = visual_line ->
  textarea m = Some ta -> selectionInBounds ta ->
  k = "Escape"%string \/ (k = "["%string /\ c = true) ->
  let r := handleKeyDown (mkKey k c s) m in
  fst r = true /\
  mode (state (snd r)) = normal /\
  visualStart (state (snd r)) = None /\
  exists ta', textarea (snd r) = Some ta' /\
    value ta' = value ta /\
    blockCursorAt (selectionStart ta) ta'.
Proof.
  intros En Md T B K.
  assert (keyIs k "Escape" || c && keyIs k "[" = true) as Esc.
  { destruct K as [-> | [-> ->]]; reflexivity. }
  assert (handleKeyDown (mkKey k c s) m =
          (true, setMode normal
                   (set_state (set_visualStart None (state m))
                      (setSelectionRange (selectionStart ta) (selectionStart ta)
                         nodirection m)))) as R.
  { unfold handleKeyDown. rewrite En. simpl negb. cbv iota.
    destruct Md as [-> | ->]; simpl; unfold handleVisualMode; rewrite T, Esc;
      clear; break_state m; reflexivity. }
  cbv zeta. rewrite R. simpl fst; simpl snd. clear R Esc K En Md.
  break_state m; [|discriminate]. simpl in T. injection T as <-.
  unfold selectionInBounds, blockCursorAt in *. simpl in *.
  vim_unfold. split_ifs; to_prop; simpl;
    (split; [reflexivity|split; [reflexivity|split; [reflexivity|]]]);
    eexists; (split; [reflexivity|]); simpl; repeat split; intros; lia.
Qed.

Lemma escape_leaves_visual_witness :
  let ta := mkTextarea (buf "abc") 0 2 forward (Some visual) in
  let m := mkVim true (mkVimState visual [] (Some 0)) [] [] None None (Some ta) [] 1 [] [] in
  (enabled m = true /\ (mode (state m) = visual \/ mode (state m) = visual_line) /\
   textarea m = Some ta /\ selectionInBounds ta /\
   ("Escape"%string = "Escape"%string \/ ("Escape"%string = "["%string /\ false = true))) /\
  fst (handleKeyDown (plain "Escape") m) = true /\
  mode (state (snd (handleKeyDown (plain "Escape") m))) = normal /\
  visualStart (state (snd (handleKeyDown (plain "Escape") m))) = None.
Proof.
  intros ta m.
  assert (selectionInBounds ta) as B by (unfold selectionInBounds; simpl; lia).
  split.
  { split; [reflexivity|]. split; [left; reflexivity|]. split; [reflexivity|].
    split; [exact B|left; reflexivity]. }
  destruct (@escape_leaves_visual m ta "Escape"%string false false eq_refl
              (or_introl eq_refl) eq_refl B (or_introl eq_refl)) as (H1 & H2 & H3 & _).
  exact (conj H1 (conj H2 H3)).
Defined.

(** ** Moving a line up or down *)

Lemma getLineStart_loop_from (t : Buffer) (b x : nat) :
  b = 0 \/ notNewlineAt t (b - 1) = false ->
  b <= x ->
  (forall i, b <= i -> i < x -> notNewlineAt t i = true) ->
  getLineStart_loop t x = b.
Proof.
  intros Hb. induction x as [|p IH]; intros L F.
  - simpl. lia.
  - simpl. destruct (Nat.eq_dec b (S p)) as [E|NE].
    + destruct Hb as [Z|Hb]; [lia|]. subst b. simpl in Hb. rewrite Nat.sub_0_r in Hb.
      rewrite Hb. reflexivity.
    + rewrite (F p); [|lia|lia]. apply IH; [lia|]. intros i Li Ui. apply F; lia.
Qed.

(** After the caret is put at [pos], Normal mode draws its block there. *)
Lemma caret_then_block (m : VimModeManager) (ta : HTMLTextAreaElement) (pos : nat) :
  textarea m = Some ta -> mode (state m) = normal -> pos <= length (value ta) ->
  let m1 := setSelectionRange pos pos nodirection m in
  exists ta', textarea (updateCursorAppearance (mode (state m1)) m1) = Some ta' /\
    value ta' = value ta /\ blockCursorAt pos ta'.
Proof.
  intros T Md L. break_state m; [|discriminate]. simpl in T, Md. injection T as <-.
  subst. unfold blockCursorAt. simpl in *.
  vim_unfold. split_ifs; to_prop; simpl;
    eexists; (split; [reflexivity|]); simpl; repeat split; intros; lia.
Qed.

(** C5, as stated, fails: on the two lines [a] and [bc] with the cursor on
    [c] (column 1), [k] puts the cursor at column 0 of the first line, not
    at column [min 1 1 = 1]. *)
Lemma k_column_is_not_min_of_length :
  let ta := textareaWith ("a" ++ NL ++ "bc") 3 in
  let m' := snd (handleKeyDown (plain "k") (started ta)) in
  let t := value ta in
  let ls := lineStartOf t 3 in
  let ps := lineStartOf t (ls - 1) in
  ps + Nat.min (3 - ls) (ls - 1 - ps) = 1 /\
  exists ta', textarea m' = Some ta' /\ selectionStart ta' = 0.
Proof. vm_compute. split; [reflexivity|]. eexists. split; reflexivity. Qed.

(** C5, amended.  In Normal mode with no pending key, [k] and [j] are
    handled.  [k] on the first line and [j] on the last line change
    nothing.  Otherwise the caret target is the start of the destination
    line plus [min col (max 0 (len - 1))], where [col] is the current
    column and [len] the length of the destination line: the target lies
    in the destination line, not past its newline, and strictly before it
    unless the line is empty; the block cursor of Normal mode is then
    applied at the target. *)
Theorem line_motions_keep_column
    (m : VimModeManager) (ta : HTMLTextAreaElement) (c s : bool) :
  enabled m = true -> mode (state m) = normal -> truthy (pendingKey m) = false ->
  textarea m = Some ta -> selectionInBounds ta ->
  let t := value ta in
  let pos := selectionStart ta in
  let ls := lineStartOf t pos in
  let le := lineEndOf t pos in
  let col := pos - ls in
  let up := handleKeyDown (mkKey "k" c s) m in
  let down := handleKeyDown (mkKey "j" c s) m in
  fst up = true /\ fst down = true /\
  (ls = 0 -> snd up = m) /\
  (0 < ls ->
     let ps := lineStartOf t (ls - 1) in
     let target := ps + Nat.min col (Nat.max 0 (ls - 1 - ps - 1)) in
     lineStartOf t target = ps /\ target <= ls - 1 /\ (ps < ls - 1 -> target < ls - 1) /\
     exists ta', textarea (snd up) = Some ta' /\ value ta' = t /\
                 blockCursorAt target ta') /\
  (length t <= le -> snd down = m) /\
  (le < length t ->
     let ns := le + 1 in
     let ne := lineEndOf t ns in
     let target := ns + Nat.min col (Nat.max 0 (ne - ns - 1)) in
     lineStartOf t target = ns /\ target <= ne /\ (ns < ne -> target < ne) /\
     exists ta', textarea (snd down) = Some ta' /\ value ta' = t /\
                 blockCursorAt target ta').
Proof.
  intros En Md Pk T B t pos ls le col up down.
  assert (up = (true, moveCursorUp m)) as Up.
  { unfold up, handleKeyDown. rewrite En, Md. simpl.
    unfold handleNormalMode. rewrite T, Pk. reflexivity. }
  assert (down = (true, moveCursorDown m)) as Down.
  { unfold down, handleKeyDown. rewrite En, Md. simpl.
    unfold handleNormalMode. rewrite T, Pk. reflexivity. }
  rewrite Up, Down. simpl fst; simpl snd.
  destruct B as [B1 B2].
  pose proof (lineStartOf_le t pos) as Hls.
  pose proof (lineEndOf_ge t pos) as Hle.
  assert (pos <= length t) as Hpos by (unfold pos, t; lia).
  pose proof (lineEndOf_le t Hpos) as Hle'.
  split; [reflexivity|]. split; [reflexivity|].
  split; [|split; [|split]].
  - intros Z. unfold moveCursorUp, getLineStart. rewrite T. fold t pos ls.
    rewrite Z. reflexivity.
  - intros P ps target.
    pose proof (lineStartOf_le t (ls - 1)) as Hps. fold ps in Hps.
    assert (target <= ls - 1) as Ht by (unfold target; lia).
    split; [|split; [exact Ht|split; [unfold target; lia|]]].
    + unfold ps, lineStartOf. apply getLineStart_loop_same_line; [|exact Ht].
      fold (lineStartOf t (ls - 1)). fold ps. unfold target. lia.
    + unfold moveCursorUp, getLineStart. rewrite T. fold t pos ls.
      destruct (ls =? 0) eqn:E; [apply Nat.eqb_eq in E; lia|].
      cbv zeta. fold ps col. fold target.
      apply caret_then_block; [exact T|exact Md|fold t; lia].
  - intros Last. unfold moveCursorDown, getLineEnd. rewrite T. fold t pos le.
    destruct (length t <=? le) eqn:E; [reflexivity|apply Nat.leb_gt in E; lia].
  - intros More ns ne target.
    pose proof (lineEndOf_ge t ns) as Hne. fold ne in Hne.
    assert (ns <= length t) as Hns by (unfold ns; lia).
    pose proof (lineEndOf_le t Hns) as Hne'. fold ne in Hne'.
    assert (target <= ne) as Ht by (unfold target; lia).
    split; [|split; [exact Ht|split; [unfold target; lia|]]].
    + unfold lineStartOf. apply getLineStart_loop_from.
      * right. unfold ns. rewrite Nat.add_sub. apply lineEndOf_stops. exact More.
      * unfold target. lia.
      * intros i Li Ui. apply (@getLineEnd_loop_between t (length t - ns) ns i Li).
        fold (lineEndOf t ns). fold ne. lia.
    + unfold moveCursorDown, getLineStart, getLineEnd. rewrite T. fold t pos ls le.
      destruct (length t <=? le) eqn:E; [apply Nat.leb_le in E; lia|].
      cbv zeta. fold ns. fold ne. fold col. fold target.
      apply caret_then_block; [exact T|exact Md|fold t; lia].
Qed.

Lemma line_motions_keep_column_witness :
  let ta := mkTextarea (buf ("a" ++ NL ++ "bc")) 3 4 nodirection (Some normal) in
  let m := started (textareaWith ("a" ++ NL ++ "bc") 3) in
  (enabled m = true /\ mode (state m) = normal /\ truthy (pendingKey m) = false /\
   textarea m = Some ta /\ selectionInBounds ta /\
   0 < lineStartOf (value ta) (selectionStart ta)) /\
  fst (handleKeyDown (plain "k") m) = true /\
  fst (handleKeyDown (plain "j") m) = true /\
  exists ta', textarea (snd (handleKeyDown (plain "k") m)) = Some ta' /\
    value ta' = value ta /\ blockCursorAt 0 ta'.
Proof.
  intros ta m.
  assert (selectionInBounds ta) as B by (unfold selectionInBounds; simpl; lia).
  assert (0 < lineStartOf (value ta) (selectionStart ta)) as P by (vm_compute; lia).
  split.
  { split; [reflexivity|]. split; [reflexivity|]. split; [reflexivity|].
    split; [reflexivity|]. split; [exact B|exact P]. }
  destruct (@line_motions_keep_column m ta false false eq_refl eq_refl eq_refl eq_refl B)
    as (H1 & H2 & _ & Hk & _).
  split; [exact H1|]. split; [exact H2|].
  destruct (Hk P) as (_ & _ & _ & ta' & T' & V' & BC).
  exists ta'. split; [exact T'|]. split; [exact V'|exact BC].
Defined.

(** ** [dd] followed by [p] *)

Lemma setPendingKey_frame (k : string) (m : VimModeManager) :
  enabled (setPendingKey k m) = enabled m /\
  state (setPendingKey k m) = state m /\
  textarea (setPendingKey k m) = textarea m /\
  pendingPaste (setPendingKey k m) = pendingPaste m /\
  pendingKey (setPendingKey k m) = Some k.
Proof. break_state m; vim_unfold; split_ifs; repeat split. Qed.

Lemma clearPendingKey_frame' (m : VimModeManager) :
  enabled (clearPendingKey m) = enabled m /\
  pendingPaste (clearPendingKey m) = pendingPaste m /\
  pendingKey (clearPendingKey m) = None.
Proof. break_state m; vim_unfold; split_ifs; repeat split. Qed.

Lemma deleteCurrentLine_effect (m : VimModeManager) (ta : HTMLTextAreaElement) :
  textarea m = Some ta ->
  let t := value ta in
  let ls := lineStartOf t (selectionStart ta) in
  let le := lineEndOf t (selectionStart ta) in
  let nle := if le <? length t then le + 1 else le in
  textarea (deleteCurrentLine m) =
    Some (mkTextarea (slice 0 ls t ++ sliceFrom nle t) ls ls nodirection (dataVimMode ta)) /\
  state (deleteCurrentLine m) = set_yankBuffer (slice ls nle t) (state m) /\
  enabled (deleteCurrentLine m) = enabled m /\
  pendingKey (deleteCurrentLine m) = pendingKey m /\
  pendingPaste (deleteCurrentLine m) = pendingPaste m.
Proof.
  intros T. unfold deleteCurrentLine. cbv zeta.
  destruct (saveState_frame m) as (F1 & F2 & F3 & _ & _ & _ & F7).
  rewrite <- F1, <- F2, <- F3, <- F7. rewrite <- textarea_saveState in T.
  revert T. generalize (saveState m). clear. intros m T.
  break_state m; [|discriminate]. simpl in T. injection T as <-.
  repeat split.
Qed.

Lemma pasteAfterCursor_body_effect
    (clip : option Buffer) (m : VimModeManager) (ta : HTMLTextAreaElement) :
  textarea m = Some ta ->
  let t := value ta in
  let p := Nat.min (length t) (selectionStart ta + 1) in
  textarea (pasteAfterCursor_body clip m) =
    if length (pasteSource clip m) =? 0 then Some ta
    else Some (mkTextarea (slice 0 p t ++ pasteSource clip m ++ sliceFrom p t)
                 p p nodirection (dataVimMode ta)).
Proof.
  intros T. unfold pasteAfterCursor_body. cbv zeta.
  destruct (length (pasteSource clip m) =? 0); [exact T|].
  generalize (pasteSource clip m). intros txt.
  rewrite <- textarea_saveState in T.
  revert T. generalize (saveState m). clear. intros m T.
  break_state m; [|discriminate]. simpl in T. injection T as <-.
  reflexivity.
Qed.

Lemma pasteAfterCursor_body_state (clip : option Buffer) (m : VimModeManager) :
  state (pasteAfterCursor_body clip m) = state m.
Proof.
  unfold pasteAfterCursor_body. cbv zeta.
  destruct (length (pasteSource clip m) =? 0); [reflexivity|].
  generalize (pasteSource clip m). intros txt.
  destruct (saveState_frame m) as (_ & F2 & _). rewrite <- F2.
  generalize (saveState m). clear. intros m.
  break_state m; reflexivity.
Qed.

Lemma set_pendingPaste_back (m : VimModeManager) (x y : list PasteJob) :
  pendingPaste m = x -> set_pendingPaste x (set_pendingPaste y m) = m.
Proof. destruct m; simpl; intros <-; reflexivity. Qed.

Lemma resolvePaste_idle (clip : option Buffer) (m : VimModeManager) :
  pendingPaste m = [] -> resolvePaste clip m = m.
Proof. unfold resolvePaste. intros ->. reflexivity. Qed.

Lemma slice_to_end (t : Buffer) (a b : nat) :
  length t <= b -> slice a b t = sliceFrom a t.
Proof.
  intros L. unfold slice, sliceFrom. apply firstn_all2. rewrite length_skipn. lia.
Qed.

(** C1, as stated, fails: on the two lines [a] and [b] with the cursor on
    the first line, [dd] then [p] yields [ba] followed by a line break,
    whether [p] reads the yanked line back from the clipboard or falls
    back on the yank buffer. *)
Lemma dd_then_p_first_line_not_restored :
  let m := started (textareaWith ("a" ++ NL ++ "b") 0) in
  bufferOf m = Some (buf ("a" ++ NL ++ "b")) /\
  bufferOf (dd_then_p None m) = Some (buf ("ba" ++ NL)) /\
  bufferOf (dd_then_p (Some (buf ("a" ++ NL))) m) = Some (buf ("ba" ++ NL)) /\
  bufferOf (dd_then_p None m) <> bufferOf m.
Proof. vm_compute. repeat split. discriminate. Qed.

(** [p] pastes a clipboard that is not empty before it looks at the yank
    buffer: with [zz] on the clipboard, [dd] then [p] on the last line of
    the two lines [a] and [b] leaves [zz] where [b] was. *)
Lemma dd_then_p_pastes_clipboard_first :
  let m := dd_then_p (Some (buf "zz")) (started (textareaWith ("a" ++ NL ++ "b") 2)) in
  bufferOf m = Some (buf ("a" ++ NL ++ "zz")).
Proof. vm_compute. reflexivity. Qed.

(** C1, amended.  In Normal mode with no pending key and no paste waiting,
    when the current line is the last line of the buffer, or is followed
    by nothing but its own line break, [dd] then [p] restores the text
    exactly and leaves the cursor at the start of the same line, provided
    the clipboard read made by [p] fails or returns the text [dd] has
    just yanked. *)
Theorem dd_then_p_restores_last_line
    (m : VimModeManager) (ta : HTMLTextAreaElement) (clip : option Buffer) :
  enabled m = true -> mode (state m) = normal -> truthy (pendingKey m) = false ->
  pendingPaste m = [] -> textarea m = Some ta -> selectionInBounds ta ->
  let t := value ta in
  let pos := selectionStart ta in
  let ls := lineStartOf t pos in
  let le := lineEndOf t pos in
  length t <= le + 1 ->
  clip = None \/ clip = Some (sliceFrom ls t) ->
  exists ta', textarea (dd_then_p clip m) = Some ta' /\
    value ta' = t /\
    selectionStart ta' = ls /\
    lineStartOf (value ta') (selectionStart ta') = lineStartOf t pos.
Proof.
  intros En Md Pk Pp T B t pos ls le Last Clip.
  unfold dd_then_p, pressAll, press, keyPress.
  (* first [d] *)
  destruct (setPendingKey_frame "d" m) as (E1 & S1 & T1 & P1 & K1).
  assert (handleKeyDown (plain "d") m = (true, setPendingKey "d" m)) as D1.
  { unfold handleKeyDown. rewrite En, Md. simpl.
    unfold handleNormalMode. rewrite T, Pk. reflexivity. }
  rewrite D1. simpl snd. rewrite resolvePaste_idle by congruence.
  set (m1 := setPendingKey "d" m) in *.
  (* second [d] *)
  destruct (clearPendingKey_frame m1) as (Tc & Sc).
  destruct (clearPendingKey_frame' m1) as (Ec & Pc & Kc).
  assert (handleKeyDown (plain "d") m1 = (true, deleteCurrentLine (clearPendingKey m1)))
    as D2.
  { unfold handleKeyDown. rewrite E1, S1, En, Md. simpl.
    unfold handleNormalMode. rewrite T1, T, K1. reflexivity. }
  rewrite D2. simpl snd.
  assert (textarea (clearPendingKey m1) = Some ta) as Tc' by congruence.
  destruct (deleteCurrentLine_effect (clearPendingKey m1) Tc')
    as (T2 & S2 & E2 & K2 & P2).
  fold t pos ls le in T2, S2.
  set (m2 := deleteCurrentLine (clearPendingKey m1)) in *.
  rewrite resolvePaste_idle by congruence.
  (* [p] *)
  assert (handleKeyDown (plain "p") m2 = (true, pasteAfterCursor m2)) as D3.
  { unfold handleKeyDown. rewrite E2, S2, Ec, Sc, E1, S1, En. simpl. rewrite Md.
    unfold handleNormalMode. rewrite T2, K2, Kc. reflexivity. }
  rewrite D3. simpl snd.
  unfold resolvePaste, pasteAfterCursor. simpl pendingPaste.
  replace (pendingPaste m2) with (@nil PasteJob) by congruence. simpl app. cbv iota.
  rewrite set_pendingPaste_back by congruence. simpl runPasteJob.
  (* what is pasted, and where *)
  destruct B as [B1 B2].
  pose proof (lineStartOf_le t pos) as Hls. fold ls in Hls.
  pose proof (lineEndOf_ge t pos) as Hle. fold le in Hle.
  assert (pos <= length t) as Hpos by (unfold pos, t; lia).
  pose proof (lineEndOf_le t Hpos) as Hle'. fold le in Hle'.
  set (nle := if le <? length t then le + 1 else le) in *.
  assert (length t <= nle) as Hn.
  { unfold nle. destruct (le <? length t) eqn:E; [lia|apply Nat.ltb_ge in E; lia]. }
  rewrite (slice_to_end t ls Hn) in S2.
  assert (sliceFrom nle t = []) as Rest by (unfold sliceFrom; apply skipn_all2; exact Hn).
  rewrite Rest, app_nil_r in T2.
  assert (pasteSource clip m2 = sliceFrom ls t) as Src.
  { unfold pasteSource. rewrite S2. simpl yankBuffer.
    destruct Clip as [-> | ->]; [reflexivity|].
    destruct (0 <? length (sliceFrom ls t)); reflexivity. }
  pose proof (pasteAfterCursor_body_effect clip m2 T2) as T3.
  cbv zeta in T3. simpl value in T3. simpl selectionStart in T3. rewrite Src in T3.
  assert (length (slice 0 ls t) = ls) as Lpre.
  { unfold slice. rewrite Nat.sub_0_r. simpl skipn. rewrite length_firstn. lia. }
  destruct (length (sliceFrom ls t) =? 0) eqn:Empty.
  - apply Nat.eqb_eq in Empty. unfold sliceFrom in Empty. rewrite length_skipn in Empty.
    assert (ls = length t) as Els by lia.
    eexists. split; [exact T3|]. simpl.
    assert (slice 0 ls t = t) as Whole.
    { unfold slice. rewrite Nat.sub_0_r. simpl skipn. apply firstn_all2. lia. }
    rewrite Whole. split; [reflexivity|]. split; [reflexivity|].
    unfold ls, lineStartOf. apply getLineStart_loop_idem.
  - rewrite Lpre in T3. replace (Nat.min ls (ls + 1)) with ls in T3 by lia.
    eexists. split; [exact T3|]. simpl.
    assert (slice 0 ls (slice 0 ls t) ++ sliceFrom ls t ++ sliceFrom ls (slice 0 ls t) = t)
      as Whole.
    { unfold slice, sliceFrom. rewrite !Nat.sub_0_r. simpl skipn.
      rewrite firstn_firstn, Nat.min_id.
      rewrite (skipn_all2 (firstn ls t)) by (rewrite length_firstn; lia).
      rewrite app_nil_r. apply firstn_skipn. }
    rewrite Whole. split; [reflexivity|]. split; [reflexivity|].
    unfold ls, lineStartOf. apply getLineStart_loop_idem.
Qed.

Lemma dd_then_p_restores_last_line_witness :
  let ta := mkTextarea (buf ("a" ++ NL ++ "b")) 2 3 nodirection (Some normal) in
  let m := started (textareaWith ("a" ++ NL ++ "b") 2) in
  (enabled m = true /\ mode (state m) = normal /\ truthy (pendingKey m) = false /\
   pendingPaste m = [] /\ textarea m = Some ta /\ selectionInBounds ta /\
   length (value ta) <= lineEndOf (value ta) (selectionStart ta) + 1 /\
   (@None Buffer = None \/
    None = Some (sliceFrom (lineStartOf (value ta) (selectionStart ta)) (value ta)))) /\
  exists ta', textarea (dd_then_p None m) = Some ta' /\
    value ta' = value ta /\
    selectionStart ta' = lineStartOf (value ta) (selectionStart ta) /\
    lineStartOf (value ta') (selectionStart ta') =
      lineStartOf (value ta) (selectionStart ta).
Proof.
  intros ta m.
  assert (selectionInBounds ta) as B by (unfold selectionInBounds; simpl; lia).
  assert (length (value ta) <= lineEndOf (value ta) (selectionStart ta) + 1) as L
    by (vm_compute; lia).
  split.
  { split; [reflexivity|]. split; [reflexivity|]. split; [reflexivity|].
    split; [reflexivity|]. split; [reflexivity|]. split; [exact B|].
    split; [exact L|left; reflexivity]. }
  exact (@dd_then_p_restores_last_line m ta None eq_refl eq_refl eq_refl eq_refl eq_refl
           B L (or_introl eq_refl)).
Defined.

(** * Further properties of the engine *)

(** ** What the two line scans find *)

Lemma notNewlineAt_false (t : Buffer) (i : nat) :
  notNewlineAt t i = false <-> nth_error t i = Some newline.
Proof.
  unfold notNewlineAt. destruct (nth_error t i) as [c|]; split; intros H;
    try discriminate.
  - apply negb_false_iff, Ascii.eqb_eq in H. now subst.
  - injection H as ->. now rewrite Ascii.eqb_refl.
Qed.

Lemma notNewlineAt_true (t : Buffer) (i : nat) :
  notNewlineAt t i = true <-> nth_error t i <> Some newline.
Proof.
  rewrite <- notNewlineAt_false. destruct (notNewlineAt t i); split; congruence.
Qed.

(** X1.  For a position inside the buffer, [getLineStart] and [getLineEnd]
    return the bounds of the line holding it: the position lies between
    them, no line break occurs from the start up to the end, the start is
    0 or sits just after a line break, and the end is the length of the
    buffer or sits on a line break. *)
Theorem line_scans_find_the_line (t : Buffer) (pos : nat) :
  pos <= length t ->
  let ls := lineStartOf t pos in
  let le := lineEndOf t pos in
  ls <= pos /\ pos <= le /\ le <= length t /\
  (forall i, ls <= i -> i < le -> nth_error t i <> Some newline) /\
  (ls = 0 \/ nth_error t (ls - 1) = Some newline) /\
  (le = length t \/ nth_error t le = Some newline).
Proof.
  intros L ls le.
  pose proof (lineStartOf_le t pos) as H1. pose proof (lineEndOf_ge t pos) as H2.
  pose proof (lineEndOf_le t L) as H3. fold ls in H1. fold le in H2, H3.
  split; [exact H1|]. split; [exact H2|]. split; [exact H3|]. split; [|split].
  - intros i Li Ui. apply notNewlineAt_true.
    destruct (Nat.lt_ge_cases i pos) as [Lt|Ge].
    + apply (@getLineStart_loop_between t pos i); [exact Li|exact Lt].
    + apply (@getLineEnd_loop_between t (length t - pos) pos i); [exact Ge|exact Ui].
  - destruct (getLineStart_loop_boundary t pos) as [Z|N]; [left; exact Z|right].
    apply notNewlineAt_false. exact N.
  - destruct (Nat.eq_dec le (length t)) as [E|N]; [left; exact E|right].
    apply notNewlineAt_false. apply lineEndOf_stops. fold le. lia.
Qed.

Lemma line_scans_find_the_line_witness :
  let t := buf ("ab" ++ NL ++ "cd") in
  4 <= length t /\
  lineStartOf t 4 = 3 /\ lineEndOf t 4 = 5 /\
  lineStartOf t 4 <= 4 /\ 4 <= lineEndOf t 4.
Proof.
  intros t.
  assert (4 <= length t) as L by (vm_compute; lia).
  destruct (@line_scans_find_the_line t 4 L) as (H1 & H2 & _).
  split; [exact L|]. split; [reflexivity|]. split; [reflexivity|].
  split; [exact H1|exact H2].
Defined.

(** ** Undo and redo undo each other *)

Lemma redo_pops (m : VimModeManager) (t : HTMLTextAreaElement)
    (r : list Snapshot) (st : Snapshot) :
  textarea m = Some t -> redoStack m = r ++ [st] ->
  textarea (redo m) =
    Some (mkTextarea (text st) (cursor st) (cursor st) nodirection (dataVimMode t)) /\
  redoStack (redo m) = r /\
  undoStack (redo m) = undoStack m ++ [snapshotOf t].
Proof.
  intros T U. unfold redo. rewrite U, T, length_app, Nat.add_1_r. simpl (S _ =? 0).
  cbv iota zeta. simpl redoStack. rewrite U, pop_app.
  break_state m; [|discriminate]. simpl in T. injection T as <-.
  repeat split.
Qed.

Lemma nonempty_last (A : Type) (l : list A) :
  l <> [] -> exists r x, l = r ++ [x].
Proof.
  intros N. destruct (exists_last N) as (r & x & E). exists r, x. exact E.
Qed.

Lemma undo_redo_cancel_aux (m : VimModeManager) (ta : HTMLTextAreaElement) :
  textarea m = Some ta ->
  (undoStack m <> [] ->
     textarea (redo (undo m)) =
       Some (mkTextarea (value ta) (selectionStart ta) (selectionStart ta)
               nodirection (dataVimMode ta)) /\
     undoStack (redo (undo m)) = undoStack m /\
     redoStack (redo (undo m)) = redoStack m) /\
  (redoStack m <> [] ->
     textarea (undo (redo m)) =
       Some (mkTextarea (value ta) (selectionStart ta) (selectionStart ta)
               nodirection (dataVimMode ta)) /\
     undoStack (undo (redo m)) = undoStack m /\
     redoStack (undo (redo m)) = redoStack m).
Proof.
  intros T. split; intros N.
  - destruct (nonempty_last N) as (u & st & U).
    destruct (@undo_pops m ta u st T U) as (T1 & U1 & R1).
    destruct (@redo_pops (undo m) _ (redoStack m) (snapshotOf ta) T1 R1)
      as (T2 & R2 & U2).
    rewrite T2, R2, U2, U1, U. simpl. destruct st. repeat split.
  - destruct (nonempty_last N) as (r & st & R).
    destruct (@redo_pops m ta r st T R) as (T1 & R1 & U1).
    destruct (@undo_pops (redo m) _ (undoStack m) (snapshotOf ta) T1 U1)
      as (T2 & U2 & R2).
    rewrite T2, R2, U2, R1, R. simpl. destruct st. repeat split.
Qed.

(** X2.  [redo] after [undo] gives back the text that was undone, with the
    caret at the old [selectionStart], and both stacks as they were;
    likewise [undo] after [redo]. *)
Theorem undo_redo_cancel (m : VimModeManager) (ta : HTMLTextAreaElement) :
  textarea m = Some ta ->
  (undoStack m <> [] ->
     textarea (redo (undo m)) =
       Some (mkTextarea (value ta) (selectionStart ta) (selectionStart ta)
               nodirection (dataVimMode ta)) /\
     undoStack (redo (undo m)) = undoStack m /\
     redoStack (redo (undo m)) = redoStack m) /\
  (redoStack m <> [] ->
     textarea (undo (redo m)) =
       Some (mkTextarea (value ta) (selectionStart ta) (selectionStart ta)
               nodirection (dataVimMode ta)) /\
     undoStack (undo (redo m)) = undoStack m /\
     redoStack (undo (redo m)) = redoStack m).
Proof. exact (@undo_redo_cancel_aux m ta). Qed.

Lemma undo_redo_cancel_witness :
  let ta := mkTextarea (buf "b") 0 0 nodirection (Some normal) in
  let m := press None (plain "x") (started (textareaWith "ab" 0)) in
  (textarea m = Some ta /\ undoStack m <> []) /\
  textarea (redo (undo m)) = Some ta /\
  undoStack (redo (undo m)) = undoStack m /\
  redoStack (redo (undo m)) = redoStack m.
Proof.
  intros ta m.
  assert (undoStack m <> []) as N by (vm_compute; discriminate).
  split; [split; [reflexivity|exact N]|].
  exact (proj1 (@undo_redo_cancel m ta eq_refl) N).
Defined.

(** ** [x], [u] and [U] *)

Lemma undo_frame (m : VimModeManager) :
  enabled (undo m) = enabled m /\ state (undo m) = state m /\
  pendingKey (undo m) = pendingKey m /\ pendingPaste (undo m) = pendingPaste m.
Proof.
  unfold undo. destruct (length (undoStack m) =? 0); [repeat split|].
  destruct (textarea m) as [ta|] eqn:T; [|repeat split]. cbv zeta.
  destruct (pop _) as [[st rest]|]; break_state m; try discriminate; repeat split.
Qed.

Lemma redo_frame (m : VimModeManager) :
  enabled (redo m) = enabled m /\ state (redo m) = state m /\
  pendingKey (redo m) = pendingKey m /\ pendingPaste (redo m) = pendingPaste m.
Proof.
  unfold redo. destruct (length (redoStack m) =? 0); [repeat split|].
  destruct (textarea m) as [ta|] eqn:T; [|repeat split]. cbv zeta.
  destruct (pop _) as [[st rest]|]; break_state m; try discriminate; repeat split.
Qed.

Lemma deleteCharAtCursor_effect (m : VimModeManager) (ta : HTMLTextAreaElement) :
  textarea m = Some ta -> selectionStart ta < length (value ta) ->
  let t := value ta in
  let pos := selectionStart ta in
  textarea (deleteCharAtCursor m) =
    Some (mkTextarea (slice 0 pos t ++ sliceFrom (pos + 1) t) pos pos nodirection
            (dataVimMode ta)) /\
  undoStack (deleteCharAtCursor m) = pushBounded (snapshotOf ta) (undoStack m) /\
  redoStack (deleteCharAtCursor m) = [] /\
  state (deleteCharAtCursor m) = state m /\
  enabled (deleteCharAtCursor m) = enabled m /\
  pendingKey (deleteCharAtCursor m) = pendingKey m.
Proof.
  intros T L. destruct (@saveState_pushes m ta T) as [U R].
  destruct (saveState_frame m) as (F1 & F2 & F3 & _).
  unfold deleteCharAtCursor. cbv zeta.
  rewrite <- U, <- R, <- F1, <- F2, <- F3. rewrite <- textarea_saveState in T.
  revert T. generalize (saveState m). clear m U R F1 F2 F3. intros m T.
  break_state m; [|discriminate]. simpl in T. injection T as <-. simpl in L.
  apply Nat.ltb_lt in L. vim_unfold. rewrite L. repeat split.
Qed.

(** X3.  In Normal mode [x] on a character removes exactly that character
    and leaves the yank buffer alone; [u] then restores the text and puts
    the caret back where the cursor was, and Shift+[U] removes the
    character again. *)
Theorem x_u_U_round_trip (m : VimModeManager) (ta : HTMLTextAreaElement) :
  enabled m = true -> mode (state m) = normal -> truthy (pendingKey m) = false ->
  textarea m = Some ta -> selectionStart ta < length (value ta) ->
  let t := value ta in
  let pos := selectionStart ta in
  let cut := firstn pos t ++ skipn (S pos) t in
  let m1 := snd (handleKeyDown (plain "x") m) in
  let m2 := snd (handleKeyDown (plain "u") m1) in
  let m3 := snd (handleKeyDown (shifted "U") m2) in
  S (length cut) = length t /\
  textarea m1 = Some (mkTextarea cut pos pos nodirection (dataVimMode ta)) /\
  yankBuffer (state m1) = yankBuffer (state m) /\
  textarea m2 = Some (mkTextarea t pos pos nodirection (dataVimMode ta)) /\
  textarea m3 = Some (mkTextarea cut pos pos nodirection (dataVimMode ta)) /\
  undoStack m3 = undoStack m1 /\ redoStack m3 = redoStack m1.
Proof.
  intros En Md Pk T L t pos cut m1 m2 m3.
  destruct (deleteCharAtCursor_effect m T L) as (T1 & U1 & R1 & S1 & E1 & K1).
  fold t pos in T1.
  assert (slice 0 pos t ++ sliceFrom (pos + 1) t = cut) as Cut.
  { unfold slice, sliceFrom, cut. rewrite Nat.sub_0_r, Nat.add_1_r. reflexivity. }
  rewrite Cut in T1.
  set (d := deleteCharAtCursor m) in *.
  assert (snd (handleKeyDown (plain "x") m) = d) as M1.
  { unfold handleKeyDown. rewrite En, Md. simpl.
    unfold handleNormalMode. rewrite T, Pk. reflexivity. }
  destruct (undo_frame d) as (E2 & S2 & K2 & _).
  assert (snd (handleKeyDown (plain "u") d) = undo d) as M2.
  { unfold handleKeyDown. rewrite E1, S1, En, Md. simpl.
    unfold handleNormalMode. rewrite T1, K1, Pk. reflexivity. }
  assert (undoStack d <> []) as N.
  { rewrite U1. unfold pushBounded. intros H. apply app_eq_nil in H as [_ H].
    discriminate. }
  destruct (@undo_pops d _ _ _ T1 U1) as (T2 & _).
  assert (snd (handleKeyDown (shifted "U") (undo d)) = redo (undo d)) as M3.
  { unfold handleKeyDown. rewrite E2, S2, E1, S1, En, Md. simpl.
    unfold handleNormalMode. rewrite T2, K2, K1, Pk. reflexivity. }
  destruct (proj1 (@undo_redo_cancel_aux d _ T1) N) as (T3 & U3 & R3).
  unfold m3, m2, m1. rewrite M1, M2, M3.
  split.
  { unfold cut. rewrite length_app, length_firstn, length_skipn. fold t pos in L. lia. }
  split; [exact T1|]. split; [rewrite S1; reflexivity|].
  split; [exact T2|]. split; [exact T3|]. split; [exact U3|exact R3].
Qed.

Lemma x_u_U_round_trip_witness :
  let ta := mkTextarea (buf "ab") 0 1 nodirection (Some normal) in
  let m := started (textareaWith "ab" 0) in
  (enabled m = true /\ mode (state m) = normal /\ truthy (pendingKey m) = false /\
   textarea m = Some ta /\ selectionStart ta < length (value ta)) /\
  textarea (snd (handleKeyDown (plain "x") m)) =
    Some (mkTextarea (buf "b") 0 0 nodirection (Some normal)).
Proof.
  intros ta m.
  assert (selectionStart ta < length (value ta)) as L by (simpl; lia).
  split.
  { split; [reflexivity|]. split; [reflexivity|]. split; [reflexivity|].
    split; [reflexivity|exact L]. }
  destruct (@x_u_U_round_trip m ta eq_refl eq_refl eq_refl eq_refl L) as (_ & H & _).
  exact H.
Defined.

(** ** Motions *)

Ltac quiet_tac m :=
  unfold quiet; break_state m; vim_unfold; split_ifs; to_prop;
  (repeat (split; [reflexivity|])); intros ? E B Md;
  try discriminate; injection E as <-; simpl in Md; subst;
  unfold selectionInBounds, isBlockCursor in *; simpl in *;
  eexists; (split; [reflexivity|]);
  first [left; reflexivity | right; simpl; arith].

Lemma moveCursorLeft_quiet (m : VimModeManager) : quiet m (moveCursorLeft m).
Proof. quiet_tac m. Qed.
Lemma moveCursorRight_quiet (m : VimModeManager) : quiet m (moveCursorRight m).
Proof. quiet_tac m. Qed.
Lemma moveCursorUp_quiet (m : VimModeManager) : quiet m (moveCursorUp m).
Proof. quiet_tac m. Qed.
Lemma moveCursorDown_quiet (m : VimModeManager) : quiet m (moveCursorDown m).
Proof. quiet_tac m. Qed.
Lemma moveCursorToStart_quiet (m : VimModeManager) : quiet m (moveCursorToStart m).
Proof. quiet_tac m. Qed.
Lemma moveCursorToEnd_quiet (m : VimModeManager) : quiet m (moveCursorToEnd m).
Proof. quiet_tac m. Qed.

Lemma clearPendingKey_keeps (m : VimModeManager) :
  textarea (clearPendingKey m) = textarea m /\
  undoStack (clearPendingKey m) = undoStack m /\
  redoStack (clearPendingKey m) = redoStack m /\
  state (clearPendingKey m) = state m /\
  enabled (clearPendingKey m) = enabled m /\
  pendingPaste (clearPendingKey m) = pendingPaste m /\
  effects (clearPendingKey m) = effects m.
Proof. break_state m; vim_unfold; split_ifs; repeat split. Qed.

(** X4.  In Normal mode the motions [h], [j], [k], [l], Backspace,
    Shift+[G] and the compound [gg] are handled and edit nothing: the
    text, the undo and redo stacks, the yank buffer and the mode stay as
    they are, and the selection is either untouched or a block cursor. *)
Theorem motions_do_not_edit
    (m : VimModeManager) (ta : HTMLTextAreaElement) (ev : KeyboardEvent) :
  enabled m = true -> mode (state m) = normal ->
  textarea m = Some ta -> selectionInBounds ta ->
  (truthy (pendingKey m) = false /\ isMotionKey ev = true) \/
  (pendingKey m = Some "g"%string /\ key ev = "g"%string) ->
  let r := handleKeyDown ev m in
  fst r = true /\
  bufferOf (snd r) = Some (value ta) /\
  undoStack (snd r) = undoStack m /\ redoStack (snd r) = redoStack m /\
  state (snd r) = state m /\
  exists ta', textarea (snd r) = Some ta' /\ (ta' = ta \/ isBlockCursor ta').
Proof.
  intros En Md T B Which r.
  assert (forall m', quiet m m' ->
    bufferOf m' = Some (value ta) /\
    undoStack m' = undoStack m /\ redoStack m' = redoStack m /\
    state m' = state m /\
    exists ta', textarea m' = Some ta' /\ (ta' = ta \/ isBlockCursor ta')) as Use.
  { intros m' (Q1 & Q2 & Q3 & Q4 & _ & _ & Q7).
    split; [rewrite Q1; unfold bufferOf; rewrite T; reflexivity|].
    split; [exact Q2|]. split; [exact Q3|]. split; [exact Q4|].
    exact (Q7 ta T B Md). }
  destruct Which as [[Pk Mo] | [Pk Kg]].
  - assert (fst r = true /\ quiet m (snd r)) as [F Q].
    { unfold r, handleKeyDown. rewrite En, Md. simpl.
      unfold handleNormalMode. rewrite T, Pk. cbv zeta.
      unfold isMotionKey in Mo. destruct ev as [k c s]. simpl in *.
      unfold keyIs in *.
      repeat match goal with
      | |- context [if String.eqb k ?b then _ else _] =>
          let E := fresh "E" in
          destruct (String.eqb k b) eqn:E;
          [apply String.eqb_eq in E; subst k; simpl in Mo; try discriminate Mo|]
      end;
      try (simpl in Mo; discriminate Mo);
      try (destruct s; [|discriminate Mo]);
      simpl; (split; [reflexivity|]);
      first [apply moveCursorLeft_quiet | apply moveCursorRight_quiet
            | apply moveCursorUp_quiet | apply moveCursorDown_quiet
            | apply moveCursorToEnd_quiet]. }
    split; [exact F|]. apply Use. exact Q.
  - destruct (clearPendingKey_keeps m) as (Tc & Uc & Rc & Sc & Ec & Pc & _).
    assert (r = (true, moveCursorToStart (clearPendingKey m))) as R.
    { unfold r, handleKeyDown. rewrite En, Md. simpl.
      unfold handleNormalMode. rewrite T, Pk, Kg. reflexivity. }
    rewrite R. simpl fst; simpl snd. split; [reflexivity|].
    destruct (moveCursorToStart_quiet (clearPendingKey m))
      as (Q1 & Q2 & Q3 & Q4 & _ & _ & Q7).
    split; [rewrite Q1; unfold bufferOf; rewrite Tc, T; reflexivity|].
    split; [congruence|]. split; [congruence|]. split; [congruence|].
    apply (Q7 ta); [congruence|exact B|congruence].
Qed.

Lemma motions_do_not_edit_witness :
  let ta := mkTextarea (buf "abc") 1 2 nodirection (Some normal) in
  let m := started (textareaWith "abc" 1) in
  (enabled m = true /\ mode (state m) = normal /\ textarea m = Some ta /\
   selectionInBounds ta /\
   truthy (pendingKey m) = false /\ isMotionKey (plain "l") = true) /\
  fst (handleKeyDown (plain "l") m) = true /\
  bufferOf (snd (handleKeyDown (plain "l") m)) = Some (value ta).
Proof.
  intros ta m.
  assert (selectionInBounds ta) as B by (unfold selectionInBounds; simpl; lia).
  split.
  { split; [reflexivity|]. split; [reflexivity|]. split; [reflexivity|].
    split; [exact B|]. split; reflexivity. }
  destruct (@motions_do_not_edit m ta (plain "l") eq_refl eq_refl eq_refl B
              (or_introl (conj eq_refl eq_refl))) as (H1 & H2 & _).
  exact (conj H1 H2).
Defined.

(** ** Keys that Normal mode does not know *)

(** X5.  In Normal mode with no pending key, a key that is no command (or
    one of [O], [G], [U], [P] arriving without Shift) changes nothing; it
    is reported as handled exactly when it is a single character pressed
    without Ctrl, so stray letters never reach the text while named keys
    and Ctrl chords are left to the page. *)
Theorem unmapped_key_swallowed_iff_printable
    (m : VimModeManager) (ta : HTMLTextAreaElement) (ev : KeyboardEvent) :
  enabled m = true -> mode (state m) = normal -> truthy (pendingKey m) = false ->
  textarea m = Some ta ->
  ~ In (key ev) normalCommandKeys \/
  (In (key ev) shiftOnlyKeys /\ shiftKey ev = false) ->
  handleKeyDown ev m =
    ((String.length (key ev) =? 1) && negb (ctrlKey ev), m).
Proof.
  intros En Md Pk T Which.
  unfold handleKeyDown. rewrite En, Md. simpl.
  unfold handleNormalMode. rewrite T, Pk. cbv zeta.
  destruct ev as [k c s]. simpl in *.
  destruct Which as [No | [Sh ->]].
  - unfold keyIs, normalCommandKeys in *.
    repeat match goal with
    | |- context [String.eqb k ?b] =>
        replace (String.eqb k b) with false
          by (symmetry; apply String.eqb_neq; intros ->; apply No; simpl; tauto)
    end.
    reflexivity.
  - unfold shiftOnlyKeys in Sh. simpl in Sh.
    destruct Sh as [<- | [<- | [<- | [<- | []]]]]; reflexivity.
Qed.

Lemma unmapped_key_swallowed_iff_printable_witness :
  let ta := mkTextarea (buf "abc") 0 1 nodirection (Some normal) in
  let m := started (textareaWith "abc" 0) in
  (enabled m = true /\ mode (state m) = normal /\ truthy (pendingKey m) = false /\
   textarea m = Some ta /\ ~ In "w"%string normalCommandKeys) /\
  handleKeyDown (plain "w") m = (true, m) /\
  handleKeyDown (plain "Enter") m = (false, m) /\
  handleKeyDown (mkKey "w" true false) m = (false, m).
Proof.
  intros ta m.
  assert (forall k, In k ["w"; "Enter"]%string -> ~ In k normalCommandKeys) as No.
  { intros k [<- | [<- | []]]; unfold normalCommandKeys; simpl;
      intros H; repeat (destruct H as [H | H]; [discriminate H|]); exact H. }
  split.
  { split; [reflexivity|]. split; [reflexivity|]. split; [reflexivity|].
    split; [reflexivity|]. apply No. simpl. auto. }
  split; [|split].
  - exact (@unmapped_key_swallowed_iff_printable m ta (plain "w")
             eq_refl eq_refl eq_refl eq_refl (or_introl (No "w"%string (or_introl eq_refl)))).
  - exact (@unmapped_key_swallowed_iff_printable m ta (plain "Enter")
             eq_refl eq_refl eq_refl eq_refl
             (or_introl (No "Enter"%string (or_intror (or_introl eq_refl))))).
  - exact (@unmapped_key_swallowed_iff_printable m ta (mkKey "w" true false)
             eq_refl eq_refl eq_refl eq_refl (or_introl (No "w"%string (or_introl eq_refl)))).
Defined.

(** ** Insert mode *)

Lemma setMode_keeps (md : VimMode) (m : VimModeManager) :
  bufferOf (setMode md m) = bufferOf m /\
  undoStack (setMode md m) = undoStack m /\
  redoStack (setMode md m) = redoStack m /\
  enabled (setMode md m) = enabled m /\
  pendingKey (setMode md m) = pendingKey m /\
  yankBuffer (state (setMode md m)) = yankBuffer (state m) /\
  visualStart (state (setMode md m)) = visualStart (state m) /\
  mode (state (setMode md m)) = md.
Proof. break_state m; vim_unfold; split_ifs; repeat split. Qed.

Lemma moveCursorLeft_block (m : VimModeManager) (ta : HTMLTextAreaElement) :
  textarea m = Some ta -> mode (state m) = normal ->
  selectionStart ta <= length (value ta) ->
  exists ta', textarea (moveCursorLeft m) = Some ta' /\
    value ta' = value ta /\ blockCursorAt (selectionStart ta - 1) ta'.
Proof.
  intros T Md L. unfold moveCursorLeft. rewrite T. cbv zeta. simpl Nat.max.
  apply caret_then_block; [exact T|exact Md|lia].
Qed.

(** X6.  Insert mode hands every key to the page untouched, except Escape
    and Ctrl+[.  Those take a snapshot (emptying the redo stack), set
    Normal mode and leave the text alone; Normal mode first puts its block
    on the character at the caret (the one before it when the caret is at
    the end), and the cursor then moves one more place to the left. *)
Theorem insert_mode_until_escape
    (m : VimModeManager) (ta : HTMLTextAreaElement) (ev : KeyboardEvent) :
  enabled m = true -> mode (state m) = insert ->
  textarea m = Some ta -> selectionInBounds ta ->
  let leaving := keyIs (key ev) "Escape" || (ctrlKey ev && keyIs (key ev) "[") in
  let pos := selectionStart ta in
  let landing := if pos <? length (value ta) then pos else pos - 1 in
  let r := handleKeyDown ev m in
  (leaving = false -> r = (false, m)) /\
  (leaving = true ->
     fst r = true /\
     mode (state (snd r)) = normal /\
     undoStack (snd r) = pushBounded (snapshotOf ta) (undoStack m) /\
     redoStack (snd r) = [] /\
     exists ta', textarea (snd r) = Some ta' /\
       value ta' = value ta /\ blockCursorAt (landing - 1) ta').
Proof.
  intros En Md T B leaving pos landing r.
  assert (r = handleInsertMode (key ev) (ctrlKey ev) (shiftKey ev) m) as R.
  { unfold r, handleKeyDown. rewrite En, Md. reflexivity. }
  rewrite R. unfold handleInsertMode. fold leaving.
  split; intros Lv; rewrite Lv; [reflexivity|]. simpl fst; simpl snd.
  destruct (@saveState_pushes m ta T) as [U1 R1].
  assert (textarea (saveState m) = Some ta) as T1 by (rewrite textarea_saveState; exact T).
  destruct (@setMode_normal_block (saveState m) ta T1 B) as (ta2 & T2 & M2 & V2 & BC2).
  destruct (setMode_keeps normal (saveState m)) as (_ & U2 & R2 & _).
  destruct (moveCursorLeft_quiet (setMode normal (saveState m)))
    as (_ & U3 & R3 & S3 & _).
  assert (selectionStart ta2 = landing) as Land.
  { unfold blockCursorAt in BC2. destruct BC2 as (A & Bb & C). rewrite V2 in *.
    unfold landing, selectionInBounds in *. fold pos in A, Bb, C.
    destruct (pos <? length (value ta)) eqn:E.
    - apply Nat.ltb_lt in E. apply A. exact E.
    - apply Nat.ltb_ge in E. destruct (Nat.eq_dec (length (value ta)) 0) as [Z|NZ].
      + destruct (C Z) as [C1 _]. unfold pos. lia.
      + destruct Bb as [B1 _]; [unfold pos; lia|lia|exact B1]. }
  destruct (@moveCursorLeft_block _ ta2 T2 M2) as (ta3 & T3 & V3 & BC3).
  { rewrite Land, V2. unfold landing, selectionInBounds in *.
    destruct (pos <? length (value ta)) eqn:E; [apply Nat.ltb_lt in E|]; unfold pos; lia. }
  split; [reflexivity|]. split; [rewrite S3; exact M2|].
  split; [rewrite U3, U2; exact U1|]. split; [rewrite R3, R2; exact R1|].
  exists ta3. split; [exact T3|]. split; [congruence|]. rewrite <- Land. exact BC3.
Qed.

Lemma insert_mode_until_escape_witness :
  let ta := mkTextarea (buf "abc") 3 3 nodirection (Some insert) in
  let m := mkVim true (mkVimState insert [] None) [] [] None None (Some ta) [] 1 [] [] in
  (enabled m = true /\ mode (state m) = insert /\ textarea m = Some ta /\
   selectionInBounds ta) /\
  handleKeyDown (plain "a") m = (false, m) /\
  exists ta', textarea (snd (handleKeyDown (plain "Escape") m)) = Some ta' /\
    value ta' = value ta /\ blockCursorAt 1 ta'.
Proof.
  intros ta m.
  assert (selectionInBounds ta) as B by (unfold selectionInBounds; simpl; lia).
  split; [repeat split; simpl; lia|].
  split.
  - exact (proj1 (@insert_mode_until_escape m ta (plain "a") eq_refl eq_refl eq_refl B)
             eq_refl).
  - destruct (proj2 (@insert_mode_until_escape m ta (plain "Escape")
                       eq_refl eq_refl eq_refl B) eq_refl) as (_ & _ & _ & _ & H).
    exact H.
Defined.

(** ** [yy] followed by [p] *)

Lemma yankCurrentLine_effect (m : VimModeManager) (ta : HTMLTextAreaElement) :
  textarea m = Some ta ->
  let t := value ta in
  let ls := lineStartOf t (selectionStart ta) in
  let le := lineEndOf t (selectionStart ta) in
  let nle := if le <? length t then le + 1 else le in
  textarea (yankCurrentLine m) = Some ta /\
  state (yankCurrentLine m) = set_yankBuffer (slice ls nle t) (state m) /\
  undoStack (yankCurrentLine m) = undoStack m /\
  redoStack (yankCurrentLine m) = redoStack m /\
  enabled (yankCurrentLine m) = enabled m /\
  pendingKey (yankCurrentLine m) = pendingKey m /\
  pendingPaste (yankCurrentLine m) = pendingPaste m.
Proof.
  intros T. break_state m; [|discriminate]. simpl in T. injection T as <-.
  repeat split.
Qed.

(** X7.  In Normal mode [yy] copies the current line, with its line break
    when it is not the last line, into the yank buffer and changes neither
    the text, the selection nor the undo stack.  A [p] that follows
    (reading the copy back, or falling back on the yank buffer) inserts
    that copy just after the character under the cursor, so the buffer
    grows by exactly the length of the copy. *)
Theorem yy_then_p_inserts_line
    (m : VimModeManager) (ta : HTMLTextAreaElement) (clip : option Buffer) :
  enabled m = true -> mode (state m) = normal -> truthy (pendingKey m) = false ->
  pendingPaste m = [] -> textarea m = Some ta -> selectionInBounds ta ->
  let t := value ta in
  let pos := selectionStart ta in
  let ls := lineStartOf t pos in
  let le := lineEndOf t pos in
  let nle := if le <? length t then le + 1 else le in
  let line := slice ls nle t in
  let p := Nat.min (length t) (pos + 1) in
  clip = None \/ clip = Some line ->
  let m2 := pressAll [(None, plain "y"); (None, plain "y")] m in
  let m3 := press clip (plain "p") m2 in
  textarea m2 = Some ta /\
  yankBuffer (state m2) = line /\
  undoStack m2 = undoStack m /\
  length line = nle - ls /\
  exists ta', textarea m3 = Some ta' /\
    value ta' = firstn p t ++ line ++ skipn p t /\
    length (value ta') = length t + (nle - ls).
Proof.
  intros En Md Pk Pp T B t pos ls le nle line p Clip m2 m3.
  destruct (setPendingKey_frame "y" m) as (E1 & S1 & T1 & P1 & K1).
  set (m1 := setPendingKey "y" m) in *.
  assert (press None (plain "y") m = m1) as D1.
  { unfold press, keyPress.
    assert (handleKeyDown (plain "y") m = (true, m1)) as H.
    { unfold handleKeyDown. rewrite En, Md. simpl.
      unfold handleNormalMode. rewrite T, Pk. reflexivity. }
    rewrite H. simpl snd. apply resolvePaste_idle. congruence. }
  destruct (clearPendingKey_keeps m1) as (Tc & Uc & Rc & Sc & Ec & Pc & _).
  destruct (clearPendingKey_frame' m1) as (_ & _ & Kc).
  assert (textarea (clearPendingKey m1) = Some ta) as Tc' by congruence.
  destruct (yankCurrentLine_effect (clearPendingKey m1) Tc')
    as (T2 & S2 & U2 & R2 & E2 & K2 & P2).
  fold t pos ls le nle line in S2.
  set (y := yankCurrentLine (clearPendingKey m1)) in *.
  assert (m2 = y) as D2.
  { unfold m2, pressAll. rewrite D1. unfold press, keyPress.
    assert (handleKeyDown (plain "y") m1 = (true, y)) as H.
    { unfold handleKeyDown. rewrite E1, S1, En, Md. simpl.
      unfold handleNormalMode. rewrite T1, T, K1. reflexivity. }
    rewrite H. simpl snd. apply resolvePaste_idle. congruence. }
  assert (undoStack m1 = undoStack m) as U1.
  { unfold m1. clear. break_state m; vim_unfold; split_ifs; reflexivity. }
  destruct B as [B1 B2].
  pose proof (lineStartOf_le t pos) as Hls. fold ls in Hls.
  pose proof (lineEndOf_ge t pos) as Hle. fold le in Hle.
  assert (pos <= length t) as Hpos by (unfold pos, t; lia).
  pose proof (lineEndOf_le t Hpos) as Hle'. fold le in Hle'.
  assert (nle <= length t /\ ls <= nle) as [Hn1 Hn2].
  { unfold nle. destruct (le <? length t) eqn:E; [apply Nat.ltb_lt in E|]; lia. }
  assert (length line = nle - ls) as Len.
  { unfold line, slice. rewrite length_firstn, length_skipn. lia. }
  rewrite D2. split; [exact T2|]. split; [rewrite S2; reflexivity|].
  split; [congruence|]. split; [exact Len|].
  assert (m3 = pasteAfterCursor_body clip y) as D3.
  { unfold m3. rewrite D2. unfold press, keyPress.
    assert (handleKeyDown (plain "p") y = (true, pasteAfterCursor y)) as H.
    { unfold handleKeyDown. rewrite E2, S2, Ec, Sc, E1, S1, En. simpl. rewrite Md.
      unfold handleNormalMode. rewrite T2, K2, Kc. reflexivity. }
    rewrite H. simpl snd. unfold resolvePaste, pasteAfterCursor. simpl pendingPaste.
    replace (pendingPaste y) with (@nil PasteJob) by congruence. simpl app. cbv iota.
    rewrite set_pendingPaste_back by congruence. reflexivity. }
  assert (pasteSource clip y = line) as Src.
  { unfold pasteSource. rewrite S2. simpl yankBuffer.
    destruct Clip as [-> | ->]; [reflexivity|].
    destruct (0 <? length line); reflexivity. }
  pose proof (pasteAfterCursor_body_effect clip y T2) as T3.
  cbv zeta in T3. fold t pos p in T3. rewrite Src in T3. rewrite D3.
  destruct (length line =? 0) eqn:Empty.
  - apply Nat.eqb_eq, length_zero_iff_nil in Empty.
    exists ta. split; [exact T3|]. rewrite Empty in *. simpl in Len. simpl.
    fold t. rewrite firstn_skipn. split; [reflexivity|lia].
  - eexists. split; [exact T3|]. simpl value.
    assert (slice 0 p t ++ line ++ sliceFrom p t = firstn p t ++ line ++ skipn p t) as V
      by (unfold slice at 1, sliceFrom; rewrite Nat.sub_0_r; reflexivity).
    rewrite V. split; [reflexivity|].
    rewrite !length_app, length_firstn, length_skipn, Len. unfold p. lia.
Qed.

Lemma yy_then_p_inserts_line_witness :
  let ta := mkTextarea (buf ("a" ++ NL ++ "b")) 0 1 nodirection (Some normal) in
  let m := started (textareaWith ("a" ++ NL ++ "b") 0) in
  (enabled m = true /\ mode (state m) = normal /\ truthy (pendingKey m) = false /\
   pendingPaste m = [] /\ textarea m = Some ta /\ selectionInBounds ta /\
   (@None Buffer = None \/
    None = Some (slice (lineStartOf (value ta) (selectionStart ta))
                   (if lineEndOf (value ta) (selectionStart ta) <? length (value ta)
                    then lineEndOf (value ta) (selectionStart ta) + 1
                    else lineEndOf (value ta) (selectionStart ta)) (value ta)))) /\
  textarea (pressAll [(None, plain "y"); (None, plain "y")] m) = Some ta /\
  undoStack (pressAll [(None, plain "y"); (None, plain "y")] m) = undoStack m.
Proof.
  intros ta m.
  assert (selectionInBounds ta) as B by (unfold selectionInBounds; simpl; lia).
  split.
  { split; [reflexivity|]. split; [reflexivity|]. split; [reflexivity|].
    split; [reflexivity|]. split; [reflexivity|]. split; [exact B|left; reflexivity]. }
  destruct (@yy_then_p_inserts_line m ta None eq_refl eq_refl eq_refl eq_refl eq_refl B
              (or_introl eq_refl)) as (H1 & _ & H3 & _).
  exact (conj H1 H3).
Defined.

(** ** Visual-Line mode starts on the whole line *)

Lemma no_break_inside_line (t : Buffer) (pos i : nat) :
  lineStartOf t pos <= i -> i < lineEndOf t pos -> nth_error t i <> Some newline.
Proof.
  intros Li Ui. apply notNewlineAt_true.
  destruct (Nat.lt_ge_cases i pos) as [Lt|Ge].
  - apply (@getLineStart_loop_between t pos i); [exact Li|exact Lt].
  - apply (@getLineEnd_loop_between t (length t - pos) pos i); [exact Ge|exact Ui].
Qed.

(** X8.  In Normal mode with no pending key, [V] is handled, enters
    Visual-Line mode, anchors at the start of the current line and
    selects from there to the end of that line; the selection holds no
    line break and the text is untouched. *)
Theorem V_selects_the_line
    (m : VimModeManager) (ta : HTMLTextAreaElement) (c s : bool) :
  enabled m = true -> mode (state m) = normal -> truthy (pendingKey m) = false ->
  textarea m = Some ta -> selectionInBounds ta ->
  let t := value ta in
  let ls := lineStartOf t (selectionStart ta) in
  let le := lineEndOf t (selectionStart ta) in
  let r := handleKeyDown (mkKey "V" c s) m in
  fst r = true /\
  mode (state (snd r)) = visual_line /\
  visualStart (state (snd r)) = Some ls /\
  textarea (snd r) = Some (mkTextarea t ls le nodirection (Some visual_line)) /\
  ls <= le /\ le <= length t /\
  (forall i, ls <= i -> i < le -> nth_error t i <> Some newline).
Proof.
  intros En Md Pk T B t ls le r.
  assert (r = (true, setMode visual_line
                 (setSelectionRange ls le nodirection
                    (set_state (set_visualStart (Some ls) (state m)) m)))) as R.
  { unfold r, handleKeyDown. rewrite En, Md. simpl.
    unfold handleNormalMode. rewrite T, Pk. simpl.
    unfold getLineStart, getLineEnd. simpl textarea. rewrite T. reflexivity. }
  rewrite R. simpl fst; simpl snd.
  pose proof (lineStartOf_le t (selectionStart ta)) as H1.
  pose proof (lineEndOf_ge t (selectionStart ta)) as H2.
  assert (selectionStart ta <= length t) as L by (destruct B; unfold t; lia).
  pose proof (lineEndOf_le t L) as H3. fold ls in H1. fold le in H2, H3.
  assert (mode (state (snd r)) = visual_line /\
          visualStart (state (snd r)) = Some ls /\
          textarea (snd r) = Some (mkTextarea t ls le nodirection (Some visual_line)))
    as (A1 & A2 & A3).
  { rewrite R. simpl snd. unfold t. generalize ls le. clear - T. intros a b.
    break_state m; [|discriminate]. simpl in T. injection T as <-. repeat split. }
  rewrite R in A1, A2, A3. simpl snd in A1, A2, A3.
  split; [reflexivity|]. split; [exact A1|]. split; [exact A2|]. split; [exact A3|].
  split; [lia|]. split; [exact H3|].
  intros i. apply no_break_inside_line.
Qed.

Lemma V_selects_the_line_witness :
  let ta := mkTextarea (buf ("ab" ++ NL ++ "cd")) 4 5 nodirection (Some normal) in
  let m := started (textareaWith ("ab" ++ NL ++ "cd") 4) in
  (enabled m = true /\ mode (state m) = normal /\ truthy (pendingKey m) = false /\
   textarea m = Some ta /\ selectionInBounds ta) /\
  fst (handleKeyDown (plain "V") m) = true /\
  mode (state (snd (handleKeyDown (plain "V") m))) = visual_line.
Proof.
  intros ta m.
  assert (selectionInBounds ta) as B by (unfold selectionInBounds; simpl; lia).
  split.
  { split; [reflexivity|]. split; [reflexivity|]. split; [reflexivity|].
    split; [reflexivity|exact B]. }
  destruct (@V_selects_the_line m ta false false eq_refl eq_refl eq_refl eq_refl B)
    as (H1 & H2 & _).
  exact (conj H1 H2).
Defined.

(** ** Anchor and active end of a Visual selection *)

Lemma setSelectionWithDirection_effect
    (m : VimModeManager) (ta : HTMLTextAreaElement) (a b : nat) :
  textarea m = Some ta ->
  textarea (setSelectionWithDirection a b m) =
    Some (mkTextarea (value ta) (Nat.min a b) (Nat.max a b)
            (if b <? a then backward else forward) (dataVimMode ta)) /\
  state (setSelectionWithDirection a b m) = state m /\
  enabled (setSelectionWithDirection a b m) = enabled m /\
  pendingKey (setSelectionWithDirection a b m) = pendingKey m /\
  undoStack (setSelectionWithDirection a b m) = undoStack m /\
  redoStack (setSelectionWithDirection a b m) = redoStack m.
Proof.
  intros T. break_state m; [|discriminate]. simpl in T. injection T as <-.
  vim_unfold. destruct (b <? a) eqn:E; to_prop.
  - rewrite Nat.min_r, Nat.max_l by lia. repeat split.
  - rewrite Nat.min_l, Nat.max_r by lia. repeat split.
Qed.

Lemma inferred_active (m : VimModeManager) (ta : HTMLTextAreaElement) (a b : nat) :
  textarea m = Some ta -> visualStart (state m) = Some a ->
  selectionStart ta = Nat.min a b -> selectionEnd ta = Nat.max a b ->
  getVisualAnchorAndActive m = (a, b).
Proof.
  intros T V S E. unfold getVisualAnchorAndActive, anchorOr. rewrite T, V, S, E.
  cbv zeta. rewrite Nat.min_l, Nat.max_r by lia.
  destruct (Nat.lt_ge_cases b a) as [Lt|Ge].
  - rewrite Nat.min_r, Nat.max_l by lia. rewrite Nat.eqb_refl. simpl.
    rewrite andb_false_r. reflexivity.
  - rewrite Nat.min_l, Nat.max_r by lia. rewrite Nat.eqb_refl. simpl.
    destruct (a =? b) eqn:Q; [apply Nat.eqb_eq in Q; subst|]; reflexivity.
Qed.

(** X9.  For an anchor and an active end that both lie inside the text,
    the selection set by [setSelectionWithDirection anchor active] is the
    range between the two, inside the text, backward exactly when the
    active end is before the anchor, and [getVisualAnchorAndActive] reads
    the same anchor and active end back from it. *)
Theorem anchor_and_active_read_back
    (m : VimModeManager) (ta : HTMLTextAreaElement) (a b : nat) :
  textarea m = Some ta -> visualStart (state m) = Some a ->
  a <= length (value ta) -> b <= length (value ta) ->
  let m' := setSelectionWithDirection a b m in
  textarea m' =
    Some (mkTextarea (value ta) (Nat.min a b) (Nat.max a b)
            (if b <? a then backward else forward) (dataVimMode ta)) /\
  (forall ta', textarea m' = Some ta' -> selectionInBounds ta') /\
  getVisualAnchorAndActive m' = (a, b).
Proof.
  intros T V La Lb m'.
  destruct (@setSelectionWithDirection_effect m ta a b T) as (T' & S' & _).
  split; [exact T'|]. split.
  - intros ta' E. unfold m' in E. rewrite T' in E. injection E as <-.
    unfold selectionInBounds. simpl. lia.
  - apply (@inferred_active m' _ a b T'); [unfold m'; rewrite S'; exact V| |]; reflexivity.
Qed.

Lemma anchor_and_active_read_back_witness :
  let ta := mkTextarea (buf "abcdef") 3 4 forward (Some visual) in
  let m := mkVim true (mkVimState visual [] (Some 3)) [] [] None None (Some ta) [] 1 [] [] in
  (textarea m = Some ta /\ visualStart (state m) = Some 3 /\
   3 <= length (value ta) /\ 1 <= length (value ta)) /\
  getVisualAnchorAndActive (setSelectionWithDirection 3 1 m) = (3, 1).
Proof.
  intros ta m.
  assert (3 <= length (value ta)) as La by (simpl; lia).
  assert (1 <= length (value ta)) as Lb by (simpl; lia).
  split; [split; [reflexivity|split; [reflexivity|split; [exact La|exact Lb]]]|].
  exact (proj2 (proj2 (@anchor_and_active_read_back m ta 3 1 eq_refl eq_refl La Lb))).
Defined.

Lemma extendSelectionLeft_is (m : VimModeManager) (ta : HTMLTextAreaElement) (a b : nat) :
  textarea m = Some ta -> visualStart (state m) = Some a ->
  getVisualAnchorAndActive m = (a, b) ->
  extendSelectionLeft m = setSelectionWithDirection a (b - 1) m.
Proof.
  intros T V G. unfold extendSelectionLeft, extensionGuard. rewrite T, V, G. reflexivity.
Qed.

Lemma extendSelectionRight_is (m : VimModeManager) (ta : HTMLTextAreaElement) (a b : nat) :
  textarea m = Some ta -> visualStart (state m) = Some a ->
  getVisualAnchorAndActive m = (a, b) ->
  extendSelectionRight m =
    setSelectionWithDirection a (Nat.min (length (value ta)) (b + 1)) m.
Proof.
  intros T V G. unfold extendSelectionRight, extensionGuard. rewrite T, V, G. reflexivity.
Qed.

(** X10.  In a Visual mode whose selection is the range between the
    anchor and an active end, [h] followed by [l] gives the same range
    again unless the active end is at 0, and [l] followed by [h] does
    unless it is at the end of the buffer. *)
Theorem visual_h_and_l_undo_each_other
    (m : VimModeManager) (ta : HTMLTextAreaElement) (a b : nat) :
  enabled m = true ->
  mode (state m) = visual \/ mode (state m) = visual_line ->
  truthy (pendingKey m) = false ->
  textarea m = Some ta -> visualStart (state m) = Some a ->
  selectionStart ta = Nat.min a b -> selectionEnd ta = Nat.max a b ->
  b <= length (value ta) ->
  let sel m := option_map (fun x => (selectionStart x, selectionEnd x)) (textarea m) in
  let go (k : string) m := snd (handleKeyDown (plain k) m) in
  (0 < b -> sel (go "l"%string (go "h"%string m)) = sel m) /\
  (b < length (value ta) -> sel (go "h"%string (go "l"%string m)) = sel m).
Proof.
  intros En Md Pk T V S E L sel go.
  assert (forall m0 t0, enabled m0 = true -> mode (state m0) = mode (state m) ->
            pendingKey m0 = pendingKey m -> textarea m0 = Some t0 ->
            go "h"%string m0 = extendSelectionLeft m0 /\
            go "l"%string m0 = extendSelectionRight m0)
    as Go.
  { intros m0 t0 E0 M0 K0 T0. unfold go, handleKeyDown. rewrite E0, M0. simpl negb.
    cbv iota. unfold handleVisualMode. rewrite T0, K0, Pk. simpl.
    destruct Md as [-> | ->]; split; reflexivity. }
  pose proof (@inferred_active m ta a b T V S E) as G.
  assert (sel m = Some (Nat.min a b, Nat.max a b)) as Sm.
  { unfold sel. rewrite T. simpl. congruence. }
  destruct (Go m ta En eq_refl eq_refl T) as [Hh Hl].
  split; intros Pos.
  - rewrite Hh, (extendSelectionLeft_is m T V G).
    destruct (@setSelectionWithDirection_effect m ta a (b - 1) T) as (T1 & S1 & E1 & K1 & _).
    set (m1 := setSelectionWithDirection a (b - 1) m) in *.
    assert (visualStart (state m1) = Some a) as V1 by congruence.
    destruct (Go m1 _ (eq_trans E1 En) (f_equal mode S1) K1 T1) as [_ Hl1].
    rewrite Hl1.
    rewrite (@extendSelectionRight_is m1 _ a (b - 1) T1 V1
               (@inferred_active m1 _ a (b - 1) T1 V1 eq_refl eq_refl)).
    simpl value. replace (Nat.min (length (value ta)) (b - 1 + 1)) with b by lia.
    destruct (@setSelectionWithDirection_effect m1 _ a b T1) as (T2 & _).
    unfold sel at 1. rewrite T2, Sm. reflexivity.
  - rewrite Hl, (extendSelectionRight_is m T V G).
    replace (Nat.min (length (value ta)) (b + 1)) with (b + 1) by lia.
    destruct (@setSelectionWithDirection_effect m ta a (b + 1) T) as (T1 & S1 & E1 & K1 & _).
    set (m1 := setSelectionWithDirection a (b + 1) m) in *.
    assert (visualStart (state m1) = Some a) as V1 by congruence.
    destruct (Go m1 _ (eq_trans E1 En) (f_equal mode S1) K1 T1) as [Hh1 _].
    rewrite Hh1.
    rewrite (@extendSelectionLeft_is m1 _ a (b + 1) T1 V1
               (@inferred_active m1 _ a (b + 1) T1 V1 eq_refl eq_refl)).
    replace (b + 1 - 1) with b by lia.
    destruct (@setSelectionWithDirection_effect m1 _ a b T1) as (T2 & _).
    unfold sel at 1. rewrite T2, Sm. reflexivity.
Qed.

Lemma visual_h_and_l_undo_each_other_witness :
  let ta := mkTextarea (buf "abcdef") 1 3 backward (Some visual) in
  let m := mkVim true (mkVimState visual [] (Some 3)) [] [] None None (Some ta) [] 1 [] [] in
  (enabled m = true /\ (mode (state m) = visual \/ mode (state m) = visual_line) /\
   truthy (pendingKey m) = false /\ textarea m = Some ta /\
   visualStart (state m) = Some 3 /\
   selectionStart ta = Nat.min 3 1 /\ selectionEnd ta = Nat.max 3 1 /\
   1 <= length (value ta) /\ 0 < 1) /\
  option_map (fun x => (selectionStart x, selectionEnd x))
    (textarea (snd (handleKeyDown (plain "l") (snd (handleKeyDown (plain "h") m)))))
  = option_map (fun x => (selectionStart x, selectionEnd x)) (textarea m).
Proof.
  intros ta m.
  assert (1 <= length (value ta)) as L by (simpl; lia).
  split.
  { split; [reflexivity|]. split; [left; reflexivity|]. split; [reflexivity|].
    split; [reflexivity|]. split; [reflexivity|]. split; [reflexivity|].
    split; [reflexivity|]. split; [exact L|lia]. }
  exact (proj1 (@visual_h_and_l_undo_each_other m ta 3 1 eq_refl (or_introl eq_refl)
                  eq_refl eq_refl eq_refl eq_refl eq_refl L) (le_n 1)).
Defined.

(** ** Deleting a Visual selection and pasting it back *)


Lemma leaveVisual_frame (m : VimModeManager) :
  let m' := setMode normal (set_state (set_visualStart None (state m)) m) in
  pendingPaste m' = pendingPaste m /\ enabled m' = enabled m /\
  pendingKey m' = pendingKey m /\
  yankBuffer (state m') = yankBuffer (state m) /\
  visualStart (state m') = None /\ mode (state m') = normal /\
  undoStack m' = undoStack m /\ redoStack m' = redoStack m /\
  bufferOf m' = bufferOf m.
Proof. break_state m; vim_unfold; split_ifs; repeat split. Qed.

Lemma pasteBeforeCursor_body_effect
    (clip : option Buffer) (m : VimModeManager) (ta : HTMLTextAreaElement) :
  textarea m = Some ta ->
  let t := value ta in
  let p := selectionStart ta in
  textarea (pasteBeforeCursor_body clip m) =
    if length (pasteSource clip m) =? 0 then Some ta
    else Some (mkTextarea (slice 0 p t ++ pasteSource clip m ++ sliceFrom p t)
                 p p nodirection (dataVimMode ta)).
Proof.
  intros T. unfold pasteBeforeCursor_body. cbv zeta.
  destruct (length (pasteSource clip m) =? 0); [exact T|].
  generalize (pasteSource clip m). intros txt.
  rewrite <- textarea_saveState in T.
  revert T. generalize (saveState m). clear. intros m T.
  break_state m; [|discriminate]. simpl in T. injection T as <-.
  reflexivity.
Qed.




(** ** Yanking a Visual selection *)

Lemma set_state_textarea (st : VimState) (m : VimModeManager) :
  textarea (set_state st m) = textarea m.
Proof. destruct m; reflexivity. Qed.

Lemma set_state_effects (st : VimState) (m : VimModeManager) :
  effects (set_state st m) = effects m.
Proof. destruct m; reflexivity. Qed.

Lemma setMode_effects_grow (md : VimMode) (m : VimModeManager) (e : HostEffect) :
  In e (effects m) -> In e (effects (setMode md m)).
Proof.
  break_state m; destruct md; vim_unfold; split_ifs; simpl;
    rewrite ?in_app_iff; simpl; tauto.
Qed.

Lemma yank_then_collapse (m : VimModeManager) (ta : HTMLTextAreaElement) :
  textarea m = Some ta -> selectionInBounds ta ->
  let ss := selectionStart ta in
  let sel := slice ss (selectionEnd ta) (value ta) in
  let m2 := setSelectionRange ss ss nodirection (yankSelection m) in
  textarea m2 = Some (mkTextarea (value ta) ss ss nodirection (dataVimMode ta)) /\
  yankBuffer (state m2) = sel /\
  In (OnYank sel) (effects m2) /\
  undoStack m2 = undoStack m /\ redoStack m2 = redoStack m.
Proof.
  intros T [B1 B2]. break_state m; [|discriminate]. simpl in T. injection T as <-.
  simpl in *. vim_unfold. rewrite Nat.min_l, Nat.max_r by lia. simpl.
  repeat split. rewrite !in_app_iff. simpl. tauto.
Qed.

(** X12.  In a Visual mode with no pending key, [y] copies exactly the
    selected text into the yank buffer, hands it to the yank callback,
    and returns to Normal mode with the anchor cleared; the text and both
    stacks are untouched and the block cursor sits at the start of what
    was selected. *)
Theorem visual_y_copies_selection
    (m : VimModeManager) (ta : HTMLTextAreaElement) (c s : bool) :
  enabled m = true ->
  mode (state m) = visual \/ mode (state m) = visual_line ->
  truthy (pendingKey m) = false ->
  textarea m = Some ta -> selectionInBounds ta ->
  let sel := slice (selectionStart ta) (selectionEnd ta) (value ta) in
  let r := handleKeyDown (mkKey "y" c s) m in
  fst r = true /\
  mode (state (snd r)) = normal /\
  visualStart (state (snd r)) = None /\
  yankBuffer (state (snd r)) = sel /\
  length sel = selectionEnd ta - selectionStart ta /\
  In (OnYank sel) (effects (snd r)) /\
  undoStack (snd r) = undoStack m /\ redoStack (snd r) = redoStack m /\
  exists ta', textarea (snd r) = Some ta' /\
    value ta' = value ta /\ blockCursorAt (selectionStart ta) ta'.
Proof.
  intros En Md Pk T B sel r.
  assert (r = (true, setMode normal
                 (set_state (set_visualStart None
                    (state (setSelectionRange (selectionStart ta) (selectionStart ta)
                              nodirection (yankSelection m))))
                    (setSelectionRange (selectionStart ta) (selectionStart ta)
                       nodirection (yankSelection m))))) as R.
  { assert (keyIs "y" "Escape" || c && keyIs "y" "[" = false) as Esc
      by (destruct c; reflexivity).
    unfold r, handleKeyDown. rewrite En. simpl negb. cbv iota.
    cbn [key ctrlKey shiftKey]. unfold handleVisualMode.
    destruct Md as [-> | ->]; rewrite T, Esc, Pk; reflexivity. }
  rewrite R. simpl fst; simpl snd. clear R r En Md Pk.
  destruct (@yank_then_collapse m ta T B) as (T2 & Y2 & E2 & U2 & R2).
  fold sel in Y2, E2.
  set (m2 := setSelectionRange (selectionStart ta) (selectionStart ta) nodirection
               (yankSelection m)) in *.
  clearbody m2.
  destruct (leaveVisual_frame m2) as (_ & _ & _ & Y & V & Mo & U & Rd & _).
  cbv zeta in Y, V, Mo, U, Rd.
  split; [reflexivity|]. split; [exact Mo|]. split; [exact V|].
  split; [rewrite Y; exact Y2|].
  split; [unfold sel, slice; destruct B; rewrite length_firstn, length_skipn; lia|].
  split; [apply setMode_effects_grow; rewrite set_state_effects; exact E2|].
  split; [rewrite U; exact U2|]. split; [rewrite Rd; exact R2|].
  destruct (@setMode_normal_block
              (set_state (set_visualStart None (state m2)) m2)
              (mkTextarea (value ta) (selectionStart ta) (selectionStart ta)
                 nodirection (dataVimMode ta))) as (ta' & T' & _ & V' & Bl).
  { rewrite set_state_textarea. exact T2. }
  { unfold selectionInBounds in *. simpl. lia. }
  exists ta'. split; [exact T'|]. split; [exact V'|exact Bl].
Qed.

Lemma visual_y_copies_selection_witness :
  let ta := mkTextarea (buf "abcdef") 1 3 forward (Some visual) in
  let m := mkVim true (mkVimState visual [] (Some 1)) [] [] None None (Some ta) [] 1 [] [] in
  (enabled m = true /\ (mode (state m) = visual \/ mode (state m) = visual_line) /\
   truthy (pendingKey m) = false /\ textarea m = Some ta /\ selectionInBounds ta) /\
  yankBuffer (state (snd (handleKeyDown (plain "y") m))) =
    slice (selectionStart ta) (selectionEnd ta) (value ta).
Proof.
  intros ta m.
  assert (selectionInBounds ta) as B by (unfold selectionInBounds; simpl; lia).
  split.
  { split; [reflexivity|]. split; [left; reflexivity|]. split; [reflexivity|].
    split; [reflexivity|exact B]. }
  destruct (@visual_y_copies_selection m ta false false eq_refl (or_introl eq_refl)
              eq_refl eq_refl B) as (_ & _ & _ & H & _).
  exact H.
Defined.

(** ** Opening a line *)

Lemma nth_error_inserted (t : Buffer) (p : nat) (c : ascii) :
  p <= length t ->
  nth_error (slice 0 p t ++ [c] ++ sliceFrom p t) p = Some c /\
  (forall i, i < p -> nth_error (slice 0 p t ++ [c] ++ sliceFrom p t) i = nth_error t i) /\
  (forall i, nth_error (slice 0 p t ++ [c] ++ sliceFrom p t) (p + 1 + i) =
             nth_error t (p + i)) /\
  length (slice 0 p t ++ [c] ++ sliceFrom p t) = length t + 1.
Proof.
  intros L. unfold slice, sliceFrom. rewrite Nat.sub_0_r. simpl skipn.
  assert (length (firstn p t) = p) as Lf by (rewrite length_firstn; lia).
  split; [|split; [|split]].
  - rewrite nth_error_app2 by lia. rewrite Lf, Nat.sub_diag. reflexivity.
  - intros i Hi. rewrite nth_error_app1 by lia.
    rewrite nth_error_firstn.
    destruct (i <? p) eqn:E; [reflexivity|apply Nat.ltb_ge in E; lia].
  - intros i. rewrite nth_error_app2 by lia. rewrite Lf.
    replace (p + 1 + i - p) with (S i) by lia. simpl.
    rewrite nth_error_skipn. reflexivity.
  - rewrite length_app. simpl. rewrite Lf, length_skipn. lia.
Qed.

Lemma empty_line_at (t : Buffer) (p : nat) :
  p = 0 \/ notNewlineAt t (p - 1) = false ->
  length t <= p \/ notNewlineAt t p = false ->
  lineStartOf t p = p /\ lineEndOf t p = p.
Proof.
  intros Hs He. split.
  - apply getLineStart_loop_from; [exact Hs|lia|intros; lia].
  - unfold lineEndOf. destruct He as [He|He].
    + apply getLineEnd_loop_beyond. exact He.
    + destruct (length t - p) as [|f]; [reflexivity|].
      simpl. rewrite He, andb_false_r. reflexivity.
Qed.

Lemma insertLineBelow_effect (m : VimModeManager) (ta : HTMLTextAreaElement) :
  textarea m = Some ta ->
  let t := value ta in
  let le := lineEndOf t (selectionStart ta) in
  let m' := insertLineBelow m in
  textarea m' =
    Some (mkTextarea (slice 0 le t ++ [newline] ++ sliceFrom le t)
            (le + 1) (le + 1) nodirection (Some insert)) /\
  mode (state m') = insert /\
  yankBuffer (state m') = yankBuffer (state m) /\
  undoStack m' = undoStack (saveState m) /\ redoStack m' = redoStack (saveState m).
Proof.
  intros T. cbv zeta. unfold insertLineBelow. cbv zeta.
  destruct (saveState_frame m) as (_ & St & _).
  rewrite <- St. rewrite <- textarea_saveState in T.
  revert T. generalize (saveState m). clear. intros m T.
  break_state m; [|discriminate]. simpl in T. injection T as <-.
  repeat split.
Qed.

Lemma insertLineAbove_effect (m : VimModeManager) (ta : HTMLTextAreaElement) :
  textarea m = Some ta ->
  let t := value ta in
  let ls := lineStartOf t (selectionStart ta) in
  let m' := insertLineAbove m in
  textarea m' =
    Some (mkTextarea (slice 0 ls t ++ [newline] ++ sliceFrom ls t)
            ls ls nodirection (Some insert)) /\
  mode (state m') = insert /\
  yankBuffer (state m') = yankBuffer (state m) /\
  undoStack m' = undoStack (saveState m) /\ redoStack m' = redoStack (saveState m).
Proof.
  intros T. cbv zeta. unfold insertLineAbove. cbv zeta.
  destruct (saveState_frame m) as (_ & St & _).
  rewrite <- St. rewrite <- textarea_saveState in T.
  revert T. generalize (saveState m). clear. intros m T.
  break_state m; [|discriminate]. simpl in T. injection T as <-.
  repeat split.
Qed.

(** X13. In Normal mode with no key pending, [o] is consumed, records the
    text and caret as they were on the undo stack (emptying the redo
    stack), puts one newline at the end of the caret's line and leaves the
    engine in Insert mode with a collapsed caret right after that newline.
    The caret then stands on an empty line: both line scans return the
    caret itself.  Every character of the old text is kept, in order. *)
Theorem o_opens_empty_line_below
    (m : VimModeManager) (ta : HTMLTextAreaElement) (c s : bool) :
  enabled m = true -> mode (state m) = normal -> truthy (pendingKey m) = false ->
  textarea m = Some ta -> selectionStart ta <= length (value ta) ->
  let t := value ta in
  let le := lineEndOf t (selectionStart ta) in
  let r := handleKeyDown (mkKey "o" c s) m in
  fst r = true /\ mode (state (snd r)) = insert /\
  undoStack (snd r) = pushBounded (snapshotOf ta) (undoStack m) /\
  redoStack (snd r) = [] /\
  exists ta', textarea (snd r) = Some ta' /\
    selectionStart ta' = le + 1 /\ selectionEnd ta' = le + 1 /\
    slice 0 le (value ta') = slice 0 le t /\
    nth_error (value ta') le = Some newline /\
    sliceFrom (le + 1) (value ta') = sliceFrom le t /\
    lineStartOf (value ta') (le + 1) = le + 1 /\
    lineEndOf (value ta') (le + 1) = le + 1.
Proof.
  intros En Md Pk T B t le r.
  assert (r = (true, insertLineBelow m)) as R.
  { unfold r, handleKeyDown. rewrite En. simpl negb. cbv iota.
    cbn [key ctrlKey shiftKey]. rewrite Md. unfold handleNormalMode.
    rewrite T, Pk. reflexivity. }
  rewrite R. simpl fst; simpl snd. clear R r.
  destruct (@insertLineBelow_effect m ta T) as (T' & Mo & _ & U & Rd).
  destruct (@saveState_pushes m ta T) as (U' & Rd').
  fold t in T'. fold le in T'.
  assert (le <= length t) as Lle by (apply lineEndOf_le; exact B).
  destruct (@nth_error_inserted t le newline Lle) as (N0 & Nb & Na & Len).
  split; [reflexivity|]. split; [exact Mo|].
  split; [rewrite U; exact U'|]. split; [rewrite Rd; exact Rd'|].
  eexists. split; [exact T'|]. cbn [selectionStart selectionEnd value].
  split; [reflexivity|]. split; [reflexivity|].
  split.
  { unfold slice, sliceFrom. rewrite !Nat.sub_0_r. simpl skipn.
    rewrite firstn_app, length_firstn, firstn_firstn, Nat.min_id.
    replace (le - Nat.min le (length t)) with 0 by lia.
    simpl. apply app_nil_r. }
  split; [exact N0|].
  split.
  { unfold slice, sliceFrom. rewrite Nat.sub_0_r. simpl skipn.
    rewrite skipn_app, length_firstn.
    rewrite skipn_all2 by (rewrite length_firstn; lia).
    replace (le + 1 - Nat.min le (length t)) with 1 by lia. reflexivity. }
  apply empty_line_at.
  - right. replace (le + 1 - 1) with le by lia.
    unfold notNewlineAt. rewrite N0. reflexivity.
  - destruct (Nat.eq_dec le (length t)) as [E|NE].
    + left. rewrite Len. lia.
    + right. unfold notNewlineAt.
      specialize (Na 0). rewrite !Nat.add_0_r in Na. rewrite Na.
      assert (notNewlineAt t le = false) as S_
        by (apply lineEndOf_stops; fold t; fold le; lia).
      exact S_.
Qed.

Lemma o_opens_empty_line_below_witness :
  let ta := mkTextarea (buf "ab" ++ [newline] ++ buf "cd") 1 2 nodirection (Some normal) in
  let m := mkVim true (mkVimState normal [] None) [] [] None None (Some ta) [] 1 [] [] in
  (enabled m = true /\ mode (state m) = normal /\ truthy (pendingKey m) = false /\
   textarea m = Some ta /\ selectionStart ta <= length (value ta)) /\
  mode (state (snd (handleKeyDown (plain "o") m))) = insert.
Proof.
  intros ta m.
  assert (selectionStart ta <= length (value ta)) as B by (simpl; lia).
  split.
  { split; [reflexivity|]. split; [reflexivity|]. split; [reflexivity|].
    split; [reflexivity|exact B]. }
  destruct (@o_opens_empty_line_below m ta false false eq_refl eq_refl eq_refl eq_refl B)
    as (_ & H & _).
  exact H.
Defined.

(** X14. In Normal mode with no key pending, Shift+[O] is consumed, takes
    a snapshot, puts one newline at the start of the caret's line and
    leaves the engine in Insert mode with a collapsed caret on that
    newline, which is an empty line; the old text is kept around it. *)
Theorem O_opens_empty_line_above
    (m : VimModeManager) (ta : HTMLTextAreaElement) (c : bool) :
  enabled m = true -> mode (state m) = normal -> truthy (pendingKey m) = false ->
  textarea m = Some ta -> selectionStart ta <= length (value ta) ->
  let t := value ta in
  let ls := lineStartOf t (selectionStart ta) in
  let r := handleKeyDown (mkKey "O" c true) m in
  fst r = true /\ mode (state (snd r)) = insert /\
  undoStack (snd r) = pushBounded (snapshotOf ta) (undoStack m) /\
  redoStack (snd r) = [] /\
  exists ta', textarea (snd r) = Some ta' /\
    selectionStart ta' = ls /\ selectionEnd ta' = ls /\
    slice 0 ls (value ta') = slice 0 ls t /\
    nth_error (value ta') ls = Some newline /\
    sliceFrom (ls + 1) (value ta') = sliceFrom ls t /\
    lineStartOf (value ta') ls = ls /\
    lineEndOf (value ta') ls = ls.
Proof.
  intros En Md Pk T B t ls r.
  assert (r = (true, insertLineAbove m)) as R.
  { unfold r, handleKeyDown. rewrite En. simpl negb. cbv iota.
    cbn [key ctrlKey shiftKey]. rewrite Md. unfold handleNormalMode.
    rewrite T, Pk. reflexivity. }
  rewrite R. simpl fst; simpl snd. clear R r.
  destruct (@insertLineAbove_effect m ta T) as (T' & Mo & _ & U & Rd).
  destruct (@saveState_pushes m ta T) as (U' & Rd').
  fold t in T'. fold ls in T'.
  assert (ls <= length t) as Lls
    by (pose proof (lineStartOf_le t (selectionStart ta)); fold ls in H; fold t in B; lia).
  destruct (@nth_error_inserted t ls newline Lls) as (N0 & Nb & Na & Len).
  split; [reflexivity|]. split; [exact Mo|].
  split; [rewrite U; exact U'|]. split; [rewrite Rd; exact Rd'|].
  eexists. split; [exact T'|]. cbn [selectionStart selectionEnd value].
  split; [reflexivity|]. split; [reflexivity|].
  split.
  { unfold slice, sliceFrom. rewrite !Nat.sub_0_r. simpl skipn.
    rewrite firstn_app, length_firstn, firstn_firstn, Nat.min_id.
    replace (ls - Nat.min ls (length t)) with 0 by lia.
    simpl. apply app_nil_r. }
  split; [exact N0|].
  split.
  { unfold slice, sliceFrom. rewrite Nat.sub_0_r. simpl skipn.
    rewrite skipn_app, length_firstn.
    rewrite skipn_all2 by (rewrite length_firstn; lia).
    replace (ls + 1 - Nat.min ls (length t)) with 1 by lia. reflexivity. }
  apply empty_line_at.
  - destruct (getLineStart_loop_boundary t (selectionStart ta)) as [Z|NZ].
    + left. exact Z.
    + destruct (Nat.eq_dec ls 0) as [E|NE]; [left; exact E|right].
      unfold notNewlineAt. rewrite Nb by lia. exact NZ.
  - right. unfold notNewlineAt. rewrite N0. reflexivity.
Qed.

Lemma O_opens_empty_line_above_witness :
  let ta := mkTextarea (buf "ab" ++ [newline] ++ buf "cd") 4 5 nodirection (Some normal) in
  let m := mkVim true (mkVimState normal [] None) [] [] None None (Some ta) [] 1 [] [] in
  (enabled m = true /\ mode (state m) = normal /\ truthy (pendingKey m) = false /\
   textarea m = Some ta /\ selectionStart ta <= length (value ta)) /\
  mode (state (snd (handleKeyDown (shifted "O") m))) = insert.
Proof.
  intros ta m.
  assert (selectionStart ta <= length (value ta)) as B by (simpl; lia).
  split.
  { split; [reflexivity|]. split; [reflexivity|]. split; [reflexivity|].
    split; [reflexivity|exact B]. }
  destruct (@O_opens_empty_line_above m ta false eq_refl eq_refl eq_refl eq_refl B)
    as (_ & H & _).
  exact H.
Defined.

(** ** Entering Insert mode from Normal mode *)

Lemma caret_then_insert (m : VimModeManager) (ta : HTMLTextAreaElement) (q : nat) :
  textarea m = Some ta -> mode (state m) = normal -> q <= length (value ta) ->
  let m1 := setSelectionRange q q nodirection m in
  let m' := setMode insert (updateCursorAppearance (mode (state m1)) m1) in
  let caret := if q <? length (value ta) then q else length (value ta) - 1 in
  textarea m' = Some (mkTextarea (value ta) caret caret nodirection (Some insert)) /\
  mode (state m') = insert /\
  undoStack m' = undoStack m /\ redoStack m' = redoStack m /\
  yankBuffer (state m') = yankBuffer (state m).
Proof.
  intros T Md L. break_state m; [|discriminate]. simpl in T. injection T as <-.
  simpl in Md. subst. simpl in L. vim_unfold.
  destruct (q <? length v) eqn:E1; simpl.
  - repeat split.
  - apply Nat.ltb_ge in E1. assert (q = length v) as -> by lia.
    destruct (0 <? length v) eqn:E2; simpl; [repeat split|].
    apply Nat.ltb_ge in E2. assert (length v = 0) as -> by lia. repeat split.
Qed.

(** X15. The four keys of Normal mode that start an insertion.  With no
    key pending, [i], [a], [I] and [A] are consumed, leave the text and
    both stacks alone and end in Insert mode with a collapsed caret.  [i]
    puts the caret where the block began.  The other three first move the
    Normal-mode cursor to a target (one place right, the start of the
    line, the end of the line) and insert where its block then begins:
    at the target when a character stands there, and before the last
    character of the buffer when the target is the end of the buffer. *)
Theorem insert_entry_points
    (m : VimModeManager) (ta : HTMLTextAreaElement) (c s : bool) :
  enabled m = true -> mode (state m) = normal -> truthy (pendingKey m) = false ->
  textarea m = Some ta -> selectionStart ta <= length (value ta) ->
  let t := value ta in
  let pos := selectionStart ta in
  let blockStart target := if target <? length t then target else length t - 1 in
  let enters (k : string) (caret : nat) :=
    let r := handleKeyDown (mkKey k c s) m in
    fst r = true /\ mode (state (snd r)) = insert /\
    undoStack (snd r) = undoStack m /\ redoStack (snd r) = redoStack m /\
    textarea (snd r) = Some (mkTextarea t caret caret nodirection (Some insert)) in
  enters "i"%string pos /\
  enters "a"%string (blockStart (Nat.min (length t) (pos + 1))) /\
  enters "I"%string (blockStart (lineStartOf t pos)) /\
  enters "A"%string (blockStart (lineEndOf t pos)).
Proof.
  intros En Md Pk T B t pos blockStart enters.
  assert (forall k, handleKeyDown (mkKey k c s) m = handleNormalMode k c s m) as R.
  { intros k. unfold handleKeyDown. rewrite En, Md. reflexivity. }
  pose proof (lineStartOf_le t pos) as Ls.
  pose proof (@lineEndOf_le t pos B) as Le.
  unfold enters. rewrite !R. unfold handleNormalMode. rewrite T, Pk.
  split; [|split; [|split]].
  - simpl fst; simpl snd. split; [reflexivity|].
    clear - T. break_state m; [|discriminate]. simpl in T. injection T as <-.
    repeat split.
  - simpl fst; simpl snd. unfold moveCursorRight. rewrite T. cbv zeta.
    destruct (@caret_then_insert m ta (Nat.min (length t) (pos + 1)) T Md)
      as (T' & Mo & U & Rd & _); [apply Nat.le_min_l|].
    split; [reflexivity|]. split; [exact Mo|]. split; [exact U|]. split; [exact Rd|exact T'].
  - simpl fst; simpl snd. unfold moveCursorToLineStart, getLineStart. rewrite T. cbv zeta.
    destruct (@caret_then_insert m ta (lineStartOf t pos) T Md)
      as (T' & Mo & U & Rd & _); [unfold t, pos in *; lia|].
    split; [reflexivity|]. split; [exact Mo|]. split; [exact U|]. split; [exact Rd|exact T'].
  - simpl fst; simpl snd. unfold moveCursorToLineEnd, getLineEnd. rewrite T. cbv zeta.
    destruct (@caret_then_insert m ta (lineEndOf t pos) T Md)
      as (T' & Mo & U & Rd & _); [exact Le|].
    split; [reflexivity|]. split; [exact Mo|]. split; [exact U|]. split; [exact Rd|exact T'].
Qed.

Lemma insert_entry_points_witness :
  let ta := mkTextarea (buf "abc") 2 3 nodirection (Some normal) in
  let m := mkVim true (mkVimState normal [] None) [] [] None None (Some ta) [] 1 [] [] in
  (enabled m = true /\ mode (state m) = normal /\ truthy (pendingKey m) = false /\
   textarea m = Some ta /\ selectionStart ta <= length (value ta)) /\
  textarea (snd (handleKeyDown (plain "a") m)) =
    Some (mkTextarea (buf "abc") 2 2 nodirection (Some insert)).
Proof.
  intros ta m.
  assert (selectionStart ta <= length (value ta)) as B by (simpl; lia).
  split.
  { split; [reflexivity|]. split; [reflexivity|]. split; [reflexivity|].
    split; [reflexivity|exact B]. }
  destruct (@insert_entry_points m ta false false eq_refl eq_refl eq_refl eq_refl B)
    as (_ & (_ & _ & _ & _ & H) & _).
  exact H.
Defined.

(** ** Pasting over a selection *)

Lemma replaceSelectionWithYank_body_effect
    (clip : option Buffer) (m : VimModeManager) (ta : HTMLTextAreaElement) :
  textarea m = Some ta -> 0 < length (pasteSource clip m) ->
  let t := value ta in
  let a := Nat.min (selectionStart ta) (selectionEnd ta) in
  let b := Nat.max (selectionStart ta) (selectionEnd ta) in
  let m' := replaceSelectionWithYank_body clip m in
  textarea m' =
    Some (mkTextarea (slice 0 a t ++ pasteSource clip m ++ sliceFrom b t)
            a a nodirection (dataVimMode ta)) /\
  state m' = state m /\
  undoStack m' = undoStack (saveState m) /\ redoStack m' = redoStack (saveState m).
Proof.
  intros T L. cbv zeta. unfold replaceSelectionWithYank_body. cbv zeta.
  destruct (length (pasteSource clip m) =? 0) eqn:E;
    [apply Nat.eqb_eq in E; lia|]. clear E L.
  generalize (pasteSource clip m). intros txt.
  destruct (saveState_frame m) as (_ & St & _).
  rewrite <- St. rewrite <- textarea_saveState in T.
  revert T. generalize (saveState m). clear. intros m T.
  break_state m; [|discriminate]. simpl in T. injection T as <-.
  repeat split.
Qed.

Lemma queue_then_leave (m : VimModeManager) (x : list PasteJob) (st : VimState) :
  pendingPaste m = [] ->
  set_pendingPaste [] (setMode normal (set_state st (set_pendingPaste x m))) =
  setMode normal (set_state st m).
Proof.
  intros P. break_state m; simpl in P; subst; vim_unfold; split_ifs; reflexivity.
Qed.

Lemma queue_survives_leave (m : VimModeManager) (x : list PasteJob) (st : VimState) :
  pendingPaste (setMode normal (set_state st (set_pendingPaste x m))) = x.
Proof. break_state m; vim_unfold; split_ifs; reflexivity. Qed.

(** X16. [p] in a Visual mode, and the paste it starts.  The handler only
    starts the paste and at once leaves for Normal mode, which puts its
    block where the selection began: on the first selected character, or
    on the last character of the buffer when the selection began at the
    end of the buffer.  The paste settles after the handler has returned
    and works on the selection it then finds.  So with something to
    paste, the one character under that block is replaced by the pasted
    text, however far the selection reached (on an empty buffer the text
    is just inserted); the snapshot taken holds the text as it was with
    the start of the block, and the caret ends collapsed at the start of
    the pasted text. *)
Theorem visual_p_replaces_char_under_block
    (m : VimModeManager) (ta : HTMLTextAreaElement) (clip : option Buffer) (c s : bool) :
  enabled m = true ->
  mode (state m) = visual \/ mode (state m) = visual_line ->
  truthy (pendingKey m) = false -> pendingPaste m = [] ->
  textarea m = Some ta -> selectionInBounds ta ->
  0 < length (pasteSource clip m) ->
  let t := value ta in
  let ss := selectionStart ta in
  let from := if ss <? length t then ss else length t - 1 in
  let upto := if ss <? length t then ss + 1 else length t in
  let m' := press clip (mkKey "p" c s) m in
  mode (state m') = normal /\ visualStart (state m') = None /\
  undoStack m' = pushBounded (mkSnapshot t from) (undoStack m) /\
  redoStack m' = [] /\
  exists ta', textarea m' = Some ta' /\
    value ta' = slice 0 from t ++ pasteSource clip m ++ sliceFrom upto t /\
    selectionStart ta' = from /\ selectionEnd ta' = from.
Proof.
  intros En Md Pk Pp T B Src t ss from upto m'.
  set (n := setMode normal (set_state (set_visualStart None (state m)) m)).
  assert (m' = replaceSelectionWithYank_body clip n) as D.
  { unfold m', press, keyPress.
    assert (handleKeyDown (mkKey "p" c s) m =
            (true, setMode normal
                     (set_state
                        (set_visualStart None (state (replaceSelectionWithYank m)))
                        (replaceSelectionWithYank m)))) as H.
    { assert (keyIs "p" "Escape" || c && keyIs "p" "[" = false) as Esc
        by (destruct c; reflexivity).
      unfold handleKeyDown. rewrite En. simpl negb. cbv iota.
      cbn [key ctrlKey shiftKey]. unfold handleVisualMode.
      destruct Md as [-> | ->]; rewrite T, Esc, Pk; reflexivity. }
    rewrite H. simpl snd. unfold replaceSelectionWithYank. rewrite Pp. simpl app.
    unfold resolvePaste. rewrite queue_survives_leave.
    unfold runPasteJob. rewrite queue_then_leave by exact Pp. reflexivity. }
  destruct (leaveVisual_frame m) as (_ & _ & _ & Y & V & Mo & U & Rd & _).
  cbv zeta in Y, V, Mo, U, Rd. fold n in Y, V, Mo, U, Rd.
  destruct (@setMode_normal_block (set_state (set_visualStart None (state m)) m) ta)
    as (ta1 & T1 & _ & V1 & BC1);
    [rewrite set_state_textarea; exact T|exact B|].
  fold n in T1.
  assert (selectionStart ta1 = from /\ selectionEnd ta1 = upto) as [S1 E1].
  { destruct BC1 as (A1 & A2 & A3). rewrite V1 in A1, A2, A3.
    destruct B as [B1 B2]. fold ss t in A1, A2, A3. fold t in B2.
    unfold from, upto.
    destruct (ss <? length t) eqn:Q.
    - apply Nat.ltb_lt in Q. exact (A1 Q).
    - apply Nat.ltb_ge in Q. assert (ss = length t) as Eq by (unfold ss in *; lia).
      destruct (Nat.eq_dec (length t) 0) as [Z|NZ].
      + destruct (A3 Z) as [P1 P2]. rewrite P1, P2, Z. split; reflexivity.
      + destruct (A2 Eq) as [P1 P2]; [lia|]. rewrite P1, P2, Eq. split; reflexivity. }
  assert (from <= upto) as FU.
  { unfold from, upto. destruct (ss <? length t); lia. }
  assert (pasteSource clip n = pasteSource clip m) as PS
    by (unfold pasteSource; rewrite Y; reflexivity).
  destruct (@replaceSelectionWithYank_body_effect clip n ta1 T1) as (T2 & St2 & U2 & R2);
    [rewrite PS; exact Src|].
  destruct (@saveState_pushes n ta1 T1) as (U3 & R3).
  clearbody n. rewrite D.
  split; [rewrite St2; exact Mo|]. split; [rewrite St2; exact V|].
  split.
  { rewrite U2, U3, U. unfold snapshotOf. rewrite V1, S1. reflexivity. }
  split; [rewrite R2; exact R3|].
  eexists. split; [exact T2|]. cbn [value selectionStart selectionEnd].
  rewrite S1, E1, V1, PS.
  rewrite Nat.min_l, Nat.max_r by lia.
  split; [reflexivity|]. split; reflexivity.
Qed.

Lemma visual_p_replaces_char_under_block_witness :
  let ta := mkTextarea (buf "abc") 3 3 nodirection (Some visual) in
  let m := mkVim true (mkVimState visual (buf "XY") (Some 3)) [] [] None None (Some ta)
             [] 1 [] [] in
  (enabled m = true /\ (mode (state m) = visual \/ mode (state m) = visual_line) /\
   truthy (pendingKey m) = false /\ pendingPaste m = [] /\ textarea m = Some ta /\
   selectionInBounds ta /\ 0 < length (pasteSource None m)) /\
  exists ta', textarea (press None (plain "p") m) = Some ta' /\
    value ta' = buf "abXY" /\ selectionStart ta' = 2.
Proof.
  intros ta m.
  assert (selectionInBounds ta) as B by (unfold selectionInBounds; simpl; lia).
  assert (0 < length (pasteSource None m)) as S_ by (simpl; lia).
  split.
  { split; [reflexivity|]. split; [left; reflexivity|]. split; [reflexivity|].
    split; [reflexivity|]. split; [reflexivity|]. split; [exact B|exact S_]. }
  destruct (@visual_p_replaces_char_under_block m ta None false false
              eq_refl (or_introl eq_refl) eq_refl eq_refl eq_refl B S_)
    as (_ & _ & _ & _ & ta' & T' & V' & S' & _).
  exists ta'. split; [exact T'|]. split; [rewrite V'; reflexivity|exact S'].
Defined.

(** ** [p] and [P] in Normal mode *)

Lemma press_p_is_body (m : VimModeManager) (ta : HTMLTextAreaElement)
    (clip : option Buffer) (c s : bool) :
  enabled m = true -> mode (state m) = normal -> truthy (pendingKey m) = false ->
  pendingPaste m = [] -> textarea m = Some ta ->
  keyPress clip (mkKey "p" c s) m = (true, pasteAfterCursor_body clip m) /\
  keyPress clip (mkKey "P" c true) m = (true, pasteBeforeCursor_body clip m).
Proof.
  intros En Md Pk Pp T.
  assert (handleKeyDown (mkKey "p" c s) m = (true, pasteAfterCursor m)) as H1.
  { unfold handleKeyDown. rewrite En, Md. simpl negb. cbv iota.
    cbn [key ctrlKey shiftKey]. unfold handleNormalMode. rewrite T, Pk. reflexivity. }
  assert (handleKeyDown (mkKey "P" c true) m = (true, pasteBeforeCursor m)) as H2.
  { unfold handleKeyDown. rewrite En, Md. simpl negb. cbv iota.
    cbn [key ctrlKey shiftKey]. unfold handleNormalMode. rewrite T, Pk. reflexivity. }
  unfold keyPress. rewrite H1, H2.
  unfold resolvePaste, pasteAfterCursor, pasteBeforeCursor.
  replace (pendingPaste (set_pendingPaste (pendingPaste m ++ [PasteAfter]) m))
    with [PasteAfter] by (rewrite Pp; destruct m; reflexivity).
  replace (pendingPaste (set_pendingPaste (pendingPaste m ++ [PasteBefore]) m))
    with [PasteBefore] by (rewrite Pp; destruct m; reflexivity).
  cbv iota beta. unfold runPasteJob.
  rewrite !set_pendingPaste_back by exact Pp. split; reflexivity.
Qed.

Lemma paste_bodies_record (clip : option Buffer) (m : VimModeManager) :
  0 < length (pasteSource clip m) ->
  (state (pasteAfterCursor_body clip m) = state m /\
   undoStack (pasteAfterCursor_body clip m) = undoStack (saveState m) /\
   redoStack (pasteAfterCursor_body clip m) = redoStack (saveState m)) /\
  (state (pasteBeforeCursor_body clip m) = state m /\
   undoStack (pasteBeforeCursor_body clip m) = undoStack (saveState m) /\
   redoStack (pasteBeforeCursor_body clip m) = redoStack (saveState m)).
Proof.
  intros L. unfold pasteAfterCursor_body, pasteBeforeCursor_body. cbv zeta.
  destruct (length (pasteSource clip m) =? 0) eqn:E;
    [apply Nat.eqb_eq in E; lia|]. clear E L.
  generalize (pasteSource clip m). intros txt.
  destruct (saveState_frame m) as (_ & St & _). rewrite <- St.
  generalize (saveState m). clear. intros m.
  break_state m; repeat split.
Qed.

(** X17. With nothing to paste (the clipboard read fails or gives the
    empty string, and nothing was yanked) [p] and Shift+[P] in Normal mode
    are consumed and, once the read has settled, have changed nothing: no
    text, no caret, no snapshot, no callback. *)
Theorem nothing_to_paste_changes_nothing
    (m : VimModeManager) (ta : HTMLTextAreaElement) (clip : option Buffer) (c s : bool) :
  enabled m = true -> mode (state m) = normal -> truthy (pendingKey m) = false ->
  pendingPaste m = [] -> textarea m = Some ta ->
  clip = None \/ clip = Some [] -> yankBuffer (state m) = [] ->
  keyPress clip (mkKey "p" c s) m = (true, m) /\
  keyPress clip (mkKey "P" c true) m = (true, m).
Proof.
  intros En Md Pk Pp T Clip Y.
  destruct (@press_p_is_body m ta clip c s En Md Pk Pp T) as (A & B).
  rewrite A, B.
  assert (pasteSource clip m = []) as E
    by (unfold pasteSource; destruct Clip as [-> | ->]; simpl; exact Y).
  unfold pasteAfterCursor_body, pasteBeforeCursor_body. cbv zeta. rewrite E.
  split; reflexivity.
Qed.

Lemma nothing_to_paste_changes_nothing_witness :
  let ta := mkTextarea (buf "abc") 1 2 nodirection (Some normal) in
  let m := mkVim true (mkVimState normal [] None) [] [] None None (Some ta) [] 1 [] [] in
  (enabled m = true /\ mode (state m) = normal /\ truthy (pendingKey m) = false /\
   pendingPaste m = [] /\ textarea m = Some ta /\
   (@None Buffer = None \/ @None Buffer = Some []) /\ yankBuffer (state m) = []) /\
  keyPress None (plain "p") m = (true, m).
Proof.
  intros ta m. split.
  { split; [reflexivity|]. split; [reflexivity|]. split; [reflexivity|].
    split; [reflexivity|]. split; [reflexivity|]. split; [left; reflexivity|reflexivity]. }
  destruct (@nothing_to_paste_changes_nothing m ta None false false
              eq_refl eq_refl eq_refl eq_refl eq_refl (or_introl eq_refl) eq_refl)
    as (H & _).
  exact H.
Defined.

(** X18. With something to paste, [p] and Shift+[P] in Normal mode take a
    snapshot of the text and caret as they were, empty the redo stack and
    insert the text: [p] right after the character under the cursor (at
    the end of the buffer when the cursor is there), [P] where the block
    begins.  The mode stays Normal and the caret is left collapsed in
    front of the inserted text.  What is inserted is the clipboard text
    when the read gave a non-empty string, the yank buffer otherwise. *)
Theorem p_and_P_insert_the_paste
    (m : VimModeManager) (ta : HTMLTextAreaElement) (clip : option Buffer) (c s : bool) :
  enabled m = true -> mode (state m) = normal -> truthy (pendingKey m) = false ->
  pendingPaste m = [] -> textarea m = Some ta ->
  0 < length (pasteSource clip m) ->
  let t := value ta in
  let pos := selectionStart ta in
  let src := pasteSource clip m in
  let pastes (m' : VimModeManager) (at_ : nat) :=
    textarea m' = Some (mkTextarea (slice 0 at_ t ++ src ++ sliceFrom at_ t)
                          at_ at_ nodirection (dataVimMode ta)) /\
    mode (state m') = normal /\
    undoStack m' = pushBounded (snapshotOf ta) (undoStack m) /\
    redoStack m' = [] in
  pastes (press clip (mkKey "p" c s) m) (Nat.min (length t) (pos + 1)) /\
  pastes (press clip (mkKey "P" c true) m) pos /\
  (forall cl, clip = Some cl -> 0 < length cl -> src = cl) /\
  (clip = None \/ clip = Some [] -> src = yankBuffer (state m)).
Proof.
  intros En Md Pk Pp T L t pos src pastes.
  destruct (@press_p_is_body m ta clip c s En Md Pk Pp T) as (A & B).
  destruct (@paste_bodies_record clip m L) as ((S1 & U1 & R1) & (S2 & U2 & R2)).
  destruct (@saveState_pushes m ta T) as (U & R).
  pose proof (pasteAfterCursor_body_effect clip m T) as T1.
  pose proof (pasteBeforeCursor_body_effect clip m T) as T2.
  cbv zeta in T1, T2.
  assert ((length (pasteSource clip m) =? 0) = false) as NE
    by (apply Nat.eqb_neq; lia).
  rewrite NE in T1, T2.
  unfold pastes, press. rewrite A, B. simpl snd.
  split; [|split; [|split]].
  - split; [exact T1|]. split; [rewrite S1; exact Md|].
    split; [rewrite U1; exact U|rewrite R1; exact R].
  - split; [exact T2|]. split; [rewrite S2; exact Md|].
    split; [rewrite U2; exact U|rewrite R2; exact R].
  - intros cl -> Lc. unfold src, pasteSource.
    destruct (0 <? length cl) eqn:E; [reflexivity|apply Nat.ltb_ge in E; lia].
  - intros [-> | ->]; reflexivity.
Qed.

Lemma p_and_P_insert_the_paste_witness :
  let ta := mkTextarea (buf "abc") 1 2 nodirection (Some normal) in
  let m := mkVim true (mkVimState normal (buf "Y") None) [] [] None None (Some ta)
             [] 1 [] [] in
  (enabled m = true /\ mode (state m) = normal /\ truthy (pendingKey m) = false /\
   pendingPaste m = [] /\ textarea m = Some ta /\
   0 < length (pasteSource (Some (buf "XX")) m)) /\
  textarea (press (Some (buf "XX")) (plain "p") m) =
    Some (mkTextarea (buf "abXXc") 2 2 nodirection (Some normal)).
Proof.
  intros ta m.
  assert (0 < length (pasteSource (Some (buf "XX")) m)) as L by (simpl; lia).
  split.
  { split; [reflexivity|]. split; [reflexivity|]. split; [reflexivity|].
    split; [reflexivity|]. split; [reflexivity|exact L]. }
  destruct (@p_and_P_insert_the_paste m ta (Some (buf "XX")) false false
              eq_refl eq_refl eq_refl eq_refl eq_refl L)
    as ((H & _) & _).
  exact H.
Defined.

(** ** The pending-key timer *)

Lemma sameTimer_refl (m : VimModeManager) : sameTimer m m.
Proof. unfold sameTimer; tauto. Qed.

Lemma sameTimer_trans (m1 m2 m3 : VimModeManager) :
  sameTimer m1 m2 -> sameTimer m2 m3 -> sameTimer m1 m3.
Proof.
  unfold sameTimer. intros (A1 & B1 & C1) (A2 & B2 & C2).
  split; [congruence|]. split; congruence.
Qed.

Lemma timerOk_same (m m' : VimModeManager) : sameTimer m m' -> timerOk m -> timerOk m'.
Proof. unfold sameTimer, timerOk. intros (A & B & C). rewrite A, B, C. tauto. Qed.

Ltac same_tac m := unfold sameTimer; break_state m; vim_unfold; split_ifs; repeat split.

Lemma saveState_same (m : VimModeManager) : sameTimer m (saveState m).
Proof. same_tac m. Qed.

Ltac same_after_save m :=
  cbv zeta; apply (@sameTimer_trans m (saveState m)); [apply saveState_same|];
  generalize (saveState m); clear m; intros m; same_tac m.

Lemma setMode_same (md : VimMode) (m : VimModeManager) : sameTimer m (setMode md m).
Proof. same_tac m. Qed.
Lemma set_state_same (st : VimState) (m : VimModeManager) : sameTimer m (set_state st m).
Proof. same_tac m. Qed.
Lemma set_enabled_same (b : bool) (m : VimModeManager) : sameTimer m (set_enabled b m).
Proof. same_tac m. Qed.
Lemma set_textarea_same (ta : option HTMLTextAreaElement) (m : VimModeManager) :
  sameTimer m (set_textarea ta m).
Proof. same_tac m. Qed.
Lemma set_pendingPaste_same (x : list PasteJob) (m : VimModeManager) :
  sameTimer m (set_pendingPaste x m).
Proof. same_tac m. Qed.
Lemma setSelectionRange_same (a b : nat) (d : SelectionDirection) (m : VimModeManager) :
  sameTimer m (setSelectionRange a b d m).
Proof. same_tac m. Qed.
Lemma emit_same (e : HostEffect) (m : VimModeManager) : sameTimer m (emit e m).
Proof. same_tac m. Qed.
Lemma setSelectionWithDirection_same (a b : nat) (m : VimModeManager) :
  sameTimer m (setSelectionWithDirection a b m).
Proof. same_tac m. Qed.
Lemma moveCursorLeft_same (m : VimModeManager) : sameTimer m (moveCursorLeft m).
Proof. same_tac m. Qed.
Lemma moveCursorRight_same (m : VimModeManager) : sameTimer m (moveCursorRight m).
Proof. same_tac m. Qed.
Lemma moveCursorUp_same (m : VimModeManager) : sameTimer m (moveCursorUp m).
Proof. same_tac m. Qed.
Lemma moveCursorDown_same (m : VimModeManager) : sameTimer m (moveCursorDown m).
Proof. same_tac m. Qed.
Lemma moveCursorToStart_same (m : VimModeManager) : sameTimer m (moveCursorToStart m).
Proof. same_tac m. Qed.
Lemma moveCursorToEnd_same (m : VimModeManager) : sameTimer m (moveCursorToEnd m).
Proof. same_tac m. Qed.
Lemma moveCursorToLineStart_same (m : VimModeManager) :
  sameTimer m (moveCursorToLineStart m).
Proof. same_tac m. Qed.
Lemma moveCursorToLineEnd_same (m : VimModeManager) : sameTimer m (moveCursorToLineEnd m).
Proof. same_tac m. Qed.
Lemma yankCurrentLine_same (m : VimModeManager) : sameTimer m (yankCurrentLine m).
Proof. same_tac m. Qed.
Lemma yankSelection_same (m : VimModeManager) : sameTimer m (yankSelection m).
Proof. same_tac m. Qed.
Lemma extendSelectionLeft_same (m : VimModeManager) : sameTimer m (extendSelectionLeft m).
Proof. same_tac m. Qed.
Lemma extendSelectionRight_same (m : VimModeManager) : sameTimer m (extendSelectionRight m).
Proof. same_tac m. Qed.
Lemma extendSelectionUp_same (m : VimModeManager) : sameTimer m (extendSelectionUp m).
Proof. same_tac m. Qed.
Lemma extendSelectionDown_same (m : VimModeManager) : sameTimer m (extendSelectionDown m).
Proof. same_tac m. Qed.
Lemma extendSelectionUpLine_same (m : VimModeManager) :
  sameTimer m (extendSelectionUpLine m).
Proof. same_tac m. Qed.
Lemma extendSelectionDownLine_same (m : VimModeManager) :
  sameTimer m (extendSelectionDownLine m).
Proof. same_tac m. Qed.
Lemma pasteAfterCursor_same (m : VimModeManager) : sameTimer m (pasteAfterCursor m).
Proof. same_tac m. Qed.
Lemma pasteBeforeCursor_same (m : VimModeManager) : sameTimer m (pasteBeforeCursor m).
Proof. same_tac m. Qed.
Lemma replaceSelectionWithYank_same (m : VimModeManager) :
  sameTimer m (replaceSelectionWithYank m).
Proof. same_tac m. Qed.

Lemma deleteCharAtCursor_same (m : VimModeManager) : sameTimer m (deleteCharAtCursor m).
Proof. unfold deleteCharAtCursor. same_after_save m. Qed.
Lemma deleteCurrentLine_same (m : VimModeManager) : sameTimer m (deleteCurrentLine m).
Proof. unfold deleteCurrentLine. same_after_save m. Qed.
Lemma deleteSelection_same (m : VimModeManager) : sameTimer m (deleteSelection m).
Proof. unfold deleteSelection. same_after_save m. Qed.
Lemma insertLineBelow_same (m : VimModeManager) : sameTimer m (insertLineBelow m).
Proof. unfold insertLineBelow. same_after_save m. Qed.
Lemma insertLineAbove_same (m : VimModeManager) : sameTimer m (insertLineAbove m).
Proof. unfold insertLineAbove. same_after_save m. Qed.

Lemma undo_same (m : VimModeManager) : sameTimer m (undo m).
Proof.
  unfold undo. destruct (length (undoStack m) =? 0); [apply sameTimer_refl|].
  destruct (textarea m) as [ta|] eqn:T; [|apply sameTimer_refl]. cbv zeta.
  destruct (pop _) as [[st rest]|]; break_state m; try discriminate;
    unfold sameTimer; repeat split.
Qed.

Lemma redo_same (m : VimModeManager) : sameTimer m (redo m).
Proof.
  unfold redo. destruct (length (redoStack m) =? 0); [apply sameTimer_refl|].
  destruct (textarea m) as [ta|] eqn:T; [|apply sameTimer_refl]. cbv zeta.
  destruct (pop _) as [[st rest]|]; break_state m; try discriminate;
    unfold sameTimer; repeat split.
Qed.

Lemma runPasteJob_same (clip : option Buffer) (j : PasteJob) (m : VimModeManager) :
  sameTimer m (runPasteJob clip j m).
Proof.
  destruct j; unfold runPasteJob, pasteAfterCursor_body, pasteBeforeCursor_body,
    replaceSelectionWithYank_body; cbv zeta;
    (destruct (length (pasteSource clip m) =? 0); [apply sameTimer_refl|]);
    generalize (pasteSource clip m); intros txt;
    (apply (@sameTimer_trans m (saveState m)); [apply saveState_same|]);
    generalize (saveState m); clear m; intros m; same_tac m.
Qed.

Lemma resolvePaste_same (clip : option Buffer) (m : VimModeManager) :
  sameTimer m (resolvePaste clip m).
Proof.
  unfold resolvePaste. destruct (pendingPaste m) as [|j rest]; [apply sameTimer_refl|].
  apply (@sameTimer_trans m (set_pendingPaste rest m));
    [apply set_pendingPaste_same|apply runPasteJob_same].
Qed.

Lemma setEnabled_same (b : bool) (m : VimModeManager) : sameTimer m (setEnabled b m).
Proof.
  unfold setEnabled. cbv zeta.
  apply (@sameTimer_trans m (set_enabled b m)); [apply set_enabled_same|].
  destruct b.
  - apply (@sameTimer_trans _ (setMode normal (set_enabled true m)));
      [apply setMode_same|apply saveState_same].
  - apply setMode_same.
Qed.

(** The three ways the timer changes. *)
Lemma remove_only (id : nat) : remove Nat.eq_dec id [id] = [].
Proof. simpl. destruct (Nat.eq_dec id id); [reflexivity|congruence]. Qed.

Lemma setPendingKey_timerOk (k : string) (m : VimModeManager) :
  In (Some k) [Some "g"; Some "d"; Some "y"]%string ->
  timerOk m -> timerOk (setPendingKey k m).
Proof.
  unfold timerOk. intros K (A & _ & _).
  break_state m; simpl in A; vim_unfold; destruct pt as [id|]; subst tm; simpl;
    (split; [rewrite ?remove_only; try reflexivity|]);
    try (destruct (Nat.eq_dec id id); [reflexivity|congruence]);
    (split; [discriminate|]); simpl in K; tauto.
Qed.

Lemma clearPendingKey_timerOk (m : VimModeManager) :
  timerOk m ->
  timerOk (clearPendingKey m) /\ pendingKey (clearPendingKey m) = None /\
  pendingKeyTimeout (clearPendingKey m) = None /\ timers (clearPendingKey m) = [].
Proof.
  unfold timerOk. intros (A & _ & _).
  break_state m; simpl in A; vim_unfold; destruct pt as [id|]; subst tm; simpl;
    rewrite ?remove_only;
    try (destruct (Nat.eq_dec id id); [|congruence]);
    repeat split; try congruence; left; reflexivity.
Qed.

Lemma cleanup_timerOk (m : VimModeManager) :
  timerOk m ->
  timerOk (cleanup m) /\ pendingKey (cleanup m) = pendingKey m /\
  pendingKeyTimeout (cleanup m) = None /\ timers (cleanup m) = [].
Proof.
  unfold timerOk. intros (A & _ & C).
  break_state m; simpl in A, C; vim_unfold; destruct pt as [id|]; subst tm; simpl;
    rewrite ?remove_only;
    try (destruct (Nat.eq_dec id id); [|congruence]);
    repeat split; try congruence; exact C.
Qed.

Lemma timerFires_timerOk (id : nat) (m : VimModeManager) :
  timerOk m -> timerOk (timerFires id m).
Proof.
  unfold timerOk, timerFires. intros (A & B & C).
  destruct (in_dec Nat.eq_dec id (timers m)) as [I|N]; [|tauto].
  destruct m as [en st us rs pk [p|] ta tm nt ef pp]; simpl in *; subst tm.
  - destruct I as [<-|[]]. unfold clearTimeout. simpl.
    destruct (Nat.eq_dec p p); [|congruence]. simpl.
    split; [reflexivity|]. split; [congruence|left; reflexivity].
  - destruct I.
Qed.

Ltac same_leaf :=
  first
    [ apply sameTimer_refl
    | apply saveState_same | apply undo_same | apply redo_same
    | apply moveCursorLeft_same | apply moveCursorRight_same
    | apply moveCursorUp_same | apply moveCursorDown_same
    | apply moveCursorToStart_same | apply moveCursorToEnd_same
    | apply moveCursorToLineStart_same | apply moveCursorToLineEnd_same
    | apply deleteCharAtCursor_same | apply deleteCurrentLine_same
    | apply yankCurrentLine_same | apply yankSelection_same | apply deleteSelection_same
    | apply insertLineBelow_same | apply insertLineAbove_same
    | apply pasteAfterCursor_same | apply pasteBeforeCursor_same
    | apply replaceSelectionWithYank_same
    | apply extendSelectionLeft_same | apply extendSelectionRight_same
    | apply extendSelectionUp_same | apply extendSelectionDown_same
    | apply extendSelectionUpLine_same | apply extendSelectionDownLine_same ].

Ltac same_chain :=
  lazymatch goal with
  | |- sameTimer ?m ?m => apply sameTimer_refl
  | |- sameTimer ?m (if ?b then _ else _) => destruct b; same_chain
  | |- sameTimer ?m (setMode ?md ?x) =>
      apply (@sameTimer_trans m x); [same_chain|apply setMode_same]
  | |- sameTimer ?m (set_state ?st ?x) =>
      apply (@sameTimer_trans m x); [same_chain|apply set_state_same]
  | |- sameTimer ?m (setSelectionRange ?a ?b ?d ?x) =>
      apply (@sameTimer_trans m x); [same_chain|apply setSelectionRange_same]
  | |- sameTimer ?m (setSelectionWithDirection ?a ?b ?x) =>
      apply (@sameTimer_trans m x); [same_chain|apply setSelectionWithDirection_same]
  | |- sameTimer ?m (emit ?e ?x) =>
      apply (@sameTimer_trans m x); [same_chain|apply emit_same]
  | |- sameTimer ?m (?f ?x) =>
      apply (@sameTimer_trans m x); [same_chain|same_leaf]
  end.

Ltac split_keys :=
  repeat match goal with
  | |- context [if keyIs ?a ?b then _ else _] => destruct (keyIs a b)
  | |- context [if isVisualLine ?m then _ else _] => destruct (isVisualLine m)
  end.

Lemma starts_compound (k : string) :
  keyIs k "g" || keyIs k "d" || keyIs k "y" = true ->
  In (Some k) [Some "g"; Some "d"; Some "y"]%string.
Proof.
  unfold keyIs. intros H.
  apply orb_true_iff in H as [H|H]; [apply orb_true_iff in H as [H|H]|];
    apply String.eqb_eq in H; subst k; simpl; tauto.
Qed.

Lemma handleNormalMode_after_pending (k : string) (c s : bool) (m : VimModeManager) :
  textarea m <> None -> truthy (pendingKey m) = true ->
  sameTimer (clearPendingKey m) (snd (handleNormalMode k c s m)).
Proof.
  intros T P. unfold handleNormalMode.
  destruct (textarea m) as [ta|]; [|congruence]. rewrite P. cbv zeta.
  split_keys; simpl snd; same_chain.
Qed.

Lemma handleNormalMode_timerOk (k : string) (c s : bool) (m : VimModeManager) :
  timerOk m -> timerOk (snd (handleNormalMode k c s m)).
Proof.
  intros Ok.
  destruct (textarea m) as [ta|] eqn:T;
    [|unfold handleNormalMode; rewrite T; exact Ok].
  destruct (truthy (pendingKey m)) eqn:P.
  - apply (@timerOk_same (clearPendingKey m)).
    + apply handleNormalMode_after_pending; [congruence|exact P].
    + apply clearPendingKey_timerOk. exact Ok.
  - unfold handleNormalMode. rewrite T, P. cbv zeta.
    destruct (keyIs k "g" || keyIs k "d" || keyIs k "y") eqn:GDY.
    + apply starts_compound in GDY.
      split_keys; try destruct s; simpl snd;
        first [ apply setPendingKey_timerOk; [exact GDY|exact Ok]
              | apply (@timerOk_same m); [same_chain|exact Ok] ].
    + split_keys; try destruct s; simpl snd;
        (apply (@timerOk_same m); [same_chain|exact Ok]).
Qed.

Lemma handleVisualKey_timerOk (k : string) (ta : HTMLTextAreaElement) (m : VimModeManager) :
  timerOk m -> timerOk (snd (handleVisualKey k ta m)).
Proof.
  intros Ok. unfold handleVisualKey. cbv zeta.
  destruct (keyIs k "g") eqn:G.
  - simpl snd. apply setPendingKey_timerOk; [|exact Ok].
    apply String.eqb_eq in G. subst k. simpl. tauto.
  - split_keys; simpl snd; (apply (@timerOk_same m); [same_chain|exact Ok]).
Qed.

Lemma handleVisualKey_same (k : string) (ta : HTMLTextAreaElement) (m : VimModeManager) :
  keyIs k "g" = false -> sameTimer m (snd (handleVisualKey k ta m)).
Proof.
  intros G. unfold handleVisualKey. cbv zeta. rewrite G.
  split_keys; simpl snd; same_chain.
Qed.

Lemma handleVisualMode_timerOk (k : string) (c s : bool) (m : VimModeManager) :
  timerOk m -> timerOk (snd (handleVisualMode k c s m)).
Proof.
  intros Ok. unfold handleVisualMode.
  destruct (textarea m) as [ta|] eqn:T; [|exact Ok].
  destruct (keyIs k "Escape" || c && keyIs k "[").
  - cbv zeta. simpl snd. apply (@timerOk_same m); [same_chain|exact Ok].
  - destruct (truthy (pendingKey m)).
    + cbv zeta. destruct (clearPendingKey_timerOk Ok) as (Ok' & _).
      destruct (keyIs _ "gg").
      * simpl snd. apply (@timerOk_same (clearPendingKey m)); [same_chain|exact Ok'].
      * apply handleVisualKey_timerOk. exact Ok'.
    + apply handleVisualKey_timerOk. exact Ok.
Qed.

Lemma handleKeyDown_timerOk (ev : KeyboardEvent) (m : VimModeManager) :
  timerOk m -> timerOk (snd (handleKeyDown ev m)).
Proof.
  intros Ok. unfold handleKeyDown.
  destruct (negb (enabled m)); [exact Ok|].
  destruct (mode (state m)).
  - apply handleNormalMode_timerOk. exact Ok.
  - unfold handleInsertMode. destruct (keyIs _ "Escape" || _ && _); [|exact Ok].
    cbv zeta. simpl snd. apply (@timerOk_same m); [same_chain|exact Ok].
  - apply handleVisualMode_timerOk. exact Ok.
  - apply handleVisualMode_timerOk. exact Ok.
Qed.

Lemma perform_timerOk (call : EngineCall) (m : VimModeManager) :
  timerOk m -> timerOk (perform call m).
Proof.
  intros Ok. destruct call; simpl perform.
  - apply handleKeyDown_timerOk. exact Ok.
  - apply (timerOk_same (setEnabled_same b m) Ok).
  - apply cleanup_timerOk. exact Ok.
  - apply timerFires_timerOk. exact Ok.
  - apply (timerOk_same (resolvePaste_same clip m) Ok).
  - apply (timerOk_same (saveState_same m) Ok).
  - apply (timerOk_same (undo_same m) Ok).
  - apply (timerOk_same (redo_same m) Ok).
  - apply (timerOk_same (set_textarea_same ta m) Ok).
Qed.

Lemma performAll_timerOk (cs : list EngineCall) (m : VimModeManager) :
  timerOk m -> timerOk (performAll cs m).
Proof.
  revert m. induction cs as [|call cs IH]; intros m Ok; [exact Ok|].
  simpl. apply IH, perform_timerOk, Ok.
Qed.

(** X19. The pending-key timer over every run.  Whatever is done to a
    fresh engine (keys, switching on and off, [cleanup], timers expiring,
    pastes settling, the stack methods, the page replacing the textarea),
    at most one timer is armed and it is the one whose handle the engine
    remembers; a remembered handle goes with a pending key; and a pending
    key is [g], [d] or [y]. *)
Theorem timer_discipline (cs : list EngineCall) (ta : option HTMLTextAreaElement) :
  let m := performAll cs (newVimModeManager ta) in
  timerOk m /\ length (timers m) <= 1.
Proof.
  intros m.
  assert (timerOk m) as Ok.
  { apply performAll_timerOk. unfold timerOk, newVimModeManager. simpl.
    split; [reflexivity|]. split; [congruence|left; reflexivity]. }
  split; [exact Ok|].
  destruct Ok as (A & _). rewrite A. destruct (pendingKeyTimeout m); simpl; lia.
Qed.

(** X20. What the next key does to a pending key.  In Normal mode every
    key resolves it: afterwards no key is pending and no timer is armed.
    In a Visual mode the same holds for a pending [g], except for Escape
    and Ctrl+[: those leave for Normal mode with the key still pending
    and its timer still armed. *)
Theorem next_key_and_pending_key
    (m : VimModeManager) (ta : HTMLTextAreaElement) (ev : KeyboardEvent) :
  enabled m = true -> textarea m = Some ta -> timerOk m ->
  truthy (pendingKey m) = true ->
  let leaving := keyIs (key ev) "Escape" || (ctrlKey ev && keyIs (key ev) "[") in
  let inVisual := mode (state m) = visual \/ mode (state m) = visual_line in
  let m' := snd (handleKeyDown ev m) in
  let resolved :=
    pendingKey m' = None /\ pendingKeyTimeout m' = None /\ timers m' = [] in
  (mode (state m) = normal -> resolved) /\
  (inVisual -> leaving = false -> pendingKey m = Some "g"%string -> resolved) /\
  (inVisual -> leaving = true -> mode (state m') = normal /\ sameTimer m m').
Proof.
  intros En T Ok P leaving inVisual m' resolved.
  destruct (clearPendingKey_timerOk Ok) as (_ & K0 & H0 & T0).
  assert (forall x, sameTimer (clearPendingKey m) x ->
            pendingKey x = None /\ pendingKeyTimeout x = None /\ timers x = []) as Res.
  { intros x (A & B & C). rewrite A, B, C. auto. }
  split; [|split].
  - intros Md. apply Res. unfold m', handleKeyDown. rewrite En, Md. simpl negb. cbv iota.
    apply handleNormalMode_after_pending; [congruence|exact P].
  - intros V L G. apply Res.
    assert (m' = snd (handleVisualMode (key ev) (ctrlKey ev) (shiftKey ev) m)) as ->.
    { unfold m', handleKeyDown. rewrite En. destruct V as [-> | ->]; reflexivity. }
    unfold handleVisualMode. rewrite T. fold leaving. rewrite L, P, G. cbv zeta.
    destruct (keyIs (String.append "g" (key ev)) "gg") eqn:GG.
    + simpl snd. same_chain.
    + apply handleVisualKey_same.
      destruct (keyIs (key ev) "g") eqn:E; [|reflexivity].
      apply String.eqb_eq in E. rewrite E in GG. discriminate.
  - intros V L.
    assert (m' = snd (handleVisualMode (key ev) (ctrlKey ev) (shiftKey ev) m)) as ->.
    { unfold m', handleKeyDown. rewrite En. destruct V as [-> | ->]; reflexivity. }
    unfold handleVisualMode. rewrite T. fold leaving. rewrite L. cbv zeta. simpl snd.
    split; [|same_chain].
    destruct (leaveVisual_frame
                (setSelectionRange (selectionStart ta) (selectionStart ta) nodirection m))
      as (_ & _ & _ & _ & _ & Mo & _).
    exact Mo.
Qed.

Lemma next_key_and_pending_key_witness :
  let ta := mkTextarea (buf "abc") 1 2 forward (Some visual) in
  let m := mkVim true (mkVimState visual [] (Some 1)) [] [] (Some "g"%string) (Some 1)
             (Some ta) [1] 2 [] [] in
  (enabled m = true /\ textarea m = Some ta /\ timerOk m /\
   truthy (pendingKey m) = true /\
   (mode (state m) = visual \/ mode (state m) = visual_line) /\
   keyIs (key (plain "Escape")) "Escape" ||
     (ctrlKey (plain "Escape") && keyIs (key (plain "Escape")) "[") = true) /\
  pendingKey (snd (handleKeyDown (plain "Escape") m)) = Some "g"%string.
Proof.
  intros ta m.
  assert (timerOk m) as Ok.
  { unfold timerOk. simpl. split; [reflexivity|]. split; [congruence|].
    right; left; reflexivity. }
  split.
  { split; [reflexivity|]. split; [reflexivity|]. split; [exact Ok|].
    split; [reflexivity|]. split; [left; reflexivity|reflexivity]. }
  destruct (@next_key_and_pending_key m ta (plain "Escape") eq_refl eq_refl Ok eq_refl)
    as (_ & _ & H).
  destruct (H (or_introl eq_refl) eq_refl) as (_ & (K & _)).
  exact K.
Defined.

(** ** [j] and [k] in Visual-line mode *)

Lemma extendSelectionDownLine_is
    (m : VimModeManager) (ta : HTMLTextAreaElement) (a b : nat) :
  textarea m = Some ta -> visualStart (state m) = Some a ->
  getVisualAnchorAndActive m = (a, b) ->
  extendSelectionDownLine m =
    if lineEndOf (value ta) b <? length (value ta)
    then setSelectionWithDirection a (lineEndOf (value ta) (lineEndOf (value ta) b + 1)) m
    else m.
Proof.
  intros T V G. unfold extendSelectionDownLine, extensionGuard, getLineEnd.
  rewrite T, V, G. reflexivity.
Qed.

Lemma extendSelectionUpLine_is
    (m : VimModeManager) (ta : HTMLTextAreaElement) (a b : nat) :
  textarea m = Some ta -> visualStart (state m) = Some a ->
  getVisualAnchorAndActive m = (a, b) ->
  extendSelectionUpLine m =
    if 0 <? lineStartOf (value ta) b
    then setSelectionWithDirection a (lineStartOf (value ta) b - 1) m
    else m.
Proof.
  intros T V G. unfold extendSelectionUpLine, extensionGuard, getLineStart.
  rewrite T, V, G. reflexivity.
Qed.

Lemma next_line_start (t : Buffer) (e : nat) :
  e < length t -> notNewlineAt t e = false ->
  lineStartOf t (lineEndOf t (e + 1)) = e + 1.
Proof.
  intros L N. unfold lineStartOf. apply getLineStart_loop_from.
  - right. replace (e + 1 - 1) with e by lia. exact N.
  - apply lineEndOf_ge.
  - intros i Li Ui. unfold lineEndOf in Ui.
    apply (@getLineEnd_loop_between t (length t - (e + 1)) (e + 1) i Li Ui).
Qed.

(** X21. [j] and [k] in Visual-line mode, on a selection that is the range
    between the anchor and an active end.  [j] moves the active end to the
    end of the line after the one it is on, and does nothing on the last
    line; a [k] after that brings it back to the end of the line it was
    on.  [k] moves the active end onto the line break in front of the line
    it is on, and does nothing on the first line: the selection then ends
    (or, above the anchor, begins) at that line break, so from the
    selection of one line anchored at its start it keeps just the line
    break before the line. *)
Theorem visual_line_j_and_k
    (m : VimModeManager) (ta : HTMLTextAreaElement) (a b : nat) (c s : bool) :
  enabled m = true -> mode (state m) = visual_line ->
  truthy (pendingKey m) = false ->
  textarea m = Some ta -> visualStart (state m) = Some a ->
  selectionStart ta = Nat.min a b -> selectionEnd ta = Nat.max a b ->
  b <= length (value ta) ->
  let t := value ta in
  let ls := lineStartOf t b in
  let le := lineEndOf t b in
  let sel m := option_map
                 (fun x => (selectionStart x, selectionEnd x, selectionDirection x))
                 (textarea m) in
  let range x := Some (Nat.min a x, Nat.max a x, if x <? a then backward else forward) in
  let go (k : string) m := snd (handleKeyDown (mkKey k c s) m) in
  (length t <= le -> go "j"%string m = m) /\
  (le < length t ->
     sel (go "j"%string m) = range (lineEndOf t (le + 1)) /\
     sel (go "k"%string (go "j"%string m)) = range le) /\
  (ls = 0 -> go "k"%string m = m) /\
  (0 < ls -> sel (go "k"%string m) = range (ls - 1)).
Proof.
  intros En Md Pk T V S E L t ls le sel range go.
  assert (forall m0 t0, enabled m0 = true -> mode (state m0) = visual_line ->
            pendingKey m0 = pendingKey m -> textarea m0 = Some t0 ->
            go "j"%string m0 = extendSelectionDownLine m0 /\
            go "k"%string m0 = extendSelectionUpLine m0)
    as Go.
  { intros m0 t0 E0 M0 K0 T0.
    assert (keyIs "j" "Escape" || c && keyIs "j" "[" = false) as Ej
      by (destruct c; reflexivity).
    assert (keyIs "k" "Escape" || c && keyIs "k" "[" = false) as Ek
      by (destruct c; reflexivity).
    unfold go, handleKeyDown. rewrite E0, M0. simpl negb. cbv iota.
    cbn [key ctrlKey shiftKey]. unfold handleVisualMode. rewrite T0, K0, Pk, Ej, Ek.
    unfold handleVisualKey, isVisualLine. rewrite M0. split; reflexivity. }
  pose proof (@inferred_active m ta a b T V S E) as G.
  destruct (Go m ta En Md eq_refl T) as [Hj Hk].
  rewrite Hj, Hk.
  rewrite (extendSelectionDownLine_is m T V G), (extendSelectionUpLine_is m T V G).
  fold t. fold ls. fold le.
  pose proof (@lineEndOf_le t b L) as Le. fold le in Le.
  split; [|split; [|split]].
  - intros H. destruct (le <? length t) eqn:Q; [apply Nat.ltb_lt in Q; lia|reflexivity].
  - intros H. destruct (le <? length t) eqn:Q; [|apply Nat.ltb_ge in Q; lia].
    set (ne := lineEndOf t (le + 1)).
    destruct (@setSelectionWithDirection_effect m ta a ne T) as (T1 & S1 & E1 & K1 & _).
    set (m1 := setSelectionWithDirection a ne m) in *.
    split; [unfold sel; rewrite T1; reflexivity|].
    assert (visualStart (state m1) = Some a) as V1 by congruence.
    assert (mode (state m1) = visual_line) as M1 by congruence.
    destruct (Go m1 _ (eq_trans E1 En) M1 K1 T1) as [_ Hk1].
    rewrite Hk1.
    rewrite (@extendSelectionUpLine_is m1 _ a ne T1 V1
               (@inferred_active m1 _ a ne T1 V1 eq_refl eq_refl)).
    simpl value. fold t.
    assert (lineStartOf t ne = le + 1) as N.
    { apply next_line_start; [exact H|]. apply lineEndOf_stops. exact H. }
    rewrite N. replace (0 <? le + 1) with true by (symmetry; apply Nat.ltb_lt; lia).
    replace (le + 1 - 1) with le by lia.
    destruct (@setSelectionWithDirection_effect m1 _ a le T1) as (T2 & _).
    unfold sel. rewrite T2. reflexivity.
  - intros H. rewrite H. reflexivity.
  - intros H. replace (0 <? ls) with true by (symmetry; apply Nat.ltb_lt; lia).
    destruct (@setSelectionWithDirection_effect m ta a (ls - 1) T) as (T1 & _).
    unfold sel. rewrite T1. reflexivity.
Qed.

Lemma visual_line_j_and_k_witness :
  let ta := mkTextarea (buf "ab" ++ [newline] ++ buf "cd" ++ [newline] ++ buf "ef")
              3 5 nodirection (Some visual_line) in
  let m := mkVim true (mkVimState visual_line [] (Some 3)) [] [] None None (Some ta)
             [] 1 [] [] in
  (enabled m = true /\ mode (state m) = visual_line /\ truthy (pendingKey m) = false /\
   textarea m = Some ta /\ visualStart (state m) = Some 3 /\
   selectionStart ta = Nat.min 3 5 /\ selectionEnd ta = Nat.max 3 5 /\
   5 <= length (value ta) /\ 0 < lineStartOf (value ta) 5) /\
  option_map (fun x => (selectionStart x, selectionEnd x, selectionDirection x))
    (textarea (snd (handleKeyDown (plain "k") m))) = Some (2, 3, backward).
Proof.
  intros ta m.
  assert (5 <= length (value ta)) as L by (simpl; lia).
  assert (0 < lineStartOf (value ta) 5) as P by (vm_compute; lia).
  split.
  { split; [reflexivity|]. split; [reflexivity|]. split; [reflexivity|].
    split; [reflexivity|]. split; [reflexivity|]. split; [reflexivity|].
    split; [reflexivity|]. split; [exact L|exact P]. }
  destruct (@visual_line_j_and_k m ta 3 5 false false
              eq_refl eq_refl eq_refl eq_refl eq_refl eq_refl eq_refl L)
    as (_ & _ & _ & H).
  exact (H P).
Defined.

(** ** [j] and [k] in Visual mode *)

Lemma extendSelectionDown_is
    (m : VimModeManager) (ta : HTMLTextAreaElement) (a b : nat) :
  textarea m = Some ta -> visualStart (state m) = Some a ->
  getVisualAnchorAndActive m = (a, b) ->
  extendSelectionDown m =
    if length (value ta) <=? lineEndOf (value ta) b then m
    else setSelectionWithDirection a
           (lineEndOf (value ta) b + 1 +
            Nat.max 0 (Nat.min (b - lineStartOf (value ta) b)
                         (lineEndOf (value ta) (lineEndOf (value ta) b + 1) -
                          (lineEndOf (value ta) b + 1)))) m.
Proof.
  intros T V G. unfold extendSelectionDown, extensionGuard, getLineEnd, getLineStart.
  rewrite T, V, G. reflexivity.
Qed.

Lemma extendSelectionUp_is
    (m : VimModeManager) (ta : HTMLTextAreaElement) (a b : nat) :
  textarea m = Some ta -> visualStart (state m) = Some a ->
  getVisualAnchorAndActive m = (a, b) ->
  extendSelectionUp m =
    if lineStartOf (value ta) b =? 0 then m
    else setSelectionWithDirection a
           (lineStartOf (value ta) (lineStartOf (value ta) b - 1) +
            Nat.max 0 (Nat.min (b - lineStartOf (value ta) b)
                         (lineStartOf (value ta) b - 1 -
                          lineStartOf (value ta) (lineStartOf (value ta) b - 1)))) m.
Proof.
  intros T V G. unfold extendSelectionUp, extensionGuard, getLineStart.
  rewrite T, V, G. reflexivity.
Qed.

(** X22. [j] and [k] in Visual mode, on a selection that is the range
    between the anchor and an active end.  On the last line [j] changes
    nothing, on the first line [k] changes nothing.  Otherwise the active
    end goes to the line below (above), to its own column or to the end of
    that line when the line is shorter; unlike the Normal-mode cursor it
    may come to rest on the line break.  The selection becomes the range
    between the anchor and the new active end. *)
Theorem visual_j_and_k_keep_column
    (m : VimModeManager) (ta : HTMLTextAreaElement) (a b : nat) (c s : bool) :
  enabled m = true -> mode (state m) = visual ->
  truthy (pendingKey m) = false ->
  textarea m = Some ta -> visualStart (state m) = Some a ->
  selectionStart ta = Nat.min a b -> selectionEnd ta = Nat.max a b ->
  b <= length (value ta) ->
  let t := value ta in
  let ls := lineStartOf t b in
  let le := lineEndOf t b in
  let col := b - ls in
  let sel m := option_map
                 (fun x => (selectionStart x, selectionEnd x, selectionDirection x))
                 (textarea m) in
  let range x := Some (Nat.min a x, Nat.max a x, if x <? a then backward else forward) in
  let go (k : string) m := snd (handleKeyDown (mkKey k c s) m) in
  (length t <= le -> go "j"%string m = m) /\
  (le < length t ->
     let ns := le + 1 in
     let ne := lineEndOf t ns in
     let target := ns + Nat.min col (ne - ns) in
     lineStartOf t target = ns /\ target <= ne /\
     (col <= ne - ns -> target - ns = col) /\
     sel (go "j"%string m) = range target) /\
  (ls = 0 -> go "k"%string m = m) /\
  (0 < ls ->
     let ps := lineStartOf t (ls - 1) in
     let target := ps + Nat.min col (ls - 1 - ps) in
     lineStartOf t target = ps /\ target <= ls - 1 /\
     (col <= ls - 1 - ps -> target - ps = col) /\
     sel (go "k"%string m) = range target).
Proof.
  intros En Md Pk T V S E L t ls le col sel range go.
  assert (go "j"%string m = extendSelectionDown m /\
          go "k"%string m = extendSelectionUp m) as [Hj Hk].
  { assert (keyIs "j" "Escape" || c && keyIs "j" "[" = false) as Ej
      by (destruct c; reflexivity).
    assert (keyIs "k" "Escape" || c && keyIs "k" "[" = false) as Ek
      by (destruct c; reflexivity).
    unfold go, handleKeyDown. rewrite En, Md. simpl negb. cbv iota.
    cbn [key ctrlKey shiftKey]. unfold handleVisualMode. rewrite T, Pk, Ej, Ek.
    unfold handleVisualKey, isVisualLine. rewrite Md. split; reflexivity. }
  pose proof (@inferred_active m ta a b T V S E) as G.
  rewrite Hj, Hk.
  rewrite (extendSelectionDown_is m T V G), (extendSelectionUp_is m T V G).
  fold t. fold ls. fold le. fold col. simpl Nat.max.
  pose proof (@lineEndOf_le t b L) as Le. fold le in Le.
  pose proof (lineStartOf_le t b) as Ls. fold ls in Ls.
  split; [|split; [|split]].
  - intros H. destruct (length t <=? le) eqn:Q; [reflexivity|apply Nat.leb_gt in Q; lia].
  - intros More ns ne target.
    destruct (length t <=? le) eqn:Q; [apply Nat.leb_le in Q; lia|].
    pose proof (lineEndOf_ge t ns) as Hne. fold ne in Hne.
    assert (target <= ne) as Ht by (unfold target; lia).
    split; [|split; [exact Ht|split; [unfold target; lia|]]].
    + unfold lineStartOf. apply getLineStart_loop_from.
      * right. unfold ns. rewrite Nat.add_sub. apply lineEndOf_stops. exact More.
      * unfold target. lia.
      * intros i Li Ui. apply (@getLineEnd_loop_between t (length t - ns) ns i Li).
        fold (lineEndOf t ns). fold ne. lia.
    + fold ns. fold ne. fold target.
      destruct (@setSelectionWithDirection_effect m ta a target T) as (T1 & _).
      unfold sel. rewrite T1. reflexivity.
  - intros Z. rewrite Z. reflexivity.
  - intros P ps target.
    destruct (ls =? 0) eqn:Q; [apply Nat.eqb_eq in Q; lia|].
    pose proof (lineStartOf_le t (ls - 1)) as Hps. fold ps in Hps.
    assert (target <= ls - 1) as Ht by (unfold target; lia).
    split; [|split; [exact Ht|split; [unfold target; lia|]]].
    + unfold ps, lineStartOf. apply getLineStart_loop_same_line; [|exact Ht].
      fold (lineStartOf t (ls - 1)). fold ps. unfold target. lia.
    + fold ps. fold target.
      destruct (@setSelectionWithDirection_effect m ta a target T) as (T1 & _).
      unfold sel. rewrite T1. reflexivity.
Qed.

Lemma visual_j_and_k_keep_column_witness :
  let ta := mkTextarea (buf "abc" ++ [newline] ++ buf "d") 2 3 forward (Some visual) in
  let m := mkVim true (mkVimState visual [] (Some 2)) [] [] None None (Some ta)
             [] 1 [] [] in
  (enabled m = true /\ mode (state m) = visual /\ truthy (pendingKey m) = false /\
   textarea m = Some ta /\ visualStart (state m) = Some 2 /\
   selectionStart ta = Nat.min 2 3 /\ selectionEnd ta = Nat.max 2 3 /\
   3 <= length (value ta) /\ lineEndOf (value ta) 3 < length (value ta)) /\
  option_map (fun x => (selectionStart x, selectionEnd x, selectionDirection x))
    (textarea (snd (handleKeyDown (plain "j") m))) = Some (2, 5, forward).
Proof.
  intros ta m.
  assert (3 <= length (value ta)) as L by (simpl; lia).
  assert (lineEndOf (value ta) 3 < length (value ta)) as P by (vm_compute; lia).
  split.
  { split; [reflexivity|]. split; [reflexivity|]. split; [reflexivity|].
    split; [reflexivity|]. split; [reflexivity|]. split; [reflexivity|].
    split; [reflexivity|]. split; [exact L|exact P]. }
  destruct (@visual_j_and_k_keep_column m ta 2 3 false false
              eq_refl eq_refl eq_refl eq_refl eq_refl eq_refl eq_refl L)
    as (_ & H & _).
  destruct (H P) as (_ & _ & _ & R).
  exact R.
Defined.

(** ** The mode callback *)

Ltac ann_close H :=
  unfold announced, lastModeChange in *; simpl in H |- *;
  rewrite ?fold_left_app; simpl;
  first [exact H | left; reflexivity].

Ltac ann_tac m :=
  let H := fresh "H" in
  intros H; break_state m; vim_unfold; split_ifs; ann_close H.

Lemma setMode_announced (md : VimMode) (m : VimModeManager) : announced (setMode md m).
Proof.
  break_state m; vim_unfold; split_ifs;
    unfold announced, lastModeChange; simpl; rewrite ?fold_left_app; simpl;
    left; reflexivity.
Qed.

Lemma saveState_announced (m : VimModeManager) : announced m -> announced (saveState m).
Proof. ann_tac m. Qed.

Ltac ann_after_save m :=
  let H := fresh "H" in
  intros H; cbv zeta; apply saveState_announced in H; revert H;
  generalize (saveState m); clear m; intros m; ann_tac m.

Lemma set_visualStart_announced (v : option nat) (m : VimModeManager) :
  announced m -> announced (set_state (set_visualStart v (state m)) m).
Proof. ann_tac m. Qed.
Lemma set_enabled_announced (b : bool) (m : VimModeManager) :
  announced m -> announced (set_enabled b m).
Proof. ann_tac m. Qed.
Lemma set_textarea_announced (ta : option HTMLTextAreaElement) (m : VimModeManager) :
  announced m -> announced (set_textarea ta m).
Proof. ann_tac m. Qed.
Lemma set_pendingPaste_announced (x : list PasteJob) (m : VimModeManager) :
  announced m -> announced (set_pendingPaste x m).
Proof. ann_tac m. Qed.
Lemma setSelectionRange_announced (a b : nat) (d : SelectionDirection)
    (m : VimModeManager) :
  announced m -> announced (setSelectionRange a b d m).
Proof. ann_tac m. Qed.
Lemma windowClose_announced (m : VimModeManager) :
  announced m -> announced (emit OnWindowClose m).
Proof. ann_tac m. Qed.
Lemma setSelectionWithDirection_announced (a b : nat) (m : VimModeManager) :
  announced m -> announced (setSelectionWithDirection a b m).
Proof. ann_tac m. Qed.
Lemma setPendingKey_announced (k : string) (m : VimModeManager) :
  announced m -> announced (setPendingKey k m).
Proof. ann_tac m. Qed.
Lemma clearPendingKey_announced (m : VimModeManager) :
  announced m -> announced (clearPendingKey m).
Proof. ann_tac m. Qed.
Lemma cleanup_announced (m : VimModeManager) : announced m -> announced (cleanup m).
Proof. ann_tac m. Qed.
Lemma timerFires_announced (id : nat) (m : VimModeManager) :
  announced m -> announced (timerFires id m).
Proof.
  unfold timerFires. destruct (in_dec Nat.eq_dec id (timers m)); [|tauto].
  destruct m; exact (fun H => H).
Qed.
Lemma moveCursorLeft_announced (m : VimModeManager) :
  announced m -> announced (moveCursorLeft m).
Proof. ann_tac m. Qed.
Lemma moveCursorRight_announced (m : VimModeManager) :
  announced m -> announced (moveCursorRight m).
Proof. ann_tac m. Qed.
Lemma moveCursorUp_announced (m : VimModeManager) :
  announced m -> announced (moveCursorUp m).
Proof. ann_tac m. Qed.
Lemma moveCursorDown_announced (m : VimModeManager) :
  announced m -> announced (moveCursorDown m).
Proof. ann_tac m. Qed.
Lemma moveCursorToStart_announced (m : VimModeManager) :
  announced m -> announced (moveCursorToStart m).
Proof. ann_tac m. Qed.
Lemma moveCursorToEnd_announced (m : VimModeManager) :
  announced m -> announced (moveCursorToEnd m).
Proof. ann_tac m. Qed.
Lemma moveCursorToLineStart_announced (m : VimModeManager) :
  announced m -> announced (moveCursorToLineStart m).
Proof. ann_tac m. Qed.
Lemma moveCursorToLineEnd_announced (m : VimModeManager) :
  announced m -> announced (moveCursorToLineEnd m).
Proof. ann_tac m. Qed.
Lemma yankCurrentLine_announced (m : VimModeManager) :
  announced m -> announced (yankCurrentLine m).
Proof. ann_tac m. Qed.
Lemma yankSelection_announced (m : VimModeManager) :
  announced m -> announced (yankSelection m).
Proof. ann_tac m. Qed.
Lemma extendSelectionLeft_announced (m : VimModeManager) :
  announced m -> announced (extendSelectionLeft m).
Proof. ann_tac m. Qed.
Lemma extendSelectionRight_announced (m : VimModeManager) :
  announced m -> announced (extendSelectionRight m).
Proof. ann_tac m. Qed.
Lemma extendSelectionUp_announced (m : VimModeManager) :
  announced m -> announced (extendSelectionUp m).
Proof. ann_tac m. Qed.
Lemma extendSelectionDown_announced (m : VimModeManager) :
  announced m -> announced (extendSelectionDown m).
Proof. ann_tac m. Qed.
Lemma extendSelectionUpLine_announced (m : VimModeManager) :
  announced m -> announced (extendSelectionUpLine m).
Proof. ann_tac m. Qed.
Lemma extendSelectionDownLine_announced (m : VimModeManager) :
  announced m -> announced (extendSelectionDownLine m).
Proof. ann_tac m. Qed.
Lemma pasteAfterCursor_announced (m : VimModeManager) :
  announced m -> announced (pasteAfterCursor m).
Proof. ann_tac m. Qed.
Lemma pasteBeforeCursor_announced (m : VimModeManager) :
  announced m -> announced (pasteBeforeCursor m).
Proof. ann_tac m. Qed.
Lemma replaceSelectionWithYank_announced (m : VimModeManager) :
  announced m -> announced (replaceSelectionWithYank m).
Proof. ann_tac m. Qed.
Lemma deleteCharAtCursor_announced (m : VimModeManager) :
  announced m -> announced (deleteCharAtCursor m).
Proof. unfold deleteCharAtCursor. ann_after_save m. Qed.
Lemma deleteCurrentLine_announced (m : VimModeManager) :
  announced m -> announced (deleteCurrentLine m).
Proof. unfold deleteCurrentLine. ann_after_save m. Qed.
Lemma deleteSelection_announced (m : VimModeManager) :
  announced m -> announced (deleteSelection m).
Proof. unfold deleteSelection. ann_after_save m. Qed.
Lemma insertLineBelow_announced (m : VimModeManager) :
  announced m -> announced (insertLineBelow m).
Proof. unfold insertLineBelow. ann_after_save m. Qed.
Lemma insertLineAbove_announced (m : VimModeManager) :
  announced m -> announced (insertLineAbove m).
Proof. unfold insertLineAbove. ann_after_save m. Qed.

Lemma undo_announced (m : VimModeManager) : announced m -> announced (undo m).
Proof.
  intros H. unfold undo. destruct (length (undoStack m) =? 0); [exact H|].
  destruct (textarea m) as [ta|] eqn:T; [|exact H]. cbv zeta.
  destruct (pop _) as [[st rest]|]; break_state m; try discriminate; ann_close H.
Qed.

Lemma redo_announced (m : VimModeManager) : announced m -> announced (redo m).
Proof.
  intros H. unfold redo. destruct (length (redoStack m) =? 0); [exact H|].
  destruct (textarea m) as [ta|] eqn:T; [|exact H]. cbv zeta.
  destruct (pop _) as [[st rest]|]; break_state m; try discriminate; ann_close H.
Qed.

Lemma runPasteJob_announced (clip : option Buffer) (j : PasteJob) (m : VimModeManager) :
  announced m -> announced (runPasteJob clip j m).
Proof.
  intros H.
  destruct j; unfold runPasteJob, pasteAfterCursor_body, pasteBeforeCursor_body,
    replaceSelectionWithYank_body; cbv zeta;
    (destruct (length (pasteSource clip m) =? 0); [exact H|]);
    generalize (pasteSource clip m); intros txt;
    apply saveState_announced in H; revert H;
    generalize (saveState m); clear m; intros m; ann_tac m.
Qed.

Lemma resolvePaste_announced (clip : option Buffer) (m : VimModeManager) :
  announced m -> announced (resolvePaste clip m).
Proof.
  intros H. unfold resolvePaste. destruct (pendingPaste m) as [|j rest]; [exact H|].
  apply runPasteJob_announced, set_pendingPaste_announced, H.
Qed.

Lemma setEnabled_announced (b : bool) (m : VimModeManager) : announced (setEnabled b m).
Proof.
  unfold setEnabled. cbv zeta. destruct b.
  - apply saveState_announced, setMode_announced.
  - apply setMode_announced.
Qed.

Ltac ann_chain H :=
  repeat first
    [ exact H
    | apply setMode_announced
    | match goal with |- announced (if ?b then _ else _) => destruct b end
    | apply set_visualStart_announced | apply setSelectionRange_announced
    | apply setSelectionWithDirection_announced | apply windowClose_announced
    | apply setPendingKey_announced | apply clearPendingKey_announced
    | apply saveState_announced | apply undo_announced | apply redo_announced
    | apply moveCursorLeft_announced | apply moveCursorRight_announced
    | apply moveCursorUp_announced | apply moveCursorDown_announced
    | apply moveCursorToStart_announced | apply moveCursorToEnd_announced
    | apply moveCursorToLineStart_announced | apply moveCursorToLineEnd_announced
    | apply deleteCharAtCursor_announced | apply deleteCurrentLine_announced
    | apply yankCurrentLine_announced | apply yankSelection_announced
    | apply deleteSelection_announced
    | apply insertLineBelow_announced | apply insertLineAbove_announced
    | apply extendSelectionLeft_announced | apply extendSelectionRight_announced
    | apply extendSelectionUp_announced | apply extendSelectionDown_announced
    | apply extendSelectionUpLine_announced | apply extendSelectionDownLine_announced
    | match goal with
      | |- announced (pasteAfterCursor _) => apply pasteAfterCursor_announced
      | |- announced (pasteBeforeCursor _) => apply pasteBeforeCursor_announced
      | |- announced (replaceSelectionWithYank _) =>
          apply replaceSelectionWithYank_announced
      end ].

Lemma handleNormalMode_announced (k : string) (c s : bool) (m : VimModeManager) :
  announced m -> announced (snd (handleNormalMode k c s m)).
Proof.
  intros H. unfold handleNormalMode.
  destruct (textarea m) as [ta|]; [|exact H].
  destruct (truthy (pendingKey m)); cbv zeta.
  - split_keys; simpl snd; ann_chain H.
  - destruct (keyIs k "g" || keyIs k "d" || keyIs k "y");
      split_keys; try destruct s; simpl snd; ann_chain H.
Qed.

Lemma handleVisualKey_announced (k : string) (ta : HTMLTextAreaElement)
    (m : VimModeManager) :
  announced m -> announced (snd (handleVisualKey k ta m)).
Proof.
  intros H. unfold handleVisualKey. cbv zeta.
  split_keys; simpl snd; ann_chain H.
Qed.

Lemma handleVisualMode_announced (k : string) (c s : bool) (m : VimModeManager) :
  announced m -> announced (snd (handleVisualMode k c s m)).
Proof.
  intros H. unfold handleVisualMode.
  destruct (textarea m) as [ta|] eqn:T; [|exact H].
  destruct (keyIs k "Escape" || c && keyIs k "[").
  - cbv zeta. simpl snd. apply setMode_announced.
  - destruct (truthy (pendingKey m)).
    + cbv zeta. destruct (keyIs _ "gg").
      * simpl snd. ann_chain H.
      * apply handleVisualKey_announced, clearPendingKey_announced, H.
    + apply handleVisualKey_announced, H.
Qed.

Lemma handleKeyDown_announced (ev : KeyboardEvent) (m : VimModeManager) :
  announced m -> announced (snd (handleKeyDown ev m)).
Proof.
  intros H. unfold handleKeyDown.
  destruct (negb (enabled m)); [exact H|].
  destruct (mode (state m)).
  - apply handleNormalMode_announced, H.
  - unfold handleInsertMode. destruct (keyIs _ "Escape" || _ && _); [|exact H].
    cbv zeta. simpl snd. apply moveCursorLeft_announced, setMode_announced.
  - apply handleVisualMode_announced, H.
  - apply handleVisualMode_announced, H.
Qed.

Lemma perform_announced (call : EngineCall) (m : VimModeManager) :
  announced m -> announced (perform call m).
Proof.
  intros H. destruct call; simpl perform.
  - apply handleKeyDown_announced, H.
  - apply setEnabled_announced.
  - apply cleanup_announced, H.
  - apply timerFires_announced, H.
  - apply resolvePaste_announced, H.
  - apply saveState_announced, H.
  - apply undo_announced, H.
  - apply redo_announced, H.
  - apply set_textarea_announced, H.
Qed.

(** X23. The mode callback over every run.  Whatever is done to a fresh
    engine (keys, switching on and off, [cleanup], timers expiring, pastes
    settling, the stack methods, the page replacing the textarea), the
    mode the engine is in is the mode it last passed to [onModeChange];
    as long as it has announced none, it is in the Normal mode it is
    created in. *)
Theorem mode_is_the_one_announced (cs : list EngineCall) (ta : option HTMLTextAreaElement) :
  announced (performAll cs (newVimModeManager ta)).
Proof.
  assert (forall m, announced m -> announced (performAll cs m)) as All.
  { induction cs as [|call cs IH]; intros m H; [exact H|].
    simpl. apply IH, perform_announced, H. }
  apply All. right. split; reflexivity.
Qed.
